(** * A3TTask: the masked-region speech-editing controller

    A shallow embedding of [src/tasks/tts/a3t.py] (class [A3TTask]) and the
    properties its specification states about it.

    Conventions of the embedding.
    - A torch tensor is a shape together with an index function and the
      [requires_grad] flag; element-wise operators broadcast as torch does
      (two sizes are compatible when they are equal or one of them is 1).
    - A float tensor holds IEEE-754 binary32 values, torch's default dtype,
      with the operations of the Standard Library's [SpecFloat]
      (round to nearest, ties to even).
    - A Python exception is a value of [pyerr]; a method that may raise
      returns [res A].
    - The task object [self] is a record; a method that mutates it returns
      the updated record.
    - External collaborators (the acoustic model, the vocoder, the token
      encoder, the three alignment metrics, torch reductions) are fields of
      the records [A3TTask] and [Metrics]: nothing is assumed about them.
    - The logger and the plotting routine of the base task are only written
      to: the calls made to them are recorded, in order, as [LogEvent]s. *)

From Stdlib Require Import ZArith Bool List Lia String Ascii.
From Stdlib Require Import Floats.SpecFloat.
From Stdlib Require Import Decimal DecimalFacts DecimalN.
From Stdlib Require Import Sorted.
From stdpp Require Import base option list strings gmap.

Local Open Scope Z_scope.

(** ** Python exceptions and the result of a call *)

Inductive pyerr :=
| AssertionError (msg : string)
| KeyError (key : string)
| IndexError
| TypeError
| ValueError
| RuntimeError
| ZeroDivisionError.

Inductive res (A : Type) :=
| Ok (a : A)
| Raise (e : pyerr).
Arguments Ok {A} a.
Arguments Raise {A} e.

#[global] Instance res_ret : MRet res := fun A a => Ok a.
#[global] Instance res_bind : MBind res := fun A B f m =>
  match m with
  | Ok a => f a
  | Raise e => Raise e
  end.

#[global] Instance res_fmap : FMap res := fun A B f m =>
  match m with
  | Ok a => Ok (f a)
  | Raise e => Raise e
  end.

Definition returns {A} (r : res A) : Prop := exists a, r = Ok a.

(** ** IEEE-754 binary32 *)

Module F32.

Definition prec : Z := 24.
Definition emax : Z := 128.

Definition t := spec_float.

Definition zero : t := S754_zero false.
Definition neg_zero : t := S754_zero true.
Definition one : t := S754_finite false 8388608 (-23).
Definition inf : t := S754_infinity false.
Definition nan : t := S754_nan.

Definition add : t -> t -> t := SFadd prec emax.
Definition sub : t -> t -> t := SFsub prec emax.
Definition mul : t -> t -> t := SFmul prec emax.
Definition div : t -> t -> t := SFdiv prec emax.
Definition abs : t -> t := SFabs.
Definition eqb : t -> t -> bool := SFeqb.

(** Conversion of a Python int (or an int64 element) to binary32. *)
Definition of_Z (n : Z) : t := binary_normalize prec emax n 0 false.

(** Exact dyadic constants [m * 2^e], rounded to binary32. *)
Definition dyadic (m e : Z) : t := binary_normalize prec emax m e false.

(** A well-formed binary32 datum. *)
Definition valid (x : t) : bool := valid_binary prec emax x.

Definition is_finite (x : t) : bool :=
  match x with
  | S754_zero _ | S754_finite _ _ _ => true
  | _ => false
  end.

Definition is_zero (x : t) : bool :=
  match x with
  | S754_zero _ => true
  | _ => false
  end.

Definition is_nan (x : t) : bool :=
  match x with
  | S754_nan => true
  | _ => false
  end.

End F32.

(** ** Tensors *)

(** Rank 0 (a scalar tensor, e.g. a loss). *)
Record T0 := { item : F32.t; rg0 : bool }.

(** Ranks 1 to 3, over an element type [A] (binary32, int64 as [Z], bool). *)
Record T1 (A : Type) := { len1 : nat; at1 : nat -> A; rg1 : bool }.
Record T2 (A : Type) := { rows2 : nat; cols2 : nat; at2 : nat -> nat -> A; rg2 : bool }.
Record T3 (A : Type) :=
  { dim0 : nat; dim1 : nat; dim2 : nat; at3 : nat -> nat -> nat -> A; rg3 : bool }.
Arguments len1 {A} _. Arguments at1 {A} _ _. Arguments rg1 {A} _.
Arguments rows2 {A} _. Arguments cols2 {A} _. Arguments at2 {A} _ _ _. Arguments rg2 {A} _.
Arguments dim0 {A} _. Arguments dim1 {A} _. Arguments dim2 {A} _.
Arguments at3 {A} _ _ _ _. Arguments rg3 {A} _.

(** torch's broadcasting rule for one dimension. *)
Definition bdim (n m : nat) : res nat :=
  if Nat.eqb n m then Ok n
  else if Nat.eqb n 1 then Ok m
  else if Nat.eqb m 1 then Ok n
  else Raise RuntimeError.

(** The index read in a dimension of size [n] (a size-1 dimension is expanded). *)
Definition bidx (n i : nat) : nat := if Nat.eqb n 1 then 0%nat else i.

(** An element-wise binary operator on rank-3 tensors, with broadcasting. *)
Definition t3_zip {A B C} (f : A -> B -> C) (x : T3 A) (y : T3 B) : res (T3 C) :=
  d0 ← bdim (dim0 x) (dim0 y);
  d1 ← bdim (dim1 x) (dim1 y);
  d2 ← bdim (dim2 x) (dim2 y);
  mret {| dim0 := d0; dim1 := d1; dim2 := d2;
          at3 := fun b t c =>
            f (at3 x (bidx (dim0 x) b) (bidx (dim1 x) t) (bidx (dim2 x) c))
              (at3 y (bidx (dim0 y) b) (bidx (dim1 y) t) (bidx (dim2 y) c));
          rg3 := rg3 x || rg3 y |}.

Definition t3_map {A B} (f : A -> B) (x : T3 A) : T3 B :=
  {| dim0 := dim0 x; dim1 := dim1 x; dim2 := dim2 x;
     at3 := fun b t c => f (at3 x b t c); rg3 := rg3 x |}.

(** [x * y], [x + y] on float tensors, and [s - x] for a Python number [s]. *)
Definition t3_mul : T3 F32.t -> T3 F32.t -> res (T3 F32.t) := t3_zip F32.mul.
Definition t3_add : T3 F32.t -> T3 F32.t -> res (T3 F32.t) := t3_zip F32.add.
Definition t3_rsub (s : Z) (x : T3 F32.t) : T3 F32.t := t3_map (F32.sub (F32.of_Z s)) x.

(** [m[:, :, None]]: a trailing dimension of size 1. *)
Definition unsqueeze_last {A} (m : T2 A) : T3 A :=
  {| dim0 := rows2 m; dim1 := cols2 m; dim2 := 1;
     at3 := fun b t _ => at2 m b t; rg3 := rg2 m |}.

(** [x[0]]: the first item of a batch. *)
Definition t3_first {A} (x : T3 A) : res (T2 A) :=
  if Nat.eqb (dim0 x) 0 then Raise IndexError
  else Ok {| rows2 := dim1 x; cols2 := dim2 x; at2 := at3 x 0%nat; rg2 := rg3 x |}.

Definition t2_first {A} (x : T2 A) : res (T1 A) :=
  if Nat.eqb (rows2 x) 0 then Raise IndexError
  else Ok {| len1 := cols2 x; at1 := at2 x 0%nat; rg1 := rg2 x |}.

(** [x.detach()] and [x.data]: the same values, cut from the autograd graph. *)
Definition t3_detach {A} (x : T3 A) : T3 A :=
  {| dim0 := dim0 x; dim1 := dim1 x; dim2 := dim2 x; at3 := at3 x; rg3 := false |}.
Definition t0_data (x : T0) : T0 := {| item := item x; rg0 := false |}.

(** Tensors from nested lists (out of range reads give [d]) and back. *)
Definition t3_of_lists {A} (d : A) (l : list (list (list A))) (g : bool) : T3 A :=
  {| dim0 := length l;
     dim1 := length (List.nth 0 l []);
     dim2 := length (List.nth 0 (List.nth 0 l []) []);
     at3 := fun b t c => List.nth c (List.nth t (List.nth b l []) []) d;
     rg3 := g |}.
Definition t2_of_lists {A} (d : A) (l : list (list A)) (g : bool) : T2 A :=
  {| rows2 := length l;
     cols2 := length (List.nth 0 l []);
     at2 := fun b t => List.nth t (List.nth b l []) d;
     rg2 := g |}.
Definition t3_to_lists {A} (x : T3 A) : list (list (list A)) :=
  List.map (fun b => List.map (fun t => List.map (fun c => at3 x b t c) (seq 0 (dim2 x)))
                       (seq 0 (dim1 x))) (seq 0 (dim0 x)).

(** ** Python strings and dictionaries *)

(** A [str] object is its sequence of Unicode code points; identifiers and
    dictionary keys of the program are Rocq strings. *)
Definition pystr := list N.

Definition py (s : string) : pystr :=
  List.map N_of_ascii (list_ascii_of_string s).

(** An insertion-ordered [dict] with string keys (iteration order matters
    where values are summed). [dict_set] is [d[k] = v]. *)
Definition odict (V : Type) := list (string * V).

Fixpoint dict_set {V} (d : odict V) (k : string) (v : V) : odict V :=
  match d with
  | [] => [(k, v)]
  | (k', v') :: d' =>
      if String.eqb k' k then (k', v) :: d' else (k', v') :: dict_set d' k v
  end.

Fixpoint dict_get {V} (d : odict V) (k : string) : option V :=
  match d with
  | [] => None
  | (k', v') :: d' => if String.eqb k' k then Some v' else dict_get d' k
  end.

(** [d[k]] on an unordered dictionary: [KeyError] when the key is absent. *)
Definition getitem {V} (d : gmap string V) (k : string) : res V :=
  match d !! k with
  | Some v => Ok v
  | None => Raise (KeyError k)
  end.

(** A value of the loss record: a scalar tensor or a plain Python number. *)
Inductive lossval :=
| VTensor (x : T0)
| VInt (n : Z).

(** ** The batch, the model interface and the task object *)

Record Sample := {
  txt_tokens : T2 Z;
  txt_lengths : T1 Z;
  mels : T3 F32.t;
  mel_lengths : T1 Z;
  mel2ph : T2 Z;
  time_mel_masks : T2 F32.t;
  pitch : option (T2 F32.t);
  spk_embed : option (T2 F32.t);
  spk_ids : option (T1 Z);
  text : list (option pystr);
  item_name : list pystr
}.

(** The arguments of [self.model(...)]. [global_step] is passed by the
    training call only. *)
Record ModelArgs := {
  a_txt_tokens : T2 Z;
  a_mel2ph : T2 Z;
  a_pitch : option (T2 F32.t);
  a_spk_embed : option (T2 F32.t);
  a_spk_id : option (T1 Z);
  a_mels : T3 F32.t;
  a_stutter_mel_masks : option (T3 F32.t);
  a_time_mel_masks : T3 F32.t;
  a_infer : bool;
  a_global_step : option Z
}.

(** The model's output dictionary. The entries this file reads are the
    spectrogram estimates and the attention map, all of rank 3. *)
Abbreviation ModelOut := (gmap string (T3 F32.t)).

(** A mel-reconstruction loss: its name in the loss record and the function
    from (estimate, target) to a scalar. *)
Record MelLoss := {
  loss_name : string;
  loss_fn : T3 F32.t -> T3 F32.t -> F32.t
}.

(** The learning-rate schedule: the arguments of its [step] calls, most
    recent first. Its position is the last one. *)
Record Scheduler := { step_calls : list Z }.

Definition sched_step (s : Scheduler) (num_updates : Z) : Scheduler :=
  {| step_calls := num_updates :: step_calls s |}.


(** The entries of [hparams] the task reads. [save_attn] is read with
    [hparams.get('save_attn', False)]. *)
Record HParams := {
  accumulate_grad_batches : Z;
  save_gt : bool;
  save_attn : option bool
}.

Definition Wav := list F32.t.

(** One job of [saving_result_pool]: the arguments of [save_result]. *)
Record Job := {
  job_wav : Wav;
  job_mel : T2 F32.t;
  job_base_fn : pystr;
  job_gen_dir : pystr;
  job_str_phs : pystr;
  job_mel2ph : option (T1 Z)
}.

Record A3TTask := {
  model : ModelArgs -> ModelOut;
  mel_loss : MelLoss;
  spec2wav : T2 F32.t -> Wav;
  token_decode : T1 Z -> option bool -> pystr;
  seg_idx : Z;
  gen_dir : pystr;
  hparams : HParams;
  global_step : Z;
  scheduler : option (list Scheduler);
  model_out : ModelOut;
  model_out_gt : ModelOut;
  saving_result_pool : list Job;
  saved_attn : list (pystr * T2 F32.t)
}.

(** Modelled from the spec: [FastSpeechTask.add_mel_loss], inherited from
    tasks/tts/fs.py, which is not among the source files. Per the
    specification it computes a mel-reconstruction loss between its first two
    arguments and records it under a stage-qualified name. The loss tracks
    gradients when one of its inputs does. *)
Definition add_mel_loss (L : MelLoss) (mel_out target : T3 F32.t)
    (losses : odict lossval) (postfix : string) : odict lossval :=
  dict_set losses (loss_name L +:+ postfix)
    (VTensor {| item := loss_fn L mel_out target;
                rg0 := rg3 mel_out || rg3 target |}).

(** ** [run_model] *)

(** The composited spectrogram of lines 73 and 88:
    [predicted * mask + mels * (1 - mask)]. *)
Definition composite (predicted ground_truth mask : T3 F32.t) : res (T3 F32.t) :=
  pm ← t3_mul predicted mask;
  gm ← t3_mul ground_truth (t3_rsub 1 mask);
  t3_add pm gm.

Definition model_args (self : A3TTask) (sample : Sample)
    (time_mel_masks : T3 F32.t) (infer : bool) : ModelArgs :=
  {| a_txt_tokens := txt_tokens sample;
     a_mel2ph := mel2ph sample;
     a_pitch := pitch sample;
     a_spk_embed := spk_embed sample;
     a_spk_id := spk_ids sample;
     a_mels := mels sample;
     a_stutter_mel_masks := None;
     a_time_mel_masks := time_mel_masks;
     a_infer := infer;
     a_global_step := if infer then None else Some (global_step self) |}.

(** The branch [if not infer] (lines 59-75): returns [(losses, output)]. *)
Definition run_model_train (self : A3TTask) (sample : Sample)
    : res (odict lossval * ModelOut) :=
  let time_mel_masks := unsqueeze_last (time_mel_masks sample) in
  let output := model self (model_args self sample time_mel_masks false) in
  let losses : odict lossval := [] in
  dec ← getitem output "mel_out_decoder";
  dec_m ← t3_mul dec time_mel_masks;
  tgt_m ← t3_mul (mels sample) time_mel_masks;
  let losses := add_mel_loss (mel_loss self) dec_m tgt_m losses "_decoder" in
  post ← getitem output "mel_out_postnet";
  post_m ← t3_mul post time_mel_masks;
  tgt_m' ← t3_mul (mels sample) time_mel_masks;
  let losses := add_mel_loss (mel_loss self) post_m tgt_m' losses "_postnet" in
  post' ← getitem output "mel_out_postnet";
  mel_out ← composite post' (mels sample) time_mel_masks;
  let output := <["mel_out" := mel_out]> output in
  mret (losses, output).

(** The branch [else] (lines 77-89): returns [output]. *)
Definition run_model_infer (self : A3TTask) (sample : Sample) : res ModelOut :=
  let time_mel_masks := unsqueeze_last (time_mel_masks sample) in
  let output := model self (model_args self sample time_mel_masks true) in
  pred ← getitem output "mel_out";
  mel_out ← composite pred (mels sample) time_mel_masks;
  let output := <["mel_out" := mel_out]> output in
  mret output.

(** [run_model(sample, infer)]: a pair in training mode, the output
    dictionary in inference mode. *)
Definition run_model (self : A3TTask) (sample : Sample) (infer : bool)
    : res (odict lossval * ModelOut + ModelOut) :=
  if negb infer then inl <$> run_model_train self sample
  else inr <$> run_model_infer self sample.

(** ** [_training_step] *)

(** The value of Python's [sum]: the int it starts from, or a tensor. *)
Inductive total :=
| TotalInt (n : Z)
| TotalTensor (x : T0).

(** [w * v] for a Python int [w] and a scalar tensor [v]
    ([Tensor.__rmul__]: [w] is converted to the tensor's dtype). *)
Definition t0_rmul (w : Z) (v : T0) : T0 :=
  {| item := F32.mul (item v) (F32.of_Z w); rg0 := rg0 v |}.

(** [acc + x] as [sum] computes it: [Tensor.__radd__] while [acc] is still
    the int it started from, tensor addition afterwards. *)
Definition py_add (acc : total) (x : T0) : total :=
  match acc with
  | TotalInt n => TotalTensor {| item := F32.add (item x) (F32.of_Z n); rg0 := rg0 x |}
  | TotalTensor a =>
      TotalTensor {| item := F32.add (item a) (item x); rg0 := rg0 a || rg0 x |}
  end.

Definition py_sum (l : list T0) : total := fold_left py_add l (TotalInt 0).

(** [isinstance(v, torch.Tensor) and v.requires_grad] *)
Definition is_grad_tensor (v : lossval) : bool :=
  match v with
  | VTensor x => rg0 x
  | VInt _ => false
  end.

(** The list comprehension of line 48:
    [[loss_weights.get(k, 1) * v for k, v in loss_output.items()
      if isinstance(v, torch.Tensor) and v.requires_grad]]. *)
Definition weighted_terms (loss_weights : gmap string Z)
    (loss_output : odict lossval) : list T0 :=
  omap (fun kv : string * lossval =>
          match kv.2 with
          | VTensor v =>
              if rg0 v then Some (t0_rmul (default 1 (loss_weights !! kv.1)) v)
              else None
          | VInt _ => None
          end) loss_output.

(** Lines 40-41 and 48-50: the aggregation of a loss record. The weight
    table is the empty dictionary of line 41. *)
Definition aggregate_losses (loss_output : odict lossval) (sample : Sample)
    : total * odict lossval :=
  let loss_weights : gmap string Z := ∅ in
  let total_loss := py_sum (weighted_terms loss_weights loss_output) in
  let loss_output :=
    dict_set loss_output "batch_size" (VInt (Z.of_nat (rows2 (txt_tokens sample)))) in
  (total_loss, loss_output).

Definition set_model_out (self : A3TTask) (m : ModelOut) : A3TTask :=
  {| model := model self; mel_loss := mel_loss self; spec2wav := spec2wav self;
     token_decode := token_decode self; seg_idx := seg_idx self;
     gen_dir := gen_dir self; hparams := hparams self;
     global_step := global_step self; scheduler := scheduler self;
     model_out := m; model_out_gt := m;
     saving_result_pool := saving_result_pool self;
     saved_attn := saved_attn self |}.

(** Lines 39-50. In training mode [run_model] returns the pair; the
    other case of its result does not arise. *)
Definition _training_step (self : A3TTask) (sample : Sample)
    (batch_idx optimizer_idx : Z) : res (A3TTask * (total * odict lossval)) :=
  r ← run_model self sample false;
  match r with
  | inl (loss_output, model_out) =>
      let self := set_model_out self (t3_detach <$> model_out) in
      mret (self, aggregate_losses loss_output sample)
  | inr _ => Raise ValueError
  end.

(** ** [get_attn_stats] *)

Definition t1_map {A B} (f : A -> B) (x : T1 A) : T1 B :=
  {| len1 := len1 x; at1 := fun i => f (at1 x i); rg1 := rg1 x |}.
Definition t2_map {A B} (f : A -> B) (x : T2 A) : T2 B :=
  {| rows2 := rows2 x; cols2 := cols2 x; at2 := fun i j => f (at2 x i j); rg2 := rg2 x |}.

Definition t1_zip {A B C} (f : A -> B -> C) (x : T1 A) (y : T1 B) : res (T1 C) :=
  n ← bdim (len1 x) (len1 y);
  mret {| len1 := n;
          at1 := fun i => f (at1 x (bidx (len1 x) i)) (at1 y (bidx (len1 y) i));
          rg1 := rg1 x || rg1 y |}.

(** [x.float()] on an int64 tensor, [x.eq(k)] on an int64 tensor. *)
Definition t1_float (x : T1 Z) : T1 F32.t := t1_map F32.of_Z x.
Definition t2_eq (k : Z) (x : T2 Z) : T2 bool := t2_map (fun v => Z.eqb v k) x.

(** [x.abs().sum(-1)]: the channel sum of the absolute values of a frame. *)
Definition abs_sum_last (x : T3 F32.t) : T2 F32.t :=
  {| rows2 := dim0 x; cols2 := dim1 x;
     at2 := fun b t =>
       fold_left F32.add
         (List.map (fun c => F32.abs (at3 x b t c)) (seq 0 (dim2 x))) F32.zero;
     rg2 := rg3 x |}.

(** [x.eq(0)] on a float tensor. *)
Definition t2_feq0 (x : T2 F32.t) : T2 bool :=
  t2_map (fun v => F32.eqb v (F32.of_Z 0)) x.

(** The three alignment metrics of utils.metrics.diagonal_metrics and the
    torch reduction [mean], all externally supplied. *)
Record Metrics := {
  get_focus_rate : T3 F32.t -> T2 bool -> T2 bool -> T1 F32.t;
  get_phone_coverage_rate : T3 F32.t -> T2 bool -> T2 bool -> T2 bool -> T1 F32.t;
  get_diagonal_focus_rate :
    T3 F32.t -> T1 F32.t -> T1 F32.t -> T2 bool -> T2 bool -> T1 F32.t * T3 bool;
  mean : T1 F32.t -> T0
}.

(** [x.mean()] on a scalar tensor: the mean of its one element. *)
Definition t0_mean (x : T0) : T0 := x.

Definition get_attn_stats (M : Metrics) (self : A3TTask) (attn : T3 F32.t)
    (sample : Sample) (logging_outputs : odict lossval) (prefix : string)
    : res (odict lossval) :=
  let txt_lengths := t1_float (txt_lengths sample) in
  let mel_lengths := t1_float (mel_lengths sample) in
  let src_padding_mask := t2_eq 0 (txt_tokens sample) in
  let target_padding_mask := t2_feq0 (abs_sum_last (mels sample)) in
  let src_seg_mask := t2_eq (seg_idx self) (txt_tokens sample) in
  attn_ks ← t1_zip F32.div txt_lengths mel_lengths;
  let focus_rate :=
    t0_data (mean M (get_focus_rate M attn src_padding_mask target_padding_mask)) in
  let phone_coverage_rate :=
    mean M (get_phone_coverage_rate M attn src_padding_mask src_seg_mask
              target_padding_mask) in
  let '(diagonal_focus_rate, diag_mask) :=
    get_diagonal_focus_rate M attn attn_ks mel_lengths src_padding_mask
      target_padding_mask in
  let logging_outputs :=
    dict_set logging_outputs (prefix +:+ "fr") (VTensor (t0_data (t0_mean focus_rate))) in
  let logging_outputs :=
    dict_set logging_outputs (prefix +:+ "pcr")
      (VTensor (t0_data (t0_mean phone_coverage_rate))) in
  let logging_outputs :=
    dict_set logging_outputs (prefix +:+ "dfr")
      (VTensor (t0_data (mean M diagonal_focus_rate))) in
  mret logging_outputs.

(** ** [on_after_optimization] *)

Definition set_scheduler (self : A3TTask) (s : option (list Scheduler)) : A3TTask :=
  {| model := model self; mel_loss := mel_loss self; spec2wav := spec2wav self;
     token_decode := token_decode self; seg_idx := seg_idx self;
     gen_dir := gen_dir self; hparams := hparams self;
     global_step := global_step self; scheduler := s;
     model_out := model_out self; model_out_gt := model_out_gt self;
     saving_result_pool := saving_result_pool self;
     saved_attn := saved_attn self |}.

(** [a // b] on Python ints. *)
Definition floordiv (a b : Z) : res Z :=
  if Z.eqb b 0 then Raise ZeroDivisionError else Ok (a / b).

Definition on_after_optimization (self : A3TTask) (epoch batch_idx : Z)
    (optimizer_idx : Z) : res A3TTask :=
  match scheduler self with
  | None => Ok self
  | Some l =>
      match l with
      | [] => Raise IndexError
      | s :: rest =>
          n ← floordiv (global_step self) (accumulate_grad_batches (hparams self));
          mret (set_scheduler self (Some (sched_step s n :: rest)))
      end
  end.

(** ** String operations used for the output file names *)

Definition chr (a : ascii) : N := N_of_ascii a.

(** [s.replace(old, new)] for a one-character [old]. *)
Definition replace1 (old : N) (new : pystr) (s : pystr) : pystr :=
  flat_map (fun c => if N.eqb c old then new else [c]) s.

(** The decimal digits of a natural number, as [str(n)] prints them. *)
Fixpoint uint_codes (d : Decimal.uint) : pystr :=
  match d with
  | Decimal.Nil => []
  | Decimal.D0 d => 48%N :: uint_codes d
  | Decimal.D1 d => 49%N :: uint_codes d
  | Decimal.D2 d => 50%N :: uint_codes d
  | Decimal.D3 d => 51%N :: uint_codes d
  | Decimal.D4 d => 52%N :: uint_codes d
  | Decimal.D5 d => 53%N :: uint_codes d
  | Decimal.D6 d => 54%N :: uint_codes d
  | Decimal.D7 d => 55%N :: uint_codes d
  | Decimal.D8 d => 56%N :: uint_codes d
  | Decimal.D9 d => 57%N :: uint_codes d
  end.

Definition digits (n : N) : pystr := uint_codes (N.to_uint n).

Definition zfill (w : nat) (s : pystr) : pystr :=
  repeat 48%N (w - length s) ++ s.

(** [f'{n:06d}']: sign-aware zero padding to width 6. *)
Definition format_06d (n : Z) : pystr :=
  if Z.ltb n 0 then chr "-" :: zfill 5 (digits (Z.abs_N n))
  else zfill 6 (digits (Z.to_N n)).

(** *** The [%] operator, [fmt % arg] for a [str] argument

    CPython's [PyUnicode_Format] with a single non-tuple argument: a
    conversion specifier is [%], an optional mapping key, flags, a width, a
    precision, a length modifier and the conversion character. [repr] and
    [ascii] of the argument are Python builtins, taken as given. *)

Record PyBuiltins := {
  py_repr : pystr -> pystr;
  py_ascii : pystr -> pystr
}.

Inductive fmode :=
| MLit
| MStart
| MFlags (ljust : bool)
| MWidth (ljust : bool) (w : Z)
| MDot (ljust : bool) (w : option Z)
| MPrec (ljust : bool) (w : option Z) (p : Z)
| MConv (ljust : bool) (w : option Z) (p : option Z).

Inductive action :=
| Goto (m : fmode)
| Emit (s : pystr) (used : bool)
| Fail (e : pyerr).

Definition SSIZE_MAX : Z := 9223372036854775807.
Definition INT_MAX : Z := 2147483647.

Definition digit_of (c : N) : option Z :=
  if (N.leb 48 c && N.leb c 57)%bool then Some (Z.of_N c - 48) else None.

Definition pad (ljust : bool) (w : option Z) (s : pystr) : pystr :=
  let n := (Z.to_nat (default 0%Z w) - length s)%nat in
  if ljust then s ++ repeat (chr " ") n else repeat (chr " ") n ++ s.

Definition trunc (p : option Z) (s : pystr) : pystr :=
  match p with
  | Some n => take (Z.to_nat n) s
  | None => s
  end.

Definition is_numeric_conv (c : N) : bool :=
  existsb (N.eqb c)
    (List.map chr ["d"; "i"; "u"; "o"; "x"; "X"; "e"; "E"; "f"; "F"; "g"; "G"]%char).

(** The conversion character [c] has been reached. *)
Definition conv (B : PyBuiltins) (arg : pystr) (used : bool)
    (ljust : bool) (w p : option Z) (c : N) : action :=
  if N.eqb c (chr "%") then Emit [chr "%"] used
  else if used then Fail TypeError
  else if N.eqb c (chr "s") then Emit (pad ljust w (trunc p arg)) true
  else if N.eqb c (chr "r") then Emit (pad ljust w (trunc p (py_repr B arg))) true
  else if N.eqb c (chr "a") then Emit (pad ljust w (trunc p (py_ascii B arg))) true
  else if N.eqb c (chr "c") then
    if Nat.eqb (length arg) 1 then Emit (pad ljust w arg) true else Fail TypeError
  else if is_numeric_conv c then Fail TypeError
  else Fail ValueError.

Definition len_or_conv (B : PyBuiltins) (arg : pystr) (used : bool)
    (ljust : bool) (w p : option Z) (c : N) : action :=
  if (N.eqb c (chr "h") || N.eqb c (chr "l") || N.eqb c (chr "L"))%bool
  then Goto (MConv ljust w p)
  else conv B arg used ljust w p c.

Definition dot_or (B : PyBuiltins) (arg : pystr) (used : bool)
    (ljust : bool) (w : option Z) (c : N) : action :=
  if N.eqb c (chr ".") then Goto (MDot ljust w)
  else len_or_conv B arg used ljust w None c.

Definition width_or (B : PyBuiltins) (arg : pystr) (used : bool)
    (ljust : bool) (c : N) : action :=
  if N.eqb c (chr "*") then Fail TypeError
  else match digit_of c with
       | Some d => Goto (MWidth ljust d)
       | None => dot_or B arg used ljust None c
       end.

Definition flags (B : PyBuiltins) (arg : pystr) (used : bool)
    (ljust : bool) (c : N) : action :=
  if N.eqb c (chr "-") then Goto (MFlags true)
  else if (N.eqb c (chr "+") || N.eqb c (chr " ") || N.eqb c (chr "#")
           || N.eqb c (chr "0"))%bool then Goto (MFlags ljust)
  else width_or B arg used ljust c.

(** One character of the format string. *)
Definition fstep (B : PyBuiltins) (arg : pystr) (m : fmode) (used : bool) (c : N)
    : action :=
  match m with
  | MLit => if N.eqb c (chr "%") then Goto MStart else Emit [c] used
  | MStart => if N.eqb c (chr "(") then Fail TypeError else flags B arg used false c
  | MFlags lj => flags B arg used lj c
  | MWidth lj w =>
      match digit_of c with
      | Some d =>
          if Z.ltb ((SSIZE_MAX - d) / 10) w then Fail ValueError
          else Goto (MWidth lj (w * 10 + d))
      | None => dot_or B arg used lj (Some w) c
      end
  | MDot lj w =>
      if N.eqb c (chr "*") then Fail TypeError
      else match digit_of c with
           | Some d => Goto (MPrec lj w d)
           | None => len_or_conv B arg used lj w (Some 0) c
           end
  | MPrec lj w p =>
      match digit_of c with
      | Some d =>
          if Z.ltb ((INT_MAX - d) / 10) p then Fail ValueError
          else Goto (MPrec lj w (p * 10 + d))
      | None => len_or_conv B arg used lj w (Some p) c
      end
  | MConv lj w p => conv B arg used lj w p c
  end.

Fixpoint pymod_go (B : PyBuiltins) (arg : pystr) (m : fmode) (used : bool)
    (fmt : pystr) : res pystr :=
  match fmt with
  | [] =>
      match m with
      | MLit => if used then Ok [] else Raise TypeError
      | _ => Raise ValueError
      end
  | c :: rest =>
      match fstep B arg m used c with
      | Goto m' => pymod_go B arg m' used rest
      | Emit s used' => (fun r => s ++ r) <$> pymod_go B arg MLit used' rest
      | Fail e => Raise e
      end
  end.

Definition pymod (B : PyBuiltins) (fmt arg : pystr) : res pystr :=
  pymod_go B arg MLit false fmt.

(** ** [test_step] *)

(** A value of the description record returned by [test_step]. *)
Inductive descval :=
| DStr (s : pystr)
| DNone.

Definition desc_of_text (t : option pystr) : descval :=
  match t with
  | Some s => DStr s
  | None => DNone
  end.

(** [l[0]] on a Python list. *)
Definition list_first {A} (l : list A) : res A :=
  match l with
  | x :: _ => Ok x
  | [] => Raise IndexError
  end.

(** [x.cpu().numpy()]: refused for a tensor that requires grad. *)
Definition numpy1 {A} (x : T1 A) : res (T1 A) :=
  if rg1 x then Raise RuntimeError else Ok x.
Definition numpy2 {A} (x : T2 A) : res (T2 A) :=
  if rg2 x then Raise RuntimeError else Ok x.

Definition add_job (self : A3TTask) (j : Job) : A3TTask :=
  {| model := model self; mel_loss := mel_loss self; spec2wav := spec2wav self;
     token_decode := token_decode self; seg_idx := seg_idx self;
     gen_dir := gen_dir self; hparams := hparams self;
     global_step := global_step self; scheduler := scheduler self;
     model_out := model_out self; model_out_gt := model_out_gt self;
     saving_result_pool := saving_result_pool self ++ [j];
     saved_attn := saved_attn self |}.

(** [np.save(path, attn)] *)
Definition np_save (self : A3TTask) (path : pystr) (x : T2 F32.t) : A3TTask :=
  {| model := model self; mel_loss := mel_loss self; spec2wav := spec2wav self;
     token_decode := token_decode self; seg_idx := seg_idx self;
     gen_dir := gen_dir self; hparams := hparams self;
     global_step := global_step self; scheduler := scheduler self;
     model_out := model_out self; model_out_gt := model_out_gt self;
     saving_result_pool := saving_result_pool self;
     saved_attn := saved_attn self ++ [(path, x)] |}.

(** Lines 167-170: the file name template, with its [%s] marker slot. *)
Definition make_base_fn (batch_idx : Z) (item_name : pystr) (text : option pystr)
    : pystr :=
  let base_fn :=
    py "[" ++ format_06d batch_idx ++ py "]["
       ++ replace1 (chr "%") (py "_") item_name ++ py "][%s]" in
  let base_fn :=
    match text with
    | Some t => base_fn ++ take 80 (replace1 (chr ":") (py "$3A") t)
    | None => base_fn
    end in
  replace1 (chr " ") (py "_") base_fn.

(** Lines 157-189. A raised exception abandons the step. The [print] of
    line 182 writes the two shapes to the standard output and is left out.
    In inference mode [run_model] returns the output dictionary; the other
    case of its result does not arise. *)
Definition test_step (B : PyBuiltins) (self : A3TTask) (sample : Sample)
    (batch_idx : Z) : res (A3TTask * gmap string descval) :=
  if negb (Nat.eqb (rows2 (txt_tokens sample)) 1)
  then Raise (AssertionError "only support batch_size=1 in inference")
  else
    r ← run_model self sample true;
    outputs ← match r with
              | inr outputs => Ok outputs
              | inl _ => Raise TypeError
              end;
    text ← list_first (text sample);
    item_name ← list_first (item_name sample);
    tokens0 ← t2_first (txt_tokens sample);
    tokens ← numpy1 tokens0;
    mel_gt0 ← t3_first (mels sample);
    mel_gt ← numpy2 mel_gt0;
    mel_out ← getitem outputs "mel_out";
    mel_pred0 ← t3_first mel_out;
    mel_pred ← numpy2 mel_pred0;
    mel2ph0 ← t2_first (mel2ph sample);
    mel2ph ← numpy1 mel2ph0;
    let mel2ph_pred : option (T1 Z) := None in
    let str_phs := token_decode self tokens (Some true) in
    let base_fn := make_base_fn batch_idx item_name text in
    let gen_dir := gen_dir self in
    let wav_pred := spec2wav self mel_pred in
    fn_p ← pymod B base_fn (py "P");
    let self := add_job self
      {| job_wav := wav_pred; job_mel := mel_pred; job_base_fn := fn_p;
         job_gen_dir := gen_dir; job_str_phs := str_phs;
         job_mel2ph := mel2ph_pred |} in
    self ← (if save_gt (hparams self) then
              let wav_gt := spec2wav self mel_gt in
              fn_g ← pymod B base_fn (py "G");
              mret (add_job self
                {| job_wav := wav_gt; job_mel := mel_gt; job_base_fn := fn_g;
                   job_gen_dir := gen_dir; job_str_phs := str_phs;
                   job_mel2ph := Some mel2ph |})
            else mret self);
    self ← (if default false (save_attn (hparams self)) then
              attn_all ← getitem outputs "attn";
              attn0 ← t3_first attn_all;
              attn ← numpy2 attn0;
              mret (np_save self (gen_dir ++ py "/attn/" ++ item_name ++ py ".npy") attn)
            else mret self);
    let ph_tokens := token_decode self tokens None in
    wav_fn_pred ← pymod B base_fn (py "P");
    wav_fn_gt ← pymod B base_fn (py "G");
    mret (self,
          <["item_name" := DStr item_name]>
          (<["text" := desc_of_text text]>
          (<["ph_tokens" := DStr ph_tokens]>
          (<["wav_fn_pred" := DStr wav_fn_pred]>
          (<["wav_fn_gt" := DStr wav_fn_gt]> ∅))))).

(** ** Vocabulary of the statements *)

(** Equal as numbers: identical, or two zeros (whose signs may differ). *)
Definition same_value (x y : F32.t) : Prop :=
  x = y \/ (F32.is_zero x = true /\ F32.is_zero y = true).

(** The compositing rule on one element: [p * m + g * (1 - m)]. *)
Definition composite1 (p g m : F32.t) : F32.t :=
  F32.add (F32.mul p m) (F32.mul g (F32.sub (F32.of_Z 1) m)).

Definition same_shape {A B} (x : T3 A) (y : T3 B) : Prop :=
  dim0 x = dim0 y /\ dim1 x = dim1 y /\ dim2 x = dim2 y.

(** The edit mask covers the frames of a spectrogram batch. *)
Definition mask_fits {A B} (m : T2 A) (x : T3 B) : Prop :=
  rows2 m = dim0 x /\ cols2 m = dim1 x.

Definition in_range {A} (x : T3 A) (b t c : nat) : Prop :=
  (b < dim0 x /\ t < dim1 x /\ c < dim2 x)%nat.

(** The key under which the model returns the estimate that is composited. *)
Definition estimate_key (infer : bool) : string :=
  if infer then "mel_out" else "mel_out_postnet".

(** The output dictionary of a [run_model] result, in either mode. *)
Definition run_output (r : odict lossval * ModelOut + ModelOut) : ModelOut :=
  match r with
  | inl (_, o) => o
  | inr o => o
  end.

(** A finite, well-formed binary32 number. *)
Definition ordinary (v : F32.t) : Prop :=
  F32.valid v = true /\ F32.is_finite v = true.

Definition t3_all {A} (P : A -> Prop) (x : T3 A) : Prop :=
  forall b t c, in_range x b t c -> P (at3 x b t c).

(** Every frame of the mask has the value [v]. *)
Definition all_mask (m : T2 F32.t) (v : F32.t) : Prop :=
  forall b t, (b < rows2 m)%nat -> (t < cols2 m)%nat -> at2 m b t = v.

(** Every frame of the mask is 0 or 1. *)
Definition binary_mask (m : T2 F32.t) : Prop :=
  forall b t, (b < rows2 m)%nat -> (t < cols2 m)%nat ->
    at2 m b t = F32.zero \/ at2 m b t = F32.one.

(** [x + k] for a number [k]. *)
Definition t3_shift (k : F32.t) (x : T3 F32.t) : T3 F32.t :=
  t3_map (fun v => F32.add v k) x.

(** A spectrogram of one frame with one channel, and a mask of one frame. *)
Definition point3 (v : F32.t) : T3 F32.t := t3_of_lists F32.zero [[[v]]] false.
Definition point2 (v : F32.t) : T2 F32.t := t2_of_lists F32.zero [[v]] false.

Definition f32_half : F32.t := F32.dyadic 1 (-1).
Definition f32_ulp_half : F32.t := F32.dyadic 1 (-24).

(** What the model returns for a batch in the given mode. *)
Definition model_output (self : A3TTask) (sample : Sample) (infer : bool) : ModelOut :=
  model self (model_args self sample (unsqueeze_last (time_mel_masks sample)) infer).

(** The model returned an estimate under key [k] with the shape of [g]. *)
Definition has_estimate (out : ModelOut) (k : string) (g : T3 F32.t) : Prop :=
  exists p, out !! k = Some p /\ same_shape p g.

(** The estimates [run_model] reads in the given mode are present and have
    the shape of the ground-truth spectrogram. *)
Definition estimates_fit (out : ModelOut) (g : T3 F32.t) (infer : bool) : Prop :=
  if infer then has_estimate out "mel_out" g
  else has_estimate out "mel_out_decoder" g /\ has_estimate out "mel_out_postnet" g.

Definition nonempty {A} (x : T3 A) : Prop :=
  (0 < dim0 x /\ 0 < dim1 x /\ 0 < dim2 x)%nat.

(** Two tensors of finite numbers that are equal element by element. *)
Definition equal_finite (x y : T3 F32.t) : Prop :=
  same_shape x y /\
  forall b t c, in_range x b t c ->
    F32.is_finite (at3 x b t c) = true /\ F32.eqb (at3 x b t c) (at3 y b t c) = true.

(** Modelled from the spec: the mel-reconstruction loss itself (its
    implementation, in tasks/tts/fs.py, is not among the source files). The
    specification states one law of it: the loss of a spectrogram against
    an equal spectrogram is zero. *)
Definition zero_on_equal (L : MelLoss) : Prop :=
  forall x y, nonempty x -> equal_finite x y -> F32.eqb (loss_fn L x y) F32.zero = true.

(** The sum of absolute differences, an instance of such a loss. *)
Definition t3_indices {A} (x : T3 A) : list (nat * nat * nat) :=
  b ← seq 0 (dim0 x); t ← seq 0 (dim1 x); c ← seq 0 (dim2 x); [(b, t, c)].

Definition l1_sum (x y : T3 F32.t) : F32.t :=
  fold_left F32.add
    (List.map (fun i : nat * nat * nat =>
                 F32.abs (F32.sub (at3 x i.1.1 i.1.2 i.2) (at3 y i.1.1 i.1.2 i.2)))
              (t3_indices x))
    F32.zero.

Definition l1_loss : MelLoss := {| loss_name := "l1"; loss_fn := l1_sum |}.

(** ** The scenario of the specification, as data

    One utterance of 4 mel frames with 1 channel and 2 text tokens, mask
    [0,0,1,1], a model that predicts 9 everywhere, ground truth 1 everywhere. *)

Definition f32_9 : F32.t := F32.of_Z 9.

Definition demo_estimate (g : bool) : T3 F32.t :=
  t3_of_lists F32.zero [[[f32_9]; [f32_9]; [f32_9]; [f32_9]]] g.

Definition demo_model (g : bool) (a : ModelArgs) : ModelOut :=
  if a_infer a then {[ "mel_out" := demo_estimate g ]}
  else <["mel_out_decoder" := demo_estimate g]> {[ "mel_out_postnet" := demo_estimate g ]}.

Definition demo_sample : Sample :=
  {| txt_tokens := t2_of_lists 0 [[5; 7]] false;
     txt_lengths := {| len1 := 1; at1 := fun _ => 2; rg1 := false |};
     mels := t3_of_lists F32.zero [[[F32.one]; [F32.one]; [F32.one]; [F32.one]]] false;
     mel_lengths := {| len1 := 1; at1 := fun _ => 4; rg1 := false |};
     mel2ph := t2_of_lists 0 [[1; 1; 2; 2]] false;
     time_mel_masks := t2_of_lists F32.zero [[F32.zero; F32.zero; F32.one; F32.one]] false;
     pitch := None; spk_embed := None; spk_ids := None;
     text := [Some (py "hello world")];
     item_name := [py "spk1_utt1"] |}.

(** A task around a model whose outputs track gradients iff [g]. *)
Definition demo_task (g : bool) : A3TTask :=
  {| model := demo_model g; mel_loss := l1_loss;
     spec2wav := fun _ => []; token_decode := fun _ _ => py "HH AH";
     seg_idx := 1; gen_dir := py "out";
     hparams := {| accumulate_grad_batches := 4; save_gt := false; save_attn := None |};
     global_step := 0; scheduler := Some [{| step_calls := [] |}];
     model_out := ∅; model_out_gt := ∅;
     saving_result_pool := []; saved_attn := [] |}.

(** A batch of one frame with one channel, ground truth 1 and the given
    mask value, and a task whose model predicts the given value. *)
Definition point_sample (mask_value : F32.t) : Sample :=
  {| txt_tokens := t2_of_lists 0 [[5]] false;
     txt_lengths := {| len1 := 1; at1 := fun _ => 1; rg1 := false |};
     mels := t3_of_lists F32.zero [[[F32.one]]] false;
     mel_lengths := {| len1 := 1; at1 := fun _ => 1; rg1 := false |};
     mel2ph := t2_of_lists 0 [[1]] false;
     time_mel_masks := t2_of_lists F32.zero [[mask_value]] false;
     pitch := None; spk_embed := None; spk_ids := None;
     text := [None];
     item_name := [py "utt"] |}.

Definition point_task (prediction : F32.t) (g : bool) : A3TTask :=
  {| model := fun _ =>
       <["mel_out" := t3_of_lists F32.zero [[[prediction]]] g]>
       (<["mel_out_decoder" := t3_of_lists F32.zero [[[prediction]]] g]>
        {[ "mel_out_postnet" := t3_of_lists F32.zero [[[prediction]]] g ]});
     mel_loss := l1_loss;
     spec2wav := fun _ => []; token_decode := fun _ _ => [];
     seg_idx := 1; gen_dir := py "out";
     hparams := {| accumulate_grad_batches := 1; save_gt := true; save_attn := None |};
     global_step := 0; scheduler := None;
     model_out := ∅; model_out_gt := ∅;
     saving_result_pool := []; saved_attn := [] |}.

(** ** The aggregation policy in the specification's words

    The total differentiable loss is the weighted sum, in record order,
    over the entries that are tensors and track gradients; the weight of a
    named loss is 1 unless the weight table overrides it. *)





(** The loss record of the specification's aggregation example, and its
    weight table. *)
Definition example_losses : odict lossval :=
  [ ("a", VTensor {| item := F32.of_Z 2; rg0 := true |});
    ("b", VTensor {| item := F32.of_Z 3; rg0 := true |});
    ("c", VTensor {| item := F32.of_Z 5; rg0 := false |}) ].


(** ** The post-optimization hook along a run

    The trainer (not part of this file) owns the counter [global_step] and
    calls the hook after every raw optimizer call. [run_hooks steps] runs the
    hook once per element of [steps], the values of the counter at the
    successive calls. *)

Definition set_global_step (self : A3TTask) (g : Z) : A3TTask :=
  {| model := model self; mel_loss := mel_loss self; spec2wav := spec2wav self;
     token_decode := token_decode self; seg_idx := seg_idx self;
     gen_dir := gen_dir self; hparams := hparams self;
     global_step := g; scheduler := scheduler self;
     model_out := model_out self; model_out_gt := model_out_gt self;
     saving_result_pool := saving_result_pool self;
     saved_attn := saved_attn self |}.

Fixpoint run_hooks (steps : list Z) (self : A3TTask) : res A3TTask :=
  match steps with
  | [] => Ok self
  | g :: steps' =>
      self' ← on_after_optimization (set_global_step self g) 0 0 0;
      run_hooks steps' self'
  end.


(** The schedule of the task: the first of its schedulers. *)
Definition schedule (self : A3TTask) : option Scheduler :=
  match scheduler self with
  | Some (s :: _) => Some s
  | _ => None
  end.

(** The arguments of the schedule's [step] calls, oldest first. *)
Definition schedule_trace (self : A3TTask) : list Z :=
  match schedule self with
  | Some s => rev (step_calls s)
  | None => []
  end.

(** ** Vocabulary for [test_step] *)

(** The call did not end in an [AssertionError]. *)
Definition no_assertion {A} (r : res A) : Prop :=
  match r with
  | Raise (AssertionError _) => False
  | _ => True
  end.

(** The jobs a step added to the persistence queue. *)
Definition new_jobs (before after : A3TTask) : list Job :=
  drop (length (saving_result_pool before)) (saving_result_pool after).

(** The parts of an output file name: the item name and the raw text as
    they appear in it, and the prefix that carries the batch index. *)
Definition clean_item (item_name : pystr) : pystr :=
  replace1 (chr " ") (py "_") (replace1 (chr "%") (py "_") item_name).

Definition clean_text (text : option pystr) : pystr :=
  match text with
  | Some t => replace1 (chr " ") (py "_") (take 80 (replace1 (chr ":") (py "$3A") t))
  | None => []
  end.

Definition path_prefix (batch_idx : Z) : pystr :=
  py "[" ++ format_06d batch_idx ++ py "]".

(** The file name for a marker, up to what the text contributes. *)
Definition file_name (batch_idx : Z) (item_name marker rest : pystr) : pystr :=
  path_prefix batch_idx ++ py "[" ++ clean_item item_name ++ py "]["
    ++ marker ++ py "]" ++ rest.

Definition no_char (c : ascii) (s : pystr) : Prop := Forall (fun x => x <> chr c) s.

(** [repr] and [ascii] for the examples (adequate for strings of letters). *)
Definition quote_builtins : PyBuiltins :=
  {| py_repr := fun s => chr "'" :: s ++ [chr "'"];
     py_ascii := fun s => chr "'" :: s ++ [chr "'"] |}.

(** ** The inputs of the alignment metrics in the specification's words *)

(** Source padding: the token id is 0. *)
Definition src_padding (sample : Sample) : T2 bool :=
  {| rows2 := rows2 (txt_tokens sample); cols2 := cols2 (txt_tokens sample);
     at2 := fun b t => Z.eqb (at2 (txt_tokens sample) b t) 0;
     rg2 := rg2 (txt_tokens sample) |}.

(** Source segment: the token id is the segment index. *)
Definition src_segment (self : A3TTask) (sample : Sample) : T2 bool :=
  {| rows2 := rows2 (txt_tokens sample); cols2 := cols2 (txt_tokens sample);
     at2 := fun b t => Z.eqb (at2 (txt_tokens sample) b t) (seg_idx self);
     rg2 := rg2 (txt_tokens sample) |}.

(** The sum over the channels of the absolute values of a mel frame. *)
Definition frame_abs_sum (sample : Sample) (b t : nat) : F32.t :=
  fold_left F32.add
    (List.map (fun c => F32.abs (at3 (mels sample) b t c)) (seq 0 (dim2 (mels sample))))
    F32.zero.

(** Target padding: the absolute channel sum of the frame equals 0. *)
Definition tgt_padding (sample : Sample) : T2 bool :=
  {| rows2 := dim0 (mels sample); cols2 := dim1 (mels sample);
     at2 := fun b t => F32.eqb (frame_abs_sum sample b t) F32.zero;
     rg2 := rg3 (mels sample) |}.

(** The expected diagonal slope of row [i]: text length over mel length. *)
Definition slope (sample : Sample) (i : nat) : F32.t :=
  F32.div (F32.of_Z (at1 (txt_lengths sample) i)) (F32.of_Z (at1 (mel_lengths sample) i)).

(** The record after [get_attn_stats], as a function of the slopes. *)
Definition report (M : Metrics) (self : A3TTask) (attn : T3 F32.t) (sample : Sample)
    (logging_outputs : odict lossval) (prefix : string) (attn_ks : T1 F32.t)
    : odict lossval :=
  dict_set
    (dict_set
       (dict_set logging_outputs (prefix +:+ "fr")
          (VTensor (t0_data (mean M
             (get_focus_rate M attn (src_padding sample) (tgt_padding sample))))))
       (prefix +:+ "pcr")
       (VTensor (t0_data (mean M
          (get_phone_coverage_rate M attn (src_padding sample)
             (src_segment self sample) (tgt_padding sample))))))
    (prefix +:+ "dfr")
    (VTensor (t0_data (mean M
       (get_diagonal_focus_rate M attn attn_ks (t1_float (mel_lengths sample))
          (src_padding sample) (tgt_padding sample)).1))).

(** The three keys of the alignment report. *)
Definition report_keys (prefix : string) : list string :=
  [prefix +:+ "fr"; prefix +:+ "pcr"; prefix +:+ "dfr"].

(** The batch of the scenario with a raw text that holds a [%]. *)
Definition percent_sample : Sample :=
  {| txt_tokens := txt_tokens demo_sample; txt_lengths := txt_lengths demo_sample;
     mels := mels demo_sample; mel_lengths := mel_lengths demo_sample;
     mel2ph := mel2ph demo_sample; time_mel_masks := time_mel_masks demo_sample;
     pitch := None; spk_embed := None; spk_ids := None;
     text := [Some (py "50% off")];
     item_name := [py "spk1_utt1"] |}.

(** Alignment metrics for the examples: constant per-row scores. *)
Definition demo_metrics : Metrics :=
  {| get_focus_rate := fun _ _ _ => {| len1 := 1; at1 := fun _ => F32.one; rg1 := true |};
     get_phone_coverage_rate := fun _ _ _ _ =>
       {| len1 := 1; at1 := fun _ => f32_half; rg1 := true |};
     get_diagonal_focus_rate := fun a _ _ _ _ =>
       ({| len1 := 1; at1 := fun _ => F32.one; rg1 := true |}, t3_map (fun _ => true) a);
     mean := fun x => {| item := at1 x 0%nat; rg0 := rg1 x |} |}.

(** ** More data for examples *)

(** A task whose model returns nothing. *)
Definition silent_task : A3TTask :=
  {| model := fun _ => ∅; mel_loss := l1_loss;
     spec2wav := fun _ => []; token_decode := fun _ _ => [];
     seg_idx := 1; gen_dir := py "out";
     hparams := {| accumulate_grad_batches := 0; save_gt := false; save_attn := None |};
     global_step := 7; scheduler := Some [];
     model_out := ∅; model_out_gt := ∅;
     saving_result_pool := []; saved_attn := [] |}.

(** The batch of the scenario with another edit mask. *)
Definition with_mask (m : T2 F32.t) (sample : Sample) : Sample :=
  {| txt_tokens := txt_tokens sample; txt_lengths := txt_lengths sample;
     mels := mels sample; mel_lengths := mel_lengths sample;
     mel2ph := mel2ph sample; time_mel_masks := m;
     pitch := pitch sample; spk_embed := spk_embed sample; spk_ids := spk_ids sample;
     text := text sample; item_name := item_name sample |}.

(** A mask of two frames (the scenario has four), and a mask of one frame. *)
Definition two_frame_mask : T2 F32.t := t2_of_lists F32.zero [[F32.zero; F32.one]] false.
Definition one_frame_mask : T2 F32.t := t2_of_lists F32.zero [[F32.one]] false.


(** The estimate [run_model] multiplies by the mask first. *)
Definition first_key (infer : bool) : string :=
  if infer then "mel_out" else "mel_out_decoder".

(** ** Vocabulary and data for the further properties *)

(** The values of the entries of a loss record that are tensors and track
    gradients, in record order. *)
Definition grad_values (loss_output : odict lossval) : list F32.t :=
  omap (fun kv : string * lossval =>
          match kv.2 with
          | VTensor v => if rg0 v then Some (item v) else None
          | VInt _ => None
          end) loss_output.

(** The file written by [np.save] for an item: its raw name under
    [<gen_dir>/attn/]. *)
Definition attn_path (self : A3TTask) (item_name : pystr) : pystr :=
  gen_dir self ++ py "/attn/" ++ item_name ++ py ".npy".

(** An attention map of 4 frames by 2 tokens, and a task that saves ground
    truth and attention maps, around a model that returns this map besides
    its estimate. *)
Definition demo_attn : T3 F32.t :=
  t3_of_lists F32.zero
    [[[F32.one; F32.zero]; [F32.one; F32.zero]; [F32.zero; F32.one]; [F32.zero; F32.one]]]
    false.

Definition attn_task : A3TTask :=
  {| model := fun _ => <["attn" := demo_attn]> {[ "mel_out" := demo_estimate false ]};
     mel_loss := l1_loss;
     spec2wav := fun _ => []; token_decode := fun _ _ => py "HH AH";
     seg_idx := 1; gen_dir := py "out";
     hparams := {| accumulate_grad_batches := 1; save_gt := true; save_attn := Some true |};
     global_step := 0; scheduler := None;
     model_out := ∅; model_out_gt := ∅;
     saving_result_pool := []; saved_attn := [] |}.

(** A binary32 datum that is +inf or NaN. *)
Definition inf_or_nan (v : F32.t) : Prop := v = F32.inf \/ v = F32.nan.

(** A spectrogram of one frame with two channels. *)
Definition frame2 (v w : F32.t) : T3 F32.t := t3_of_lists F32.zero [[[v; w]]] false.

(** The batch of the scenario with another ground-truth spectrogram. *)
Definition with_mels (x : T3 F32.t) (sample : Sample) : Sample :=
  {| txt_tokens := txt_tokens sample; txt_lengths := txt_lengths sample;
     mels := x; mel_lengths := mel_lengths sample;
     mel2ph := mel2ph sample; time_mel_masks := time_mel_masks sample;
     pitch := pitch sample; spk_embed := spk_embed sample; spk_ids := spk_ids sample;
     text := text sample; item_name := item_name sample |}.

(** ** [save_valid_result] *)

(** The entries of [hparams] that [save_valid_result] reads. *)
Record ValidHParams := {
  audio_sample_rate : Z;
  valid_infer_interval : Z;
  dur_level : pystr
}.

(** What [save_valid_result] hands to the plotting routine of the base task
    and to the logger, in order: [self.plot_mel(batch_idx, spec, spec_out)],
    [logger.add_audio(tag, wav, step, sample_rate)] and
    [logger.add_figure(tag, spec_to_figure(spec), step)]. *)
Inductive LogEvent :=
| PlotMel (batch_idx : Z) (spec spec_out : T3 F32.t)
| AddAudio (tag : pystr) (wav : Wav) (step sample_rate : Z)
| AddFigure (tag : pystr) (spec : T2 F32.t) (step : Z).

(** [str(n)] for a Python int, as an f-string formats it. *)
Definition str_int (n : Z) : pystr :=
  if Z.ltb n 0 then chr "-" :: digits (Z.abs_N n) else digits (Z.to_N n).

(** Lines 94-109. The plotting routine [plot_mel] of the base task, the
    logger and [spec_to_figure] are external and only written to: the calls
    made to them are appended to [log] in the order they are made. The
    vocoder is the field [spec2wav] of the task. A raised exception abandons
    the step. *)
Definition save_valid_result (vh : ValidHParams) (self : A3TTask)
    (log : list LogEvent) (sample : Sample) (batch_idx : Z) (model_out : ModelOut)
    : res (list LogEvent) :=
  let sr := audio_sample_rate vh in
  mel_out ← getitem model_out "mel_out";
  let log := log ++ [PlotMel batch_idx (mels sample) mel_out] in
  log ← (if Z.ltb 0 (global_step self) then
           mel0 ← t3_first mel_out;
           let wav_pred := spec2wav self mel0 in
           mret (log ++ [AddAudio (py "wav_val_" ++ str_int batch_idx) wav_pred
                           (global_step self) sr])
         else mret log);
  log ← (if Z.leb (global_step self) (valid_infer_interval vh) then
           mel_gt ← t3_first (mels sample);
           let wav_gt := spec2wav self mel_gt in
           mret (log ++ [AddAudio (py "wav_gt_" ++ str_int batch_idx) wav_gt
                           (global_step self) sr])
         else mret log);
  if Z.ltb 0 (global_step self) && bool_decide (dur_level vh = py "word") then
    match model_out !! "attn" with
    | Some attn =>
        attn0 ← t3_first attn;
        mret (log ++ [AddFigure (py "attn_" ++ str_int batch_idx) attn0 (global_step self)])
    | None => mret log
    end
  else mret log.

(** The tag under which an event reaches the logger. *)
Definition event_tag (e : LogEvent) : option pystr :=
  match e with
  | PlotMel _ _ _ => None
  | AddAudio tag _ _ _ => Some tag
  | AddFigure tag _ _ => Some tag
  end.

(** The batch index an event was logged for: the decimal number after the
    last underscore of its tag. *)
Definition tagged_for (batch_idx : Z) (e : LogEvent) : Prop :=
  match event_tag e with
  | Some tag => exists kind, In kind [py "wav_val_"; py "wav_gt_"; py "attn_"] /\
                             tag = kind ++ str_int batch_idx
  | None => True
  end.

(** Validation settings for the examples. *)
Definition demo_valid_hparams : ValidHParams :=
  {| audio_sample_rate := 22050; valid_infer_interval := 5; dur_level := py "word" |}.

(** * Properties *)

(** ** binary32 arithmetic with 0 and 1 *)

Section F32Facts.

Lemma f32_of_Z_1 : F32.of_Z 1 = F32.one.
Proof. reflexivity. Qed.

Lemma f32_of_Z_0 : F32.of_Z 0 = F32.zero.
Proof. reflexivity. Qed.

Lemma f32_sub_one_zero : F32.sub (F32.of_Z 1) F32.zero = F32.one.
Proof. reflexivity. Qed.

Lemma f32_sub_one_one : F32.sub (F32.of_Z 1) F32.one = F32.zero.
Proof. vm_compute. reflexivity. Qed.

Lemma shift23 (m : positive) :
  (m * 8388608 = m~0~0~0~0~0~0~0~0~0~0~0~0~0~0~0~0~0~0~0~0~0~0~0)%positive.
Proof. rewrite Pos.mul_comm. reflexivity. Qed.

(** Multiplying a binary32 value by 1 is exact: the product of the
    mantissas is shifted back by the 23 bits it gained. *)
Lemma f32_mul_one_r (x : F32.t) : F32.valid x = true -> F32.mul x F32.one = x.
Proof.
  destruct x as [s|s| |s m e]; cbn; intros H; try reflexivity;
    rewrite ?xorb_false_r; try reflexivity.
  unfold bounded, canonical_mantissa in H.
  apply andb_prop in H as [Hc He]. apply Z.eqb_eq in Hc.
  unfold binary_round_aux, shr_fexp.
  rewrite shift23. cbn [Zdigits2 digits2_pos].
  match goal with
  | |- context [fexp ?p ?q (Z.pos ?d + (e + -23))] =>
      replace (Z.pos d + (e + -23)) with (Z.pos (digits2_pos m) + e) by lia
  end.
  rewrite Hc. replace (e - (e + -23)) with 23 by lia.
  cbn [shr shr_record_of_loc SpecFloat.iter_pos shr_1 orb].
  cbn [shr_m loc_of_shr_record round_nearest_even].
  replace (e + -23 + 23) with e by lia.
  unfold shr_fexp. cbn [Zdigits2]. rewrite Hc, Z.sub_diag.
  cbn [shr shr_record_of_loc shr_m]. rewrite He. reflexivity.
Qed.

Lemma f32_mul_zero_r (x : F32.t) :
  F32.is_finite x = true -> F32.is_zero (F32.mul x F32.zero) = true.
Proof. destruct x; cbn; intros H; try discriminate; reflexivity. Qed.

Lemma f32_add_zero_l (z x : F32.t) :
  F32.is_zero z = true -> same_value (F32.add z x) x.
Proof.
  destruct z as [sz| | | ]; try discriminate. intros _.
  destruct x as [sx|sx| |sx m e]; cbn; try (left; reflexivity).
  right. destruct sz, sx; split; reflexivity.
Qed.

Lemma f32_add_zero_r (x z : F32.t) :
  F32.is_zero z = true -> same_value (F32.add x z) x.
Proof.
  destruct z as [sz| | | ]; try discriminate. intros _.
  destruct x as [sx|sx| |sx m e]; cbn; try (left; reflexivity).
  right. destruct sz, sx; split; reflexivity.
Qed.

Lemma same_value_refl x : same_value x x.
Proof. left; reflexivity. Qed.

Lemma same_value_sym x y : same_value x y -> same_value y x.
Proof. intros [->|[? ?]]; [left|right]; auto. Qed.

Lemma same_value_trans x y z : same_value x y -> same_value y z -> same_value x z.
Proof.
  intros [->|[Hx Hy]] [->|[Hy' Hz]]; try (left; reflexivity);
    try (right; split; assumption).
Qed.

(** Adding the same number to two equal numbers gives equal numbers. *)
Lemma same_value_add_r x y c : same_value x y -> same_value (F32.add x c) (F32.add y c).
Proof.
  intros [->|[Hx Hy]]; [left; reflexivity|].
  destruct x as [sx| | | ]; try discriminate.
  destruct y as [sy| | | ]; try discriminate.
  destruct c as [sc|sc| |sc m e]; cbn; try (left; reflexivity).
  right. destruct sx, sy, sc; split; reflexivity.
Qed.

(** A number that is equal to a non-zero one is identical to it. *)
Lemma same_value_nonzero x y :
  same_value x y -> F32.is_zero y = false -> x = y.
Proof. intros [->|[_ Hy]] H; [reflexivity | congruence]. Qed.

(** [same_value] refines the comparison [==] on numbers that are not NaN. *)
Lemma same_value_eqb x y :
  same_value x y -> F32.valid y = true -> F32.is_nan y = false -> F32.eqb x y = true.
Proof.
  intros [->|[Hx Hy]] Hv Hn.
  - destruct y as [s|s| |s m e]; try discriminate; cbn; try reflexivity.
    + destruct s; reflexivity.
    + unfold F32.eqb, SFeqb. cbn. rewrite Z.compare_refl.
      destruct s; cbn; rewrite Pos.compare_cont_refl; reflexivity.
  - destruct x; try discriminate. destruct y; try discriminate. reflexivity.
Qed.

End F32Facts.

(** ** The compositing rule on one element *)

Section Composite1.

(** Mask 0: the ground truth, whatever finite value was predicted. *)
Lemma composite1_mask_zero (p g : F32.t) :
  F32.is_finite p = true -> F32.valid g = true ->
  same_value (composite1 p g F32.zero) g.
Proof.
  intros Hp Hg. unfold composite1.
  rewrite f32_sub_one_zero, (f32_mul_one_r g Hg).
  apply f32_add_zero_l, f32_mul_zero_r, Hp.
Qed.

(** Mask 1: the prediction, whatever finite value the ground truth has. *)
Lemma composite1_mask_one (p g : F32.t) :
  F32.valid p = true -> F32.is_finite g = true ->
  same_value (composite1 p g F32.one) p.
Proof.
  intros Hp Hg. unfold composite1.
  rewrite f32_sub_one_one, (f32_mul_one_r p Hp).
  apply f32_add_zero_r, f32_mul_zero_r, Hg.
Qed.

End Composite1.

(** ** Broadcasting on tensors of matching shapes *)

Section Broadcast.

Lemma bdim_same (n : nat) : bdim n n = Ok n.
Proof. unfold bdim. rewrite Nat.eqb_refl. reflexivity. Qed.

Lemma bdim_one_r (n : nat) : bdim n 1 = Ok n.
Proof.
  unfold bdim. destruct (Nat.eqb n 1) eqn:E.
  - apply Nat.eqb_eq in E. subst. reflexivity.
  - reflexivity.
Qed.

Lemma bidx_lt (n i : nat) : (i < n)%nat -> bidx n i = i.
Proof.
  unfold bidx. destruct (Nat.eqb n 1) eqn:E; [|reflexivity].
  apply Nat.eqb_eq in E. lia.
Qed.

Lemma bidx_one (i : nat) : bidx 1 i = 0%nat.
Proof. reflexivity. Qed.

(** [x * m[:, :, None]] where the mask covers the frames of [x]. *)
Lemma t3_mul_mask (x : T3 F32.t) (m : T2 F32.t) :
  mask_fits m x ->
  exists r, t3_mul x (unsqueeze_last m) = Ok r /\ same_shape r x /\
    rg3 r = rg3 x || rg2 m /\
    forall b t c, in_range x b t c ->
      at3 r b t c = F32.mul (at3 x b t c) (at2 m b t).
Proof.
  intros [H0 H1]. unfold t3_mul, t3_zip. cbn [unsqueeze_last dim0 dim1 dim2 rg3].
  rewrite H0, H1, !bdim_same, bdim_one_r. cbn.
  eexists; split; [reflexivity|]. split; [repeat split|]. split; [reflexivity|].
  intros b t c (Hb & Ht & Hc). cbn.
  rewrite !bidx_lt by assumption. reflexivity.
Qed.

(** [x * (1 - m[:, :, None])] where the mask covers the frames of [x]. *)
Lemma t3_mul_rsub_mask (x : T3 F32.t) (m : T2 F32.t) :
  mask_fits m x ->
  exists r, t3_mul x (t3_rsub 1 (unsqueeze_last m)) = Ok r /\ same_shape r x /\
    forall b t c, in_range x b t c ->
      at3 r b t c = F32.mul (at3 x b t c) (F32.sub (F32.of_Z 1) (at2 m b t)).
Proof.
  intros [H0 H1]. unfold t3_mul, t3_zip, t3_rsub, t3_map.
  cbn [unsqueeze_last dim0 dim1 dim2 rg3 at3].
  rewrite H0, H1, !bdim_same, bdim_one_r. cbn.
  eexists; split; [reflexivity|]. split; [repeat split|].
  intros b t c (Hb & Ht & Hc). cbn.
  rewrite !bidx_lt by assumption. reflexivity.
Qed.

Lemma t3_add_same (x y : T3 F32.t) :
  same_shape x y ->
  exists r, t3_add x y = Ok r /\ same_shape r y /\
    forall b t c, in_range y b t c ->
      at3 r b t c = F32.add (at3 x b t c) (at3 y b t c).
Proof.
  intros (H0 & H1 & H2). unfold t3_add, t3_zip.
  rewrite H0, H1, H2, !bdim_same. cbn.
  eexists; split; [reflexivity|]. split; [repeat split|].
  intros b t c (Hb & Ht & Hc). cbn.
  rewrite !bidx_lt by assumption. reflexivity.
Qed.

(** The compositing rule of [run_model], element by element. *)
Lemma composite_spec (p g : T3 F32.t) (m : T2 F32.t) :
  same_shape p g -> mask_fits m g ->
  exists r, composite p g (unsqueeze_last m) = Ok r /\ same_shape r g /\
    forall b t c, in_range g b t c ->
      at3 r b t c = composite1 (at3 p b t c) (at3 g b t c) (at2 m b t).
Proof.
  intros Hpg Hm.
  assert (Hmp : mask_fits m p).
  { destruct Hpg as (E0 & E1 & _), Hm as [M0 M1]. split; congruence. }
  destruct (t3_mul_mask p m Hmp) as (pm & Epm & Spm & _ & Apm).
  destruct (t3_mul_rsub_mask g m Hm) as (gm & Egm & Sgm & Agm).
  assert (Spg : same_shape pm gm).
  { destruct Spm as (?&?&?), Sgm as (?&?&?), Hpg as (?&?&?). repeat split; congruence. }
  destruct (t3_add_same pm gm Spg) as (r & Er & Sr & Ar).
  exists r. unfold composite. rewrite Epm. cbn. rewrite Egm. cbn.
  split; [exact Er|]. split.
  { destruct Sr as (?&?&?), Sgm as (?&?&?). repeat split; congruence. }
  intros b t c Hin.
  assert (Hgm : in_range gm b t c).
  { destruct Sgm as (E0&E1&E2), Hin as (?&?&?). unfold in_range. rewrite E0, E1, E2. auto. }
  assert (Hp : in_range p b t c).
  { destruct Hpg as (E0&E1&E2), Hin as (?&?&?). unfold in_range. rewrite E0, E1, E2. auto. }
  rewrite (Ar _ _ _ Hgm), (Apm _ _ _ Hp), (Agm _ _ _ Hin). reflexivity.
Qed.

End Broadcast.

(** ** The composited spectrogram of [run_model] *)

Section MelOut.

Lemma run_model_infer_spec (self : A3TTask) (sample : Sample) :
  mask_fits (time_mel_masks sample) (mels sample) ->
  estimates_fit (model_output self sample true) (mels sample) true ->
  exists pred mel,
    model_output self sample true !! "mel_out" = Some pred /\
    same_shape pred (mels sample) /\
    run_model_infer self sample =
      Ok (<["mel_out" := mel]> (model_output self sample true)) /\
    composite pred (mels sample) (unsqueeze_last (time_mel_masks sample)) = Ok mel.
Proof.
  intros Hm (pred & Hp & Hs).
  destruct (composite_spec pred (mels sample) (time_mel_masks sample) Hs Hm)
    as (mel & Hc & _).
  exists pred, mel. split; [exact Hp|]. split; [exact Hs|]. split; [|exact Hc].
  unfold run_model_infer. fold (model_output self sample true).
  unfold getitem. rewrite Hp. cbn. rewrite Hc. reflexivity.
Qed.

Lemma run_model_train_spec (self : A3TTask) (sample : Sample) :
  mask_fits (time_mel_masks sample) (mels sample) ->
  estimates_fit (model_output self sample false) (mels sample) false ->
  exists dec post dec_m post_m tgt_m mel,
    model_output self sample false !! "mel_out_decoder" = Some dec /\
    model_output self sample false !! "mel_out_postnet" = Some post /\
    same_shape dec (mels sample) /\ same_shape post (mels sample) /\
    t3_mul dec (unsqueeze_last (time_mel_masks sample)) = Ok dec_m /\
    t3_mul post (unsqueeze_last (time_mel_masks sample)) = Ok post_m /\
    t3_mul (mels sample) (unsqueeze_last (time_mel_masks sample)) = Ok tgt_m /\
    composite post (mels sample) (unsqueeze_last (time_mel_masks sample)) = Ok mel /\
    run_model_train self sample =
      Ok (add_mel_loss (mel_loss self) post_m tgt_m
            (add_mel_loss (mel_loss self) dec_m tgt_m [] "_decoder") "_postnet",
          <["mel_out" := mel]> (model_output self sample false)).
Proof.
  intros Hm [(dec & Hd & Sd) (post & Hp & Sp)].
  assert (Hmd : mask_fits (time_mel_masks sample) dec).
  { destruct Sd as (?&?&_), Hm as [? ?]. split; congruence. }
  assert (Hmp : mask_fits (time_mel_masks sample) post).
  { destruct Sp as (?&?&_), Hm as [? ?]. split; congruence. }
  destruct (t3_mul_mask dec _ Hmd) as (dec_m & Edec & _).
  destruct (t3_mul_mask post _ Hmp) as (post_m & Epost & _).
  destruct (t3_mul_mask (mels sample) _ Hm) as (tgt_m & Etgt & _).
  destruct (composite_spec post (mels sample) (time_mel_masks sample) Sp Hm)
    as (mel & Hc & _).
  exists dec, post, dec_m, post_m, tgt_m, mel.
  repeat (split; [assumption|]).
  unfold run_model_train. fold (model_output self sample false).
  unfold getitem. rewrite Hd. cbn. rewrite Edec. cbn. rewrite Etgt. cbn.
  rewrite Hp. cbn. rewrite Epost. cbn. rewrite Hc. reflexivity.
Qed.

End MelOut.

Section MelOutClaim.

(** C1, as amended. For every batch whose edit mask and model estimates
    have the shape of the ground-truth spectrogram, [run_model] returns in
    training mode as in inference mode, and the tensor it stores under
    ['mel_out'] has the shape of the ground truth and equals, element by
    element, [predicted * mask + ground_truth * (1 - mask)] in binary32
    arithmetic, the mask being the batch's [time_mel_masks] broadcast over
    the channels. Where the mask is 0 and the predicted value is finite the
    composited value is the ground truth; where the mask is 1 and the ground
    truth is finite it is the prediction (equal as numbers: a zero may change
    sign). *)
Theorem run_model_mel_out (self : A3TTask) (sample : Sample) (infer : bool) :
  mask_fits (time_mel_masks sample) (mels sample) ->
  estimates_fit (model_output self sample infer) (mels sample) infer ->
  exists r pred mel,
    run_model self sample infer = Ok r /\
    model_output self sample infer !! estimate_key infer = Some pred /\
    run_output r !! "mel_out" = Some mel /\
    same_shape mel (mels sample) /\
    forall b t c, in_range (mels sample) b t c ->
      at3 mel b t c =
        composite1 (at3 pred b t c) (at3 (mels sample) b t c)
                   (at2 (time_mel_masks sample) b t) /\
      (at2 (time_mel_masks sample) b t = F32.zero ->
       F32.is_finite (at3 pred b t c) = true ->
       F32.valid (at3 (mels sample) b t c) = true ->
       same_value (at3 mel b t c) (at3 (mels sample) b t c)) /\
      (at2 (time_mel_masks sample) b t = F32.one ->
       F32.valid (at3 pred b t c) = true ->
       F32.is_finite (at3 (mels sample) b t c) = true ->
       same_value (at3 mel b t c) (at3 pred b t c)).
Proof.
  intros Hm He.
  assert (Hcore : exists r pred mel,
    run_model self sample infer = Ok r /\
    model_output self sample infer !! estimate_key infer = Some pred /\
    run_output r !! "mel_out" = Some mel /\
    same_shape pred (mels sample) /\
    composite pred (mels sample) (unsqueeze_last (time_mel_masks sample)) = Ok mel).
  { destruct infer.
    - destruct (run_model_infer_spec self sample Hm He) as (pred & mel & Hp & Hs & Hr & Hc).
      exists (inr (<["mel_out" := mel]> (model_output self sample true))), pred, mel.
      unfold run_model. cbn [negb]. rewrite Hr.
      split; [reflexivity|]. split; [exact Hp|].
      split; [apply lookup_insert_eq|]. split; assumption.
    - destruct (run_model_train_spec self sample Hm He)
        as (dec & post & dec_m & post_m & tgt_m & mel & Hd & Hp & Sd & Sp & _ & _ & _ & Hc & Hr).
      eexists (inl (_, <["mel_out" := mel]> (model_output self sample false))), post, mel.
      unfold run_model. cbn [negb]. rewrite Hr.
      split; [reflexivity|]. split; [exact Hp|].
      split; [apply lookup_insert_eq|]. split; assumption. }
  destruct Hcore as (r & pred & mel & Hr & Hp & Hl & Hs & Hc).
  destruct (composite_spec pred (mels sample) (time_mel_masks sample) Hs Hm)
    as (mel' & Hc' & Hshape & Hat).
  rewrite Hc in Hc'. injection Hc' as <-.
  exists r, pred, mel. repeat (split; [assumption|]).
  intros b t c Hin. rewrite (Hat b t c Hin).
  split; [reflexivity|]. split.
  - intros -> Hf Hv. apply composite1_mask_zero; assumption.
  - intros -> Hv Hf. apply composite1_mask_one; assumption.
Qed.

(** The scenario of the specification satisfies the premises, in
    inference mode. *)
Lemma run_model_mel_out_witness :
  exists r pred mel,
    run_model (demo_task false) demo_sample true = Ok r /\
    model_output (demo_task false) demo_sample true !! estimate_key true = Some pred /\
    run_output r !! "mel_out" = Some mel /\
    same_shape mel (mels demo_sample) /\
    forall b t c, in_range (mels demo_sample) b t c ->
      at3 mel b t c =
        composite1 (at3 pred b t c) (at3 (mels demo_sample) b t c)
                   (at2 (time_mel_masks demo_sample) b t) /\
      (at2 (time_mel_masks demo_sample) b t = F32.zero ->
       F32.is_finite (at3 pred b t c) = true ->
       F32.valid (at3 (mels demo_sample) b t c) = true ->
       same_value (at3 mel b t c) (at3 (mels demo_sample) b t c)) /\
      (at2 (time_mel_masks demo_sample) b t = F32.one ->
       F32.valid (at3 pred b t c) = true ->
       F32.is_finite (at3 (mels demo_sample) b t c) = true ->
       same_value (at3 mel b t c) (at3 pred b t c)).
Proof.
  apply (run_model_mel_out (demo_task false) demo_sample true).
  - split; reflexivity.
  - exists (demo_estimate false). split; [reflexivity|]. repeat split.
Defined.

(** The scenario of the specification, computed: ground truth 1 on the two
    preserved frames, the prediction 9 on the two edited frames. *)
Example demo_mel_out :
  (fun r => t3_to_lists <$> run_output r !! "mel_out")
    <$> run_model (demo_task false) demo_sample true
  = Ok (Some [[[F32.one]; [F32.one]; [f32_9]; [f32_9]]]).
Proof. vm_compute. reflexivity. Qed.

(** C1 as stated fails where the prediction is not finite: at a frame whose
    mask is 0 and whose ground truth is 1, a predicted infinity is
    composited to NaN, which is not the ground truth. *)
Lemma run_model_mel_out_not_ground_truth :
  exists out mel,
    run_model (point_task F32.inf false) (point_sample F32.zero) true = Ok (inr out) /\
    out !! "mel_out" = Some mel /\
    at2 (time_mel_masks (point_sample F32.zero)) 0 0 = F32.zero /\
    at3 (mels (point_sample F32.zero)) 0 0 0 = F32.one /\
    at3 mel 0 0 0 = F32.nan /\
    F32.eqb (at3 mel 0 0 0) (at3 (mels (point_sample F32.zero)) 0 0 0) = false.
Proof.
  eexists. eexists. split; [reflexivity|]. split; [reflexivity|].
  repeat split.
Qed.

End MelOutClaim.

(** ** Laws of the compositing rule *)

Section CompositeLaws.

Lemma composite1_shift_binary (p g k m : F32.t) :
  m = F32.zero \/ m = F32.one ->
  ordinary p -> ordinary g ->
  ordinary (F32.add p k) -> ordinary (F32.add g k) ->
  same_value (composite1 (F32.add p k) (F32.add g k) m)
             (F32.add (composite1 p g m) k).
Proof.
  intros Hm [Vp Fp] [Vg Fg] [Vpk Fpk] [Vgk Fgk].
  destruct Hm as [-> | ->].
  - eapply same_value_trans; [apply composite1_mask_zero; assumption|].
    apply same_value_sym, same_value_add_r, composite1_mask_zero; assumption.
  - eapply same_value_trans; [apply composite1_mask_one; assumption|].
    apply same_value_sym, same_value_add_r, composite1_mask_one; assumption.
Qed.

Lemma in_range_mask {A} (m : T2 F32.t) (g : T3 A) b t c :
  mask_fits m g -> in_range g b t c -> (b < rows2 m)%nat /\ (t < cols2 m)%nat.
Proof. intros [-> ->] (?&?&?). split; assumption. Qed.

Lemma in_range_shape {A B} (x : T3 A) (y : T3 B) b t c :
  same_shape x y -> in_range y b t c -> in_range x b t c.
Proof.
  intros (E0 & E1 & E2) (? & ? & ?). unfold in_range.
  rewrite E0, E1, E2. auto.
Qed.

(** C5, as amended. The compositing operation returns a tensor of the shape
    of its operands, and: for an all-zero mask and finite predicted values
    it is the ground truth; for an all-one mask and finite ground-truth
    values it is the prediction; for a mask of zeros and ones, adding one
    constant to both the predicted and the ground-truth tensor adds it to
    the composited tensor, as long as the tensors and the shifted tensors
    hold finite numbers (all three: equal as numbers, a zero may change
    sign). *)
Theorem composite_laws (p g : T3 F32.t) (m : T2 F32.t) (k : F32.t) :
  same_shape p g -> mask_fits m g ->
  exists r,
    composite p g (unsqueeze_last m) = Ok r /\ same_shape r g /\
    (all_mask m F32.zero ->
     t3_all (fun v => F32.is_finite v = true) p ->
     t3_all (fun v => F32.valid v = true) g ->
     forall b t c, in_range g b t c -> same_value (at3 r b t c) (at3 g b t c)) /\
    (all_mask m F32.one ->
     t3_all (fun v => F32.valid v = true) p ->
     t3_all (fun v => F32.is_finite v = true) g ->
     forall b t c, in_range g b t c -> same_value (at3 r b t c) (at3 p b t c)) /\
    (binary_mask m ->
     t3_all ordinary p -> t3_all ordinary g ->
     t3_all ordinary (t3_shift k p) -> t3_all ordinary (t3_shift k g) ->
     exists r',
       composite (t3_shift k p) (t3_shift k g) (unsqueeze_last m) = Ok r' /\
       same_shape r' g /\
       forall b t c, in_range g b t c ->
         same_value (at3 r' b t c) (at3 (t3_shift k r) b t c)).
Proof.
  intros Hs Hm.
  destruct (composite_spec p g m Hs Hm) as (r & Hr & Sr & Ar).
  exists r. split; [exact Hr|]. split; [exact Sr|].
  split; [|split].
  - intros Hz Hp Hg b t c Hin. rewrite (Ar b t c Hin).
    destruct (in_range_mask m g b t c Hm Hin) as [Hb Ht].
    rewrite (Hz b t Hb Ht). apply composite1_mask_zero.
    + apply Hp. eapply in_range_shape; eassumption.
    + apply Hg. exact Hin.
  - intros Ho Hp Hg b t c Hin. rewrite (Ar b t c Hin).
    destruct (in_range_mask m g b t c Hm Hin) as [Hb Ht].
    rewrite (Ho b t Hb Ht). apply composite1_mask_one.
    + apply Hp. eapply in_range_shape; eassumption.
    + apply Hg. exact Hin.
  - intros Hb Hp Hg Hpk Hgk.
    assert (Hs' : same_shape (t3_shift k p) (t3_shift k g)) by exact Hs.
    assert (Hm' : mask_fits m (t3_shift k g)) by exact Hm.
    destruct (composite_spec _ _ m Hs' Hm') as (r' & Hr' & Sr' & Ar').
    exists r'. split; [exact Hr'|]. split; [exact Sr'|].
    intros b t c Hin. rewrite (Ar' b t c Hin). cbn. rewrite (Ar b t c Hin).
    destruct (in_range_mask m g b t c Hm Hin) as [Hb' Ht'].
    assert (Hinp : in_range p b t c) by (eapply in_range_shape; eassumption).
    apply composite1_shift_binary.
    + apply Hb; assumption.
    + apply Hp, Hinp.
    + apply Hg, Hin.
    + apply (Hpk b t c Hinp).
    + apply (Hgk b t c Hin).
Qed.

(** The laws at a point: prediction 9, ground truth 1, mask 1, constant 1. *)
Lemma composite_laws_witness :
  exists r,
    composite (point3 f32_9) (point3 F32.one) (unsqueeze_last (point2 F32.one)) = Ok r /\
    same_shape r (point3 F32.one) /\
    (all_mask (point2 F32.one) F32.zero ->
     t3_all (fun v => F32.is_finite v = true) (point3 f32_9) ->
     t3_all (fun v => F32.valid v = true) (point3 F32.one) ->
     forall b t c, in_range (point3 F32.one) b t c ->
       same_value (at3 r b t c) (at3 (point3 F32.one) b t c)) /\
    (all_mask (point2 F32.one) F32.one ->
     t3_all (fun v => F32.valid v = true) (point3 f32_9) ->
     t3_all (fun v => F32.is_finite v = true) (point3 F32.one) ->
     forall b t c, in_range (point3 F32.one) b t c ->
       same_value (at3 r b t c) (at3 (point3 f32_9) b t c)) /\
    (binary_mask (point2 F32.one) ->
     t3_all ordinary (point3 f32_9) -> t3_all ordinary (point3 F32.one) ->
     t3_all ordinary (t3_shift F32.one (point3 f32_9)) ->
     t3_all ordinary (t3_shift F32.one (point3 F32.one)) ->
     exists r',
       composite (t3_shift F32.one (point3 f32_9)) (t3_shift F32.one (point3 F32.one))
                 (unsqueeze_last (point2 F32.one)) = Ok r' /\
       same_shape r' (point3 F32.one) /\
       forall b t c, in_range (point3 F32.one) b t c ->
         same_value (at3 r' b t c) (at3 (t3_shift F32.one r) b t c)).
Proof.
  apply (composite_laws (point3 f32_9) (point3 F32.one) (point2 F32.one) F32.one).
  - repeat split.
  - split; reflexivity.
Defined.

(** C5 as stated fails in binary32 arithmetic. With an all-zero mask a
    predicted infinity is composited to NaN instead of the ground truth 1;
    and with the mask 1/2, prediction 1, ground truth 0 and constant 2^-24
    (all finite), shifting the operands gives 1/2 where shifting the
    composited value gives 1/2 + 2^-24. *)
Lemma composite_laws_fail :
  (t3_to_lists <$> composite (point3 F32.inf) (point3 F32.one)
                             (unsqueeze_last (point2 F32.zero))
   = Ok [[[F32.nan]]]) /\
  (t3_to_lists <$> composite (t3_shift f32_ulp_half (point3 F32.one))
                             (t3_shift f32_ulp_half (point3 F32.zero))
                             (unsqueeze_last (point2 f32_half))
   = Ok [[[S754_finite false 8388608 (-24)]]]) /\
  (t3_to_lists <$> (t3_shift f32_ulp_half
                      <$> composite (point3 F32.one) (point3 F32.zero)
                                    (unsqueeze_last (point2 f32_half)))
   = Ok [[[S754_finite false 8388609 (-24)]]]) /\
  F32.eqb (S754_finite false 8388608 (-24)) (S754_finite false 8388609 (-24)) = false.
Proof. repeat split. Qed.

End CompositeLaws.

(** ** The masked reconstruction loss *)

Section MaskedLoss.

Lemma f32_eqb_finite_eq (a b : F32.t) :
  F32.is_finite a = true -> F32.eqb a b = true ->
  a = b \/ (F32.is_zero a = true /\ F32.is_zero b = true).
Proof.
  unfold F32.eqb, SFeqb.
  destruct a as [sa|sa| |sa ma ea]; try discriminate; intros _;
    destruct b as [sb|sb| |sb mb eb]; cbn; intros He; try discriminate He.
  - right. split; reflexivity.
  - destruct sb; cbn in He; discriminate He.
  - destruct sb; cbn in He; discriminate He.
  - destruct sa; cbn in He; discriminate He.
  - destruct sb; cbn in He; discriminate He.
  - destruct sa, sb; cbn in He; try discriminate He;
      destruct (Z.compare ea eb) eqn:Ee; cbn in He; try discriminate He;
      apply Z.compare_eq in Ee; subst eb;
      destruct (Pos.compare_cont Eq ma mb) eqn:Em; cbn in He; try discriminate He;
      apply Pos.compare_eq in Em; subst mb; left; reflexivity.
Qed.

Lemma f32_sub_self (a : F32.t) :
  F32.is_finite a = true -> F32.abs (F32.sub a a) = F32.zero.
Proof.
  destruct a as [s|s| |s m e]; try discriminate; intros _.
  - destruct s; reflexivity.
  - unfold F32.sub, SFsub. rewrite Z.min_id. unfold shl_align.
    rewrite !Z.sub_diag. reflexivity.
Qed.

Lemma f32_abs_sub_equal (a b : F32.t) :
  F32.is_finite a = true -> F32.eqb a b = true -> F32.abs (F32.sub a b) = F32.zero.
Proof.
  intros Hf He. destruct (f32_eqb_finite_eq a b Hf He) as [<- | [Ha Hb]].
  - apply f32_sub_self, Hf.
  - destruct a as [sa| | | ]; try discriminate.
    destruct b as [sb| | | ]; try discriminate.
    destruct sa, sb; reflexivity.
Qed.

Lemma fold_add_zeros (l : list F32.t) :
  Forall (fun v => v = F32.zero) l -> fold_left F32.add l F32.zero = F32.zero.
Proof.
  induction 1 as [|v l -> _ IH]; [reflexivity|]. exact IH.
Qed.

Lemma t3_indices_in_range {A} (x : T3 A) (i : nat * nat * nat) :
  i ∈ t3_indices x -> in_range x i.1.1 i.1.2 i.2.
Proof.
  unfold t3_indices. intros H.
  apply list_elem_of_bind in H as (b & H & Hb).
  apply list_elem_of_bind in H as (t & H & Ht).
  apply list_elem_of_bind in H as (c & H & Hc).
  apply list_elem_of_singleton in H. subst i. cbn.
  apply elem_of_seq in Hb, Ht, Hc. unfold in_range. lia.
Qed.

(** The sum of absolute differences satisfies the law of the specification. *)
Lemma l1_loss_zero_on_equal : zero_on_equal l1_loss.
Proof.
  intros x y _ [_ Heq]. cbn. unfold l1_sum.
  rewrite fold_add_zeros; [reflexivity|].
  apply Forall_forall. intros v Hv.
  apply list_elem_of_In, in_map_iff in Hv as (i & <- & Hi).
  apply list_elem_of_In in Hi.
  destruct (Heq _ _ _ (t3_indices_in_range x i Hi)) as [Hf He].
  apply f32_abs_sub_equal; assumption.
Qed.

Lemma append_inj_l (p a b : string) : p +:+ a = p +:+ b -> a = b.
Proof.
  induction p as [|c p IH]; cbn; intros H; [exact H|].
  injection H as H. exact (IH H).
Qed.

Lemma stage_names_differ (name : string) :
  String.eqb (name +:+ "_decoder") (name +:+ "_postnet") = false.
Proof.
  apply String.eqb_neq. intros H. apply append_inj_l in H. discriminate H.
Qed.

(** The loss record of a training batch: one entry per stage. *)
Lemma add_mel_loss_two (L : MelLoss) (a b c d : T3 F32.t) :
  add_mel_loss L c d (add_mel_loss L a b [] "_decoder") "_postnet" =
  [ (loss_name L +:+ "_decoder",
     VTensor {| item := loss_fn L a b; rg0 := rg3 a || rg3 b |});
    (loss_name L +:+ "_postnet",
     VTensor {| item := loss_fn L c d; rg0 := rg3 c || rg3 d |}) ].
Proof.
  unfold add_mel_loss. cbn [dict_set]. rewrite stage_names_differ. reflexivity.
Qed.

End MaskedLoss.

Section MaskedLossClaim.

Lemma zero_zero_equal_finite (x y : T3 F32.t) :
  same_shape x y ->
  (forall b t c, in_range x b t c ->
     F32.is_zero (at3 x b t c) = true /\ F32.is_zero (at3 y b t c) = true) ->
  equal_finite x y.
Proof.
  intros Hs Hz. split; [exact Hs|]. intros b t c Hin.
  destruct (Hz b t c Hin) as [Hx Hy].
  destruct (at3 x b t c); try discriminate.
  destruct (at3 y b t c); try discriminate.
  split; reflexivity.
Qed.

(** C2, as amended. For every training batch whose edit mask and model
    estimates have the shape of the ground-truth spectrogram, [run_model]
    records one loss per stage, computed by the task's mel-reconstruction
    loss between [predicted * mask] and [ground_truth * mask]. At a frame
    whose mask is 0 both arguments are zero wherever the predicted and the
    ground-truth values are finite, so such a frame contributes the same to
    the loss whatever was predicted. If the mask is zero everywhere, the
    batch is not empty and all predicted and ground-truth values are finite,
    then for a loss that is zero on equal spectrograms each stage's loss is
    zero, as is the loss of the masked ground truth against itself. *)
Theorem masked_stage_losses (self : A3TTask) (sample : Sample) :
  mask_fits (time_mel_masks sample) (mels sample) ->
  estimates_fit (model_output self sample false) (mels sample) false ->
  exists dec post dec_m post_m tgt_m out,
    model_output self sample false !! "mel_out_decoder" = Some dec /\
    model_output self sample false !! "mel_out_postnet" = Some post /\
    (forall b t c, in_range (mels sample) b t c ->
       at3 dec_m b t c = F32.mul (at3 dec b t c) (at2 (time_mel_masks sample) b t) /\
       at3 post_m b t c = F32.mul (at3 post b t c) (at2 (time_mel_masks sample) b t) /\
       at3 tgt_m b t c =
         F32.mul (at3 (mels sample) b t c) (at2 (time_mel_masks sample) b t)) /\
    run_model_train self sample =
      Ok ([ (loss_name (mel_loss self) +:+ "_decoder",
             VTensor {| item := loss_fn (mel_loss self) dec_m tgt_m;
                        rg0 := rg3 dec_m || rg3 tgt_m |});
            (loss_name (mel_loss self) +:+ "_postnet",
             VTensor {| item := loss_fn (mel_loss self) post_m tgt_m;
                        rg0 := rg3 post_m || rg3 tgt_m |}) ], out) /\
    (forall b t c, in_range (mels sample) b t c ->
       at2 (time_mel_masks sample) b t = F32.zero ->
       F32.is_finite (at3 dec b t c) = true ->
       F32.is_finite (at3 post b t c) = true ->
       F32.is_finite (at3 (mels sample) b t c) = true ->
       F32.is_zero (at3 dec_m b t c) = true /\
       F32.is_zero (at3 post_m b t c) = true /\
       F32.is_zero (at3 tgt_m b t c) = true) /\
    (all_mask (time_mel_masks sample) F32.zero ->
     nonempty (mels sample) ->
     zero_on_equal (mel_loss self) ->
     t3_all (fun v => F32.is_finite v = true) dec ->
     t3_all (fun v => F32.is_finite v = true) post ->
     t3_all (fun v => F32.is_finite v = true) (mels sample) ->
     F32.eqb (loss_fn (mel_loss self) dec_m tgt_m) F32.zero = true /\
     F32.eqb (loss_fn (mel_loss self) post_m tgt_m) F32.zero = true /\
     F32.eqb (loss_fn (mel_loss self) tgt_m tgt_m) F32.zero = true).
Proof.
  intros Hm He.
  destruct (run_model_train_spec self sample Hm He)
    as (dec & post & dec_m & post_m & tgt_m & mel
        & Hd & Hp & Sd & Sp & Edec & Epost & Etgt & _ & Hr).
  assert (Hmd : mask_fits (time_mel_masks sample) dec).
  { destruct Sd as (?&?&_), Hm as [? ?]. split; congruence. }
  assert (Hmp : mask_fits (time_mel_masks sample) post).
  { destruct Sp as (?&?&_), Hm as [? ?]. split; congruence. }
  destruct (t3_mul_mask dec _ Hmd) as (dec_m' & Edec' & Sdm & _ & Adec).
  destruct (t3_mul_mask post _ Hmp) as (post_m' & Epost' & Spm & _ & Apost).
  destruct (t3_mul_mask (mels sample) _ Hm) as (tgt_m' & Etgt' & Stm & _ & Atgt).
  rewrite Edec in Edec'. injection Edec' as <-.
  rewrite Epost in Epost'. injection Epost' as <-.
  rewrite Etgt in Etgt'. injection Etgt' as <-.
  assert (Hat : forall b t c, in_range (mels sample) b t c ->
     at3 dec_m b t c = F32.mul (at3 dec b t c) (at2 (time_mel_masks sample) b t) /\
     at3 post_m b t c = F32.mul (at3 post b t c) (at2 (time_mel_masks sample) b t) /\
     at3 tgt_m b t c =
       F32.mul (at3 (mels sample) b t c) (at2 (time_mel_masks sample) b t)).
  { intros b t c Hin. split; [|split].
    - apply Adec. eapply in_range_shape; eassumption.
    - apply Apost. eapply in_range_shape; eassumption.
    - apply Atgt, Hin. }
  assert (Hzero : forall b t c, in_range (mels sample) b t c ->
     at2 (time_mel_masks sample) b t = F32.zero ->
     F32.is_finite (at3 dec b t c) = true ->
     F32.is_finite (at3 post b t c) = true ->
     F32.is_finite (at3 (mels sample) b t c) = true ->
     F32.is_zero (at3 dec_m b t c) = true /\
     F32.is_zero (at3 post_m b t c) = true /\
     F32.is_zero (at3 tgt_m b t c) = true).
  { intros b t c Hin Hz Fd Fp Fg.
    destruct (Hat b t c Hin) as (-> & -> & ->). rewrite Hz.
    repeat split; apply f32_mul_zero_r; assumption. }
  exists dec, post, dec_m, post_m, tgt_m, (<["mel_out" := mel]> (model_output self sample false)).
  split; [exact Hd|]. split; [exact Hp|]. split; [exact Hat|].
  split; [rewrite Hr, add_mel_loss_two; reflexivity|].
  split; [exact Hzero|].
  intros Hall Hne Hlaw Fd Fp Fg.
  assert (Hz : forall b t c, in_range (mels sample) b t c ->
     F32.is_zero (at3 dec_m b t c) = true /\
     F32.is_zero (at3 post_m b t c) = true /\
     F32.is_zero (at3 tgt_m b t c) = true).
  { intros b t c Hin.
    destruct (in_range_mask _ _ b t c Hm Hin) as [Hb Ht].
    apply Hzero; try assumption.
    - apply Hall; assumption.
    - apply Fd. eapply in_range_shape; eassumption.
    - apply Fp. eapply in_range_shape; eassumption.
    - apply Fg, Hin. }
  assert (Sdg : same_shape dec_m (mels sample)).
  { destruct Sdm as (?&?&?), Sd as (?&?&?). repeat split; congruence. }
  assert (Spg : same_shape post_m (mels sample)).
  { destruct Spm as (?&?&?), Sp as (?&?&?). repeat split; congruence. }
  assert (Sgt : same_shape (mels sample) tgt_m).
  { destruct Stm as (?&?&?). repeat split; congruence. }
  assert (Nd : nonempty dec_m).
  { destruct Sdg as (E0&E1&E2), Hne as (?&?&?). unfold nonempty. rewrite E0, E1, E2. auto. }
  assert (Np : nonempty post_m).
  { destruct Spg as (E0&E1&E2), Hne as (?&?&?). unfold nonempty. rewrite E0, E1, E2. auto. }
  assert (Nt : nonempty tgt_m).
  { destruct Stm as (E0&E1&E2), Hne as (?&?&?). unfold nonempty. rewrite E0, E1, E2. auto. }
  split; [|split]; apply Hlaw; try assumption; apply zero_zero_equal_finite.
  - destruct Sdg as (?&?&?), Sgt as (?&?&?). repeat split; congruence.
  - intros b t c Hin.
    assert (Hin' : in_range (mels sample) b t c).
    { destruct Sdg as (E0&E1&E2), Hin as (?&?&?). unfold in_range. rewrite <- E0, <- E1, <- E2. auto. }
    destruct (Hz b t c Hin') as (?&?&?). split; assumption.
  - destruct Spg as (?&?&?), Sgt as (?&?&?). repeat split; congruence.
  - intros b t c Hin.
    assert (Hin' : in_range (mels sample) b t c).
    { destruct Spg as (E0&E1&E2), Hin as (?&?&?). unfold in_range. rewrite <- E0, <- E1, <- E2. auto. }
    destruct (Hz b t c Hin') as (?&?&?). split; assumption.
  - repeat split.
  - intros b t c Hin.
    assert (Hin' : in_range (mels sample) b t c).
    { destruct Stm as (E0&E1&E2), Hin as (?&?&?). unfold in_range. rewrite <- E0, <- E1, <- E2. auto. }
    destruct (Hz b t c Hin') as (?&?&?). split; assumption.
Qed.

End MaskedLossClaim.

Section MaskedLossExamples.

Lemma point_in_range {A} (v d : A) (g : bool) b t c :
  in_range (t3_of_lists d [[[v]]] g) b t c -> b = 0%nat /\ t = 0%nat /\ c = 0%nat.
Proof. unfold in_range. cbn. lia. Qed.

Lemma point_all_mask (v : F32.t) : all_mask (time_mel_masks (point_sample v)) v.
Proof.
  intros b t Hb Ht. cbn in Hb, Ht.
  assert (b = 0%nat) as -> by lia. assert (t = 0%nat) as -> by lia. reflexivity.
Qed.

(** A batch with an all-zero mask and the finite prediction 9: both stage
    losses are zero. *)
Lemma masked_stage_losses_witness :
  exists ld lp out,
    run_model_train (point_task f32_9 true) (point_sample F32.zero) =
      Ok ([("l1_decoder", VTensor ld); ("l1_postnet", VTensor lp)], out) /\
    F32.eqb (item ld) F32.zero = true /\ F32.eqb (item lp) F32.zero = true.
Proof.
  destruct (masked_stage_losses (point_task f32_9 true) (point_sample F32.zero))
    as (dec & post & dec_m & post_m & tgt_m & out & Hd & Hp & _ & Hr & _ & Hall).
  - split; reflexivity.
  - split; eexists; (split; [reflexivity | repeat split]).
  - injection Hd as <-. injection Hp as <-.
    destruct Hall as (H1 & H2 & _).
    + apply point_all_mask.
    + repeat split; cbn; lia.
    + apply l1_loss_zero_on_equal.
    + intros b t c Hin. apply point_in_range in Hin as (-> & -> & ->). reflexivity.
    + intros b t c Hin. apply point_in_range in Hin as (-> & -> & ->). reflexivity.
    + intros b t c Hin. apply point_in_range in Hin as (-> & -> & ->). reflexivity.
    + eexists _, _, out. split; [exact Hr|]. split; [exact H1 | exact H2].
Defined.

(** C2 as stated fails for a prediction that is not finite. The sum of
    absolute differences is a loss that is zero on equal spectrograms; on a
    batch whose mask is zero everywhere, with a model that predicts
    infinity, both stage losses are NaN, not zero. *)
Lemma masked_loss_not_zero :
  zero_on_equal l1_loss /\
  all_mask (time_mel_masks (point_sample F32.zero)) F32.zero /\
  (fst <$> run_model_train (point_task F32.inf true) (point_sample F32.zero)) =
    Ok [ ("l1_decoder", VTensor {| item := F32.nan; rg0 := true |});
         ("l1_postnet", VTensor {| item := F32.nan; rg0 := true |}) ] /\
  F32.eqb F32.nan F32.zero = false.
Proof.
  split; [apply l1_loss_zero_on_equal|]. split; [apply point_all_mask|].
  split; reflexivity.
Qed.

End MaskedLossExamples.

(** ** The training objective *)

Section Aggregation.

Lemma dict_get_set {V} (d : odict V) (k k' : string) (v : V) :
  dict_get (dict_set d k v) k' = if String.eqb k k' then Some v else dict_get d k'.
Proof.
  induction d as [|[k0 v0] d IH]; cbn; [reflexivity|].
  destruct (String.eqb k0 k) eqn:E; cbn.
  - apply String.eqb_eq in E. subst k0. destruct (String.eqb k k'); reflexivity.
  - rewrite IH. destruct (String.eqb k0 k') eqn:E0; [|reflexivity].
    apply String.eqb_eq in E0. subst k'.
    rewrite String.eqb_sym, E. reflexivity.
Qed.



Lemma weighted_terms_no_grad (w : gmap string Z) (l : odict lossval) :
  Forall (fun kv : string * lossval => is_grad_tensor kv.2 = false) l ->
  weighted_terms w l = [].
Proof.
  induction 1 as [|[k v] l Hv _ IH]; [reflexivity|].
  unfold weighted_terms in *. cbn in *. destruct v as [x|n]; [|exact IH].
  cbn in Hv. rewrite Hv. exact IH.
Qed.


(** In [_training_step] itself the weights cannot be overridden: on the
    record of the example its aggregation gives 2.0 + 3.0 = 5.0. *)
Example aggregate_example :
  (aggregate_losses example_losses demo_sample).1
  = TotalTensor {| item := F32.of_Z 5; rg0 := true |}.
Proof. vm_compute. reflexivity. Qed.

(** C4, as amended. If the loss record produced for a training batch holds
    no tensor that tracks gradients, [_training_step] raises nothing: it
    returns the Python int 0, the value of the empty sum, as the total loss,
    together with the loss record. *)
Theorem training_step_no_grad (self : A3TTask) (sample : Sample)
    (batch_idx optimizer_idx : Z) (losses : odict lossval) (out : ModelOut) :
  run_model_train self sample = Ok (losses, out) ->
  Forall (fun kv : string * lossval => is_grad_tensor kv.2 = false) losses ->
  _training_step self sample batch_idx optimizer_idx =
    Ok (set_model_out self (t3_detach <$> out),
        (TotalInt 0,
         dict_set losses "batch_size" (VInt (Z.of_nat (rows2 (txt_tokens sample)))))).
Proof.
  intros Hr Hn. unfold _training_step, run_model, aggregate_losses. cbn [negb].
  rewrite Hr. cbn.
  rewrite (weighted_terms_no_grad _ _ Hn). reflexivity.
Qed.

(** A model whose outputs do not track gradients, on the batch of the
    scenario. *)
Lemma training_step_no_grad_witness :
  exists losses out,
    run_model_train (demo_task false) demo_sample = Ok (losses, out) /\
    _training_step (demo_task false) demo_sample 0 0 =
      Ok (set_model_out (demo_task false) (t3_detach <$> out),
          (TotalInt 0, dict_set losses "batch_size" (VInt 1))).
Proof.
  eexists _, _. split; [reflexivity|].
  apply (training_step_no_grad (demo_task false) demo_sample 0 0).
  - reflexivity.
  - repeat constructor.
Defined.

(** C4 as stated fails: with a model whose outputs do not track gradients
    the loss record holds no differentiable entry, and [_training_step]
    returns normally, with total loss 0. *)
Lemma training_step_silent_zero :
  (fun r : A3TTask * (total * odict lossval) =>
     (r.2.1, List.map (fun kv : string * lossval => (kv.1, is_grad_tensor kv.2)) r.2.2))
    <$> _training_step (demo_task false) demo_sample 0 0
  = Ok (TotalInt 0, [("l1_decoder", false); ("l1_postnet", false); ("batch_size", false)]).
Proof. vm_compute. reflexivity. Qed.

End Aggregation.

(** ** The learning-rate schedule *)

Section Schedule.

Lemma hook_step (self : A3TTask) (s : Scheduler) (rest : list Scheduler) (e b o : Z) :
  scheduler self = Some (s :: rest) ->
  accumulate_grad_batches (hparams self) <> 0 ->
  on_after_optimization self e b o =
    Ok (set_scheduler self
          (Some (sched_step s (global_step self / accumulate_grad_batches (hparams self))
                 :: rest))).
Proof.
  intros Hs Hk. unfold on_after_optimization, floordiv. rewrite Hs.
  destruct (Z.eqb_spec (accumulate_grad_batches (hparams self)) 0) as [E|_];
    [contradiction|]. reflexivity.
Qed.

Lemma run_hooks_trace (steps : list Z) (self : A3TTask) (s : Scheduler)
    (rest : list Scheduler) :
  scheduler self = Some (s :: rest) ->
  accumulate_grad_batches (hparams self) <> 0 ->
  exists self' s',
    run_hooks steps self = Ok self' /\
    scheduler self' = Some (s' :: rest) /\
    hparams self' = hparams self /\
    step_calls s' =
      rev (List.map (fun g => g / accumulate_grad_batches (hparams self)) steps)
      ++ step_calls s.
Proof.
  revert self s. induction steps as [|g steps IH]; intros self s Hs Hk.
  - exists self, s. repeat split; assumption.
  - cbn [run_hooks].
    rewrite (hook_step (set_global_step self g) s rest 0 0 0 Hs Hk). cbn [mbind res_bind].
    destruct (IH (set_scheduler (set_global_step self g)
                    (Some (sched_step s (g / accumulate_grad_batches (hparams self)) :: rest)))
                 (sched_step s (g / accumulate_grad_batches (hparams self))))
      as (self' & s' & Hr & Hs' & Hh & Hc); [reflexivity|exact Hk|].
    exists self', s'. split; [exact Hr|]. split; [exact Hs'|]. split; [exact Hh|].
    rewrite Hc. cbn. rewrite <- app_assoc. reflexivity.
Qed.





End Schedule.

(** ** The [%] operator on the file name template *)

Section PercentFormat.

Variable B : PyBuiltins.
Variable arg : pystr.

Lemma fmap_fmap_res {X Y Z'} (f : X -> Y) (g : Y -> Z') (r : res X) :
  g <$> (f <$> r) = (fun x => g (f x)) <$> r.
Proof. destruct r; reflexivity. Qed.

Lemma fmap_ext_res {X Y} (f g : X -> Y) (r : res X) :
  (forall x, f x = g x) -> f <$> r = g <$> r.
Proof. intros H. destruct r; cbn; [rewrite H|]; reflexivity. Qed.

(** Characters other than [%] are copied. *)
Lemma pymod_go_literal (l rest : pystr) (used : bool) :
  Forall (fun c => c <> chr "%") l ->
  pymod_go B arg MLit used (l ++ rest) =
    (fun r => l ++ r) <$> pymod_go B arg MLit used rest.
Proof.
  induction 1 as [|c l Hc _ IH]; cbn [app].
  - destruct (pymod_go B arg MLit used rest); reflexivity.
  - cbn [pymod_go fstep]. apply N.eqb_neq in Hc. rewrite Hc, IH.
    rewrite fmap_fmap_res. reflexivity.
Qed.

Lemma pymod_go_marker (post : pystr) :
  pymod_go B arg MLit false (py "%s" ++ post) =
    (fun r => arg ++ r) <$> pymod_go B arg MLit true post.
Proof. reflexivity. Qed.

(** The first specifier of the template, a plain [%s], takes the argument. *)
Lemma pymod_template (pre post : pystr) :
  Forall (fun c => c <> chr "%") pre ->
  pymod B (pre ++ py "%s" ++ post) arg =
    (fun r => pre ++ arg ++ r) <$> pymod_go B arg MLit true post.
Proof.
  intros Hpre. unfold pymod. rewrite (pymod_go_literal pre _ false Hpre).
  rewrite pymod_go_marker, fmap_fmap_res. reflexivity.
Qed.

Lemma pymod_go_plain (l : pystr) :
  Forall (fun c => c <> chr "%") l -> pymod_go B arg MLit true l = Ok l.
Proof.
  intros H. rewrite <- (app_nil_r l) at 1. rewrite (pymod_go_literal l [] true H).
  cbn. rewrite app_nil_r. reflexivity.
Qed.

(** Once the argument is used, a step can only copy the character it reads. *)
Lemma fstep_used_emit (m : fmode) (c : N) (s : pystr) (u : bool) :
  fstep B arg m true c = Emit s u -> s = [c] /\ u = true.
Proof.
  unfold fstep, flags, width_or, dot_or, len_or_conv, conv.
  intros H.
  repeat match type of H with
         | context [match ?x with _ => _ end] => destruct x eqn:?
         end; try discriminate H; injection H as <- <-;
    try (split; reflexivity);
    match goal with
    | E : N.eqb c _ = true |- _ => apply N.eqb_eq in E; rewrite E; split; reflexivity
    end.
Qed.

Lemma fstep_fail (m : fmode) (used : bool) (c : N) (e : pyerr) :
  fstep B arg m used c = Fail e -> e = TypeError \/ e = ValueError.
Proof.
  unfold fstep, flags, width_or, dot_or, len_or_conv, conv.
  intros H.
  repeat match type of H with
         | context [match ?x with _ => _ end] => destruct x eqn:?
         end; try discriminate H; injection H as <-; auto.
Qed.


Lemma pymod_go_no_assertion (fmt : pystr) (m : fmode) (used : bool) :
  no_assertion (pymod_go B arg m used fmt).
Proof.
  revert m used. induction fmt as [|c fmt IH]; intros m used; cbn [pymod_go].
  - destruct m, used; exact I.
  - destruct (fstep B arg m used c) as [m'|s u|e] eqn:E.
    + apply IH.
    + specialize (IH MLit u). destruct (pymod_go B arg MLit u fmt); [exact I|exact IH].
    + apply fstep_fail in E as [-> | ->]; exact I.
Qed.

End PercentFormat.

(** ** Output file names *)

Section FileNames.

Lemma replace1_app (old : N) (new a b : pystr) :
  replace1 old new (a ++ b) = replace1 old new a ++ replace1 old new b.
Proof. unfold replace1. apply flat_map_app. Qed.

Lemma replace1_id (old : N) (new s : pystr) :
  Forall (fun x => x <> old) s -> replace1 old new s = s.
Proof.
  induction 1 as [|c s Hc _ IH]; [reflexivity|].
  unfold replace1 in *. cbn. apply N.eqb_neq in Hc. rewrite Hc, IH. reflexivity.
Qed.

Lemma replace1_Forall (P : N -> Prop) (old : N) (new s : pystr) :
  Forall P new -> (forall x, In x s -> x <> old -> P x) ->
  Forall P (replace1 old new s).
Proof.
  intros Hnew. induction s as [|c s IH]; intros Hs; [constructor|].
  unfold replace1 in *. cbn [flat_map].
  apply Forall_app. split.
  - destruct (N.eqb_spec c old) as [->|Hne]; [exact Hnew|].
    constructor; [|constructor]. apply Hs; [left; reflexivity|exact Hne].
  - apply IH. intros x Hx. apply Hs. right. exact Hx.
Qed.

(** After [replace(old, new)] no [old] is left, when [new] holds none. *)
Lemma replace1_removes (old : N) (new s : pystr) :
  Forall (fun x => x <> old) new -> Forall (fun x => x <> old) (replace1 old new s).
Proof. intros H. apply replace1_Forall; [exact H|]. intros x _ Hx. exact Hx. Qed.

Lemma uint_codes_digits (d : uint) :
  Forall (fun c => (48 <= c <= 57)%N) (uint_codes d).
Proof. induction d; cbn; constructor; try assumption; lia. Qed.

Lemma uint_codes_inj (d d' : uint) : uint_codes d = uint_codes d' -> d = d'.
Proof.
  revert d'. induction d; destruct d'; cbn; intros H; try discriminate H;
    try reflexivity; injection H as H; f_equal; apply IHd; exact H.
Qed.




Lemma zfill_digits (w : nat) (n : N) :
  Forall (fun c => (48 <= c <= 57)%N) (zfill w (digits n)).
Proof.
  unfold zfill, digits. apply Forall_app. split; [|apply uint_codes_digits].
  apply Forall_forall. intros x Hx. apply list_elem_of_In, repeat_spec in Hx. lia.
Qed.

(** The characters of a formatted batch index: digits, or a leading minus. *)
Lemma format_06d_chars (n : Z) :
  Forall (fun c => c = chr "-" \/ (48 <= c <= 57)%N) (format_06d n).
Proof.
  unfold format_06d. destruct (Z.ltb n 0).
  - constructor; [left; reflexivity|].
    eapply Forall_impl; [apply zfill_digits|]. intros c Hc. right. exact Hc.
  - eapply Forall_impl; [apply zfill_digits|]. intros c Hc. right. exact Hc.
Qed.

Lemma format_06d_no (c : N) (n : Z) :
  c <> chr "-" -> ~ (48 <= c <= 57)%N -> Forall (fun x => x <> c) (format_06d n).
Proof.
  intros H1 H2. eapply Forall_impl; [apply format_06d_chars|].
  intros x [Hx | Hx] Hc; subst c; [apply H1, Hx | apply H2, Hx].
Qed.

(** The batch index is padded to at least 6 characters. *)
Lemma format_06d_width (n : Z) : (6 <= length (format_06d n))%nat.
Proof.
  unfold format_06d, zfill.
  destruct (Z.ltb n 0); cbn [length]; rewrite length_app, repeat_length; lia.
Qed.




(** The template of lines 167-170, part by part. *)
Lemma make_base_fn_parts (batch_idx : Z) (item_name : pystr) (text : option pystr) :
  make_base_fn batch_idx item_name text =
    (path_prefix batch_idx ++ py "[" ++ clean_item item_name ++ py "][")
      ++ py "%s" ++ py "]" ++ clean_text text.
Proof.
  unfold make_base_fn, path_prefix, clean_item, clean_text.
  assert (Hfmt : replace1 (chr " ") (py "_") (format_06d batch_idx) = format_06d batch_idx).
  { apply replace1_id, format_06d_no; cbn; lia. }
  destruct text as [t|]; rewrite !replace1_app, Hfmt, <- ?app_assoc; [reflexivity|].
  rewrite app_nil_r. reflexivity.
Qed.

Lemma clean_item_no_percent (item_name : pystr) : no_char "%" (clean_item item_name).
Proof.
  unfold no_char, clean_item. apply replace1_Forall.
  - repeat constructor. cbn. lia.
  - intros x Hx _. revert x Hx. apply List.Forall_forall.
    apply replace1_removes. repeat constructor. cbn. lia.
Qed.




End FileNames.

(** ** [test_step] *)

Section TestStep.

Variable B : PyBuiltins.

Lemma prefix_no_percent (batch_idx : Z) (item_name : pystr) :
  Forall (fun c => c <> chr "%")
    (path_prefix batch_idx ++ py "[" ++ clean_item item_name ++ py "][").
Proof.
  unfold path_prefix. repeat rewrite Forall_app. repeat split.
  - repeat constructor. cbn. lia.
  - apply format_06d_no; cbn; lia.
  - repeat constructor. cbn. lia.
  - repeat constructor. cbn. lia.
  - apply clean_item_no_percent.
  - repeat constructor; cbn; lia.
Qed.

(** The file name built from the template for a marker: the template with
    the marker in its slot, followed by what [%] makes of the text. *)
Lemma pymod_base_fn (batch_idx : Z) (item_name : pystr) (text : option pystr)
    (marker : pystr) :
  pymod B (make_base_fn batch_idx item_name text) marker =
    file_name batch_idx item_name marker
      <$> pymod_go B marker MLit true (clean_text text).
Proof.
  rewrite make_base_fn_parts, pymod_template by apply prefix_no_percent.
  rewrite (pymod_go_literal B marker (py "]") (clean_text text) true)
    by (repeat constructor; cbn; lia).
  rewrite fmap_fmap_res. apply fmap_ext_res. intros r.
  unfold file_name. rewrite <- !app_assoc. reflexivity.
Qed.

Lemma bind_ok {X Y} (m : res X) (f : X -> res Y) (y : Y) :
  m ≫= f = Ok y -> exists x, m = Ok x /\ f x = Ok y.
Proof. destruct m as [x|e]; cbn; [|discriminate]. intros H. exists x. split; [reflexivity|exact H]. Qed.

Lemma bind_no_assertion {X Y} (m : res X) (f : X -> res Y) :
  no_assertion m -> (forall x, no_assertion (f x)) -> no_assertion (m ≫= f).
Proof. destruct m as [x|e]; cbn; intros Hm Hf; [apply Hf|exact Hm]. Qed.

Lemma t3_zip_no_assertion {X Y Z'} (f : X -> Y -> Z') x y : no_assertion (t3_zip f x y).
Proof.
  unfold t3_zip, bdim.
  repeat match goal with
         | |- context [if ?c then _ else _] => destruct c
         end; exact I.
Qed.

Lemma composite_no_assertion p g m : no_assertion (composite p g m).
Proof.
  unfold composite. apply bind_no_assertion; [apply t3_zip_no_assertion|]. intros pm.
  apply bind_no_assertion; [apply t3_zip_no_assertion|]. intros gm.
  apply t3_zip_no_assertion.
Qed.

Lemma getitem_no_assertion {V} (d : gmap string V) k : no_assertion (getitem d k).
Proof. unfold getitem. destruct (d !! k); exact I. Qed.

Lemma run_model_infer_no_assertion self sample :
  no_assertion (run_model_infer self sample).
Proof.
  unfold run_model_infer. apply bind_no_assertion; [apply getitem_no_assertion|].
  intros pred. apply bind_no_assertion; [apply composite_no_assertion|].
  intros mel. exact I.
Qed.

Lemma run_model_true_no_assertion self sample :
  no_assertion (run_model self sample true).
Proof.
  unfold run_model. cbn [negb].
  pose proof (run_model_infer_no_assertion self sample) as H.
  destruct (run_model_infer self sample); [exact I|exact H].
Qed.

Lemma first_numpy2_no_assertion {X} (x : T3 X) (k : T2 X -> res (A3TTask * gmap string descval)) :
  (forall y, no_assertion (k y)) ->
  no_assertion (y0 ← t3_first x; y ← numpy2 y0; k y).
Proof.
  intros Hk. unfold t3_first, numpy2.
  destruct (Nat.eqb (dim0 x) 0); [exact I|]. cbn.
  destruct (rg3 x); [exact I|]. apply Hk.
Qed.

Lemma first_numpy1_no_assertion {X} (x : T2 X) (k : T1 X -> res (A3TTask * gmap string descval)) :
  (forall y, no_assertion (k y)) ->
  no_assertion (y0 ← t2_first x; y ← numpy1 y0; k y).
Proof.
  intros Hk. unfold t2_first, numpy1.
  destruct (Nat.eqb (rows2 x) 0); [exact I|]. cbn.
  destruct (rg2 x); [exact I|]. apply Hk.
Qed.

Lemma list_first_no_assertion {X} (l : list X) : no_assertion (list_first l).
Proof. destruct l; exact I. Qed.

Lemma pymod_no_assertion fmt marker : no_assertion (pymod B fmt marker).
Proof. apply pymod_go_no_assertion. Qed.

(** C6. [test_step] requires a batch of exactly one item. If the first
    dimension of the text-token tensor differs from 1 it raises the
    assertion error at once, whatever the task and its model are: nothing of
    the step, the model included, is evaluated. If it is 1 the assertion does
    not fire: the step goes on to [run_model], whose failure, if any, is the
    step's, and no later part of the step raises an assertion error. *)
Theorem test_step_batch_size (self : A3TTask) (sample : Sample) (batch_idx : Z) :
  (rows2 (txt_tokens sample) <> 1%nat ->
   test_step B self sample batch_idx =
     Raise (AssertionError "only support batch_size=1 in inference")) /\
  (rows2 (txt_tokens sample) = 1%nat ->
   no_assertion (test_step B self sample batch_idx) /\
   (forall e, run_model self sample true = Raise e ->
              test_step B self sample batch_idx = Raise e)).
Proof.
  split.
  - intros Hne. unfold test_step. apply Nat.eqb_neq in Hne. rewrite Hne. reflexivity.
  - intros Heq. unfold test_step. rewrite Heq. cbn [Nat.eqb negb].
    assert (Hna : no_assertion (test_step B self sample batch_idx)).
    { unfold test_step. rewrite Heq. cbn [Nat.eqb negb].
      apply bind_no_assertion; [apply run_model_true_no_assertion|]. intros r.
      apply bind_no_assertion; [destruct r; exact I|]. intros outputs.
      apply bind_no_assertion; [apply list_first_no_assertion|]. intros text.
      apply bind_no_assertion; [apply list_first_no_assertion|]. intros item.
      apply first_numpy1_no_assertion. intros tokens.
      apply first_numpy2_no_assertion. intros mel_gt.
      apply bind_no_assertion; [apply getitem_no_assertion|]. intros mo.
      apply first_numpy2_no_assertion. intros mel_pred.
      apply first_numpy1_no_assertion. intros m2p.
      cbn zeta.
      apply bind_no_assertion; [apply pymod_no_assertion|]. intros fn_p.
      apply bind_no_assertion.
      { destruct (save_gt _); [|exact I].
        apply bind_no_assertion; [apply pymod_no_assertion|]. intros; exact I. }
      intros self1.
      apply bind_no_assertion.
      { destruct (default false _); [|exact I].
        apply bind_no_assertion; [apply getitem_no_assertion|]. intros a.
        unfold t3_first, numpy2.
        destruct (Nat.eqb (dim0 a) 0); [exact I|]. cbn.
        destruct (rg3 a); exact I. }
      intros self2.
      apply bind_no_assertion; [apply pymod_no_assertion|]. intros p.
      apply bind_no_assertion; [apply pymod_no_assertion|]. intros g. exact I. }
    unfold test_step in Hna. rewrite Heq in Hna. cbn [Nat.eqb negb] in Hna.
    split; [exact Hna|].
    intros e He. rewrite He. reflexivity.
Qed.

Ltac bind_inv H x E :=
  apply bind_ok in H as (x & E & H); cbn beta zeta in H.

(** What a successful [test_step] did. *)
Lemma test_step_inv (self self' : A3TTask) (sample : Sample) (batch_idx : Z)
    (d : gmap string descval) :
  test_step B self sample batch_idx = Ok (self', d) ->
  exists txt itm ph wav_p mel_p wav_g mel_g phs m2p fn_p fn_g,
    list_first (text sample) = Ok txt /\
    list_first (item_name sample) = Ok itm /\
    pymod B (make_base_fn batch_idx itm txt) (py "P") = Ok fn_p /\
    pymod B (make_base_fn batch_idx itm txt) (py "G") = Ok fn_g /\
    d = <["item_name" := DStr itm]>
        (<["text" := desc_of_text txt]>
        (<["ph_tokens" := DStr ph]>
        (<["wav_fn_pred" := DStr fn_p]>
        (<["wav_fn_gt" := DStr fn_g]> ∅)))) /\
    saving_result_pool self' =
      saving_result_pool self
      ++ {| job_wav := wav_p; job_mel := mel_p; job_base_fn := fn_p;
            job_gen_dir := gen_dir self; job_str_phs := phs; job_mel2ph := None |}
      :: (if save_gt (hparams self)
          then [ {| job_wav := wav_g; job_mel := mel_g; job_base_fn := fn_g;
                    job_gen_dir := gen_dir self; job_str_phs := phs;
                    job_mel2ph := Some m2p |} ]
          else []).
Proof.
  unfold test_step. intros H.
  destruct (negb (Nat.eqb (rows2 (txt_tokens sample)) 1)); [discriminate H|].
  bind_inv H r Er. bind_inv H outputs Eo. bind_inv H txt Et. bind_inv H itm Ei.
  bind_inv H tokens0 Et0. bind_inv H tokens Etk.
  bind_inv H mel_gt0 Eg0. bind_inv H mel_gt Eg.
  bind_inv H mo Emo. bind_inv H mel_pred0 Ep0. bind_inv H mel_pred Ep.
  bind_inv H m2p0 Em0. bind_inv H m2p Em.
  bind_inv H fn_p Efp. bind_inv H self1 E1. bind_inv H self2 E2.
  bind_inv H fn_p' Efp'. bind_inv H fn_g Efg.
  injection H as <- <-.
  rewrite Efp in Efp'. injection Efp' as <-.
  exists txt, itm, (token_decode self2 tokens None),
    (spec2wav self mel_pred), mel_pred, (spec2wav self mel_gt), mel_gt,
    (token_decode self tokens (Some true)), m2p, fn_p, fn_g.
  repeat (split; [first [assumption | reflexivity]|]).
  assert (H2 : saving_result_pool self2 = saving_result_pool self1).
  { destruct (default false (save_attn (hparams self1))).
    - bind_inv E2 a Ea. bind_inv E2 a0 Ea0. bind_inv E2 a1 Ea1.
      injection E2 as <-. reflexivity.
    - injection E2 as <-. reflexivity. }
  rewrite H2. cbn [add_job hparams] in E1.
  destruct (save_gt (hparams self)).
  - bind_inv E1 fn_g' Efg'. injection E1 as <-.
    rewrite Efg in Efg'. injection Efg' as <-.
    cbn. rewrite <- app_assoc. reflexivity.
  - injection E1 as <-. reflexivity.
Qed.

End TestStep.

Section TestStepNames.

Variable B : PyBuiltins.

(** Once the argument is used, the rest of the formatting ignores it. *)
Lemma fstep_used_arg (a1 a2 : pystr) (m : fmode) (c : N) :
  fstep B a1 m true c = fstep B a2 m true c.
Proof.
  unfold fstep, flags, width_or, dot_or, len_or_conv, conv.
  repeat match goal with
         | |- context [match ?x with _ => _ end] => destruct x eqn:?
         end; reflexivity.
Qed.

Lemma pymod_go_used_arg (a1 a2 : pystr) (fmt : pystr) (m : fmode) :
  pymod_go B a1 m true fmt = pymod_go B a2 m true fmt.
Proof.
  revert m. induction fmt as [|c fmt IH]; intros m; [reflexivity|].
  cbn [pymod_go]. rewrite (fstep_used_arg a1 a2).
  destruct (fstep B a2 m true c) as [m'|s u|e] eqn:E; [apply IH| |reflexivity].
  apply fstep_used_emit in E as [_ ->]. rewrite IH. reflexivity.
Qed.


(** The names under which a successful [test_step] submits and reports. *)
Lemma test_step_names (self self' : A3TTask) (sample : Sample) (batch_idx : Z)
    (d : gmap string descval) :
  test_step B self sample batch_idx = Ok (self', d) ->
  exists txt itm rest jP jG,
    list_first (text sample) = Ok txt /\
    list_first (item_name sample) = Ok itm /\
    pymod_go B (py "P") MLit true (clean_text txt) = Ok rest /\
    d !! "wav_fn_pred" = Some (DStr (file_name batch_idx itm (py "P") rest)) /\
    d !! "wav_fn_gt" = Some (DStr (file_name batch_idx itm (py "G") rest)) /\
    new_jobs self self' = jP :: (if save_gt (hparams self) then [jG] else []) /\
    job_base_fn jP = file_name batch_idx itm (py "P") rest /\
    job_base_fn jG = file_name batch_idx itm (py "G") rest.
Proof.
  intros H.
  destruct (test_step_inv B self self' sample batch_idx d H)
    as (txt & itm & ph & wav_p & mel_p & wav_g & mel_g & phs & m2p & fn_p & fn_g
        & Ht & Hi & Hp & Hg & -> & Hpool).
  rewrite pymod_base_fn in Hp, Hg.
  rewrite (pymod_go_used_arg (py "G") (py "P")) in Hg.
  destruct (pymod_go B (py "P") MLit true (clean_text txt)) as [rest|] eqn:Er;
    [|discriminate Hp].
  cbn [fmap res_fmap] in Hp, Hg. injection Hp as <-. injection Hg as <-.
  eexists txt, itm, rest, _, _.
  split; [exact Ht|]. split; [exact Hi|]. split; [exact Er|].
  split; [reflexivity|]. split; [reflexivity|].
  unfold new_jobs. rewrite Hpool, drop_app_length.
  split; [reflexivity|]. split; reflexivity.
Qed.

End TestStepNames.

Section TestStepClaims.

Variable B : PyBuiltins.

(** A text without [%] always yields a file name: the template with the
    marker in its slot, followed by the cleaned text. *)
Lemma file_name_built (batch_idx : Z) (itm marker : pystr) (txt : option pystr) :
  no_char "%" (clean_text txt) ->
  pymod B (make_base_fn batch_idx itm txt) marker =
    Ok (file_name batch_idx itm marker (clean_text txt)).
Proof.
  intros H. rewrite pymod_base_fn, (pymod_go_plain B marker _ H). reflexivity.
Qed.


(** C10. Whenever [test_step] returns, its description record holds both
    a predicted file-name stem under ['wav_fn_pred'], the name with marker
    [P], and a ground-truth stem under ['wav_fn_gt'], the same name with
    marker [G]. This does not depend on [hparams['save_gt']]: when it is
    false the step has submitted the one job of the prediction, and the
    ground-truth stem is reported all the same. *)
Theorem test_step_description (self self' : A3TTask) (sample : Sample)
    (batch_idx : Z) (d : gmap string descval) :
  test_step B self sample batch_idx = Ok (self', d) ->
  exists itm rest,
    list_first (item_name sample) = Ok itm /\
    d !! "wav_fn_pred" = Some (DStr (file_name batch_idx itm (py "P") rest)) /\
    d !! "wav_fn_gt" = Some (DStr (file_name batch_idx itm (py "G") rest)) /\
    (save_gt (hparams self) = false ->
     exists jP, new_jobs self self' = [jP] /\
                job_base_fn jP = file_name batch_idx itm (py "P") rest).
Proof.
  intros H.
  destruct (test_step_names B _ _ _ _ _ H)
    as (txt & itm & rest & jP & jG & _ & Hi & _ & Hp & Hg & Hj & HP & _).
  exists itm, rest. split; [exact Hi|]. split; [exact Hp|]. split; [exact Hg|].
  intros Hs. rewrite Hs in Hj. exists jP. split; assumption.
Qed.

End TestStepClaims.

(** ** When [test_step] returns *)

Section TestStepReturns.

Variable B : PyBuiltins.

(** The composited tensor tracks gradients when one of its inputs does. *)
Lemma composite_rg (p g m r : T3 F32.t) :
  composite p g m = Ok r -> rg3 r = (rg3 p || rg3 m) || (rg3 g || rg3 m).
Proof.
  unfold composite, t3_mul, t3_add, t3_rsub, t3_map, t3_zip. intros H.
  repeat match type of H with
         | context [bdim ?a ?b] => destruct (bdim a b); cbn [mbind res_bind mret res_ret
             dim0 dim1 dim2 rg3] in H; [|discriminate H]
         end.
  injection H as <-. reflexivity.
Qed.

Lemma t3_first_ok {X} (x : T3 X) :
  dim0 x <> 0%nat ->
  t3_first x = Ok {| rows2 := dim1 x; cols2 := dim2 x; at2 := at3 x 0%nat; rg2 := rg3 x |}.
Proof. intros H. unfold t3_first. apply Nat.eqb_neq in H. rewrite H. reflexivity. Qed.

Lemma t2_first_ok {X} (x : T2 X) :
  rows2 x <> 0%nat ->
  t2_first x = Ok {| len1 := cols2 x; at1 := at2 x 0%nat; rg1 := rg2 x |}.
Proof. intros H. unfold t2_first. apply Nat.eqb_neq in H. rewrite H. reflexivity. Qed.

Lemma numpy1_ok {X} (x : T1 X) : rg1 x = false -> numpy1 x = Ok x.
Proof. intros H. unfold numpy1. rewrite H. reflexivity. Qed.

Lemma numpy2_ok {X} (x : T2 X) : rg2 x = false -> numpy2 x = Ok x.
Proof. intros H. unfold numpy2. rewrite H. reflexivity. Qed.

Lemma getitem_insert {V} (d : gmap string V) (k : string) (v : V) :
  getitem (<[k := v]> d) k = Ok v.
Proof. unfold getitem. rewrite lookup_insert_eq. reflexivity. Qed.

Lemma hparams_add_job (s : A3TTask) (j : Job) : hparams (add_job s j) = hparams s.
Proof. reflexivity. Qed.

(** The preconditions under which [test_step] returns. *)
Lemma test_step_ok (self : A3TTask) (sample : Sample) (batch_idx : Z)
    (pred : T3 F32.t) (txt : option pystr) (itm : pystr) :
  rows2 (txt_tokens sample) = 1%nat ->
  rg2 (txt_tokens sample) = false ->
  mask_fits (time_mel_masks sample) (mels sample) ->
  rg2 (time_mel_masks sample) = false ->
  model_output self sample true !! "mel_out" = Some pred ->
  same_shape pred (mels sample) ->
  rg3 pred = false ->
  dim0 (mels sample) <> 0%nat ->
  rg3 (mels sample) = false ->
  rows2 (mel2ph sample) <> 0%nat ->
  rg2 (mel2ph sample) = false ->
  list_first (text sample) = Ok txt ->
  list_first (item_name sample) = Ok itm ->
  no_char "%" (clean_text txt) ->
  (default false (save_attn (hparams self)) = true ->
   exists a, model_output self sample true !! "attn" = Some a /\
             dim0 a <> 0%nat /\ rg3 a = false) ->
  exists self' d, test_step B self sample batch_idx = Ok (self', d).
Proof.
  intros Hb Hgt Hm Hgm Hp Hs Hgp Hd Hgg Hr2 Hg2 Ht Hi Hpc Ha.
  destruct (run_model_infer_spec self sample Hm (ex_intro _ pred (conj Hp Hs)))
    as (pred' & mel & Hp' & _ & Hrun & Hc).
  rewrite Hp in Hp'. injection Hp' as <-.
  pose proof (composite_rg _ _ _ _ Hc) as Hrg.
  cbn [unsqueeze_last rg3] in Hrg. rewrite Hgp, Hgm, Hgg in Hrg. cbn in Hrg.
  destruct (composite_spec pred (mels sample) (time_mel_masks sample) Hs Hm)
    as (mel' & Hc' & (Hd0 & _) & _).
  rewrite Hc in Hc'. injection Hc' as <-.
  unfold test_step. rewrite Hb. cbn [Nat.eqb negb].
  unfold run_model. cbn [negb]. rewrite Hrun. cbn [fmap res_fmap mbind res_bind].
  rewrite Ht, Hi. cbn [mbind res_bind].
  rewrite (t2_first_ok (txt_tokens sample)) by (rewrite Hb; discriminate).
  cbn [mbind res_bind].
  rewrite numpy1_ok by exact Hgt. cbn [mbind res_bind].
  rewrite (t3_first_ok (mels sample)) by exact Hd. cbn [mbind res_bind].
  rewrite numpy2_ok by exact Hgg. cbn [mbind res_bind].
  rewrite getitem_insert. cbn [mbind res_bind].
  rewrite (t3_first_ok mel) by (rewrite Hd0; exact Hd). cbn [mbind res_bind].
  rewrite numpy2_ok by exact Hrg. cbn [mbind res_bind].
  rewrite (t2_first_ok (mel2ph sample)) by exact Hr2. cbn [mbind res_bind].
  rewrite numpy1_ok by exact Hg2. cbn [mbind res_bind].
  rewrite !(file_name_built B batch_idx itm _ txt Hpc). cbn [mbind res_bind].
  assert (Hattn : forall s0 : A3TTask,
    exists s1,
      (if default false (save_attn (hparams self))
       then attn_all ← getitem (<["mel_out" := mel]> (model_output self sample true)) "attn";
            attn0 ← t3_first attn_all;
            attn ← numpy2 attn0;
            mret (np_save s0 (gen_dir self ++ py "/attn/" ++ itm ++ py ".npy") attn)
       else mret s0) = Ok s1).
  { intros s0. destruct (default false (save_attn (hparams self))) eqn:Esa.
    - destruct (Ha eq_refl) as (a & Hla & Hda & Hga).
      unfold getitem. rewrite lookup_insert_ne by discriminate.
      rewrite Hla. cbn [mbind res_bind].
      rewrite (t3_first_ok a) by exact Hda. cbn [mbind res_bind].
      rewrite numpy2_ok by exact Hga. cbn [mbind res_bind mret res_ret].
      eexists. reflexivity.
    - eexists. reflexivity. }
  fold (model_output self sample true).
  rewrite hparams_add_job.
  destruct (save_gt (hparams self)); cbn [mbind res_bind mret res_ret];
    rewrite ?hparams_add_job.
  - match goal with
    | |- context [np_save ?s0] => destruct (Hattn s0) as (s1 & ->)
    end.
    cbn [mbind res_bind mret res_ret]. eexists _, _. reflexivity.
  - match goal with
    | |- context [np_save ?s0] => destruct (Hattn s0) as (s1 & ->)
    end.
    cbn [mbind res_bind mret res_ret]. eexists _, _. reflexivity.
Qed.

End TestStepReturns.

Section TestStepExamples.

(** The batch of the scenario is accepted by [test_step]. *)
Lemma demo_step_returns (batch_idx : Z) :
  exists self' d,
    test_step quote_builtins (demo_task false) demo_sample batch_idx = Ok (self', d).
Proof.
  apply (test_step_ok quote_builtins (demo_task false) demo_sample batch_idx
           (demo_estimate false) (Some (py "hello world")) (py "spk1_utt1"));
    try reflexivity; try discriminate.
  - split; reflexivity.
  - repeat split.
  - unfold no_char. apply List.Forall_forall. intros x Hx.
    vm_compute in Hx. intros ->.
    repeat (destruct Hx as [Hx|Hx]; [discriminate Hx|]). exact Hx.
Qed.

(** The batch of the scenario, as test batch 3: the step returns, submits
    the one job of the prediction, and reports both stems. *)
Lemma test_step_description_witness :
  exists self' d rest,
    test_step quote_builtins (demo_task false) demo_sample 3 = Ok (self', d) /\
    d !! "wav_fn_pred" = Some (DStr (file_name 3 (py "spk1_utt1") (py "P") rest)) /\
    d !! "wav_fn_gt" = Some (DStr (file_name 3 (py "spk1_utt1") (py "G") rest)) /\
    exists jP, new_jobs (demo_task false) self' = [jP] /\
               job_base_fn jP = file_name 3 (py "spk1_utt1") (py "P") rest.
Proof.
  destruct (demo_step_returns 3) as (self' & d & E).
  destruct (test_step_description quote_builtins _ _ _ _ _ E)
    as (itm & rest & Hi & Hp & Hg & Hs).
  injection Hi as <-.
  exists self', d, rest. split; [exact E|]. split; [exact Hp|]. split; [exact Hg|].
  apply Hs. reflexivity.
Defined.

(** The record and the job name of that step, computed. *)
Example demo_test_step :
  (fun r : A3TTask * gmap string descval =>
     (r.2 !! "wav_fn_pred", r.2 !! "wav_fn_gt",
      List.map job_base_fn (saving_result_pool r.1)))
    <$> test_step quote_builtins (demo_task false) demo_sample 3
  = Ok (Some (DStr (py "[000003][spk1_utt1][P]hello_world")),
        Some (DStr (py "[000003][spk1_utt1][G]hello_world")),
        [py "[000003][spk1_utt1][P]hello_world"]).
Proof. vm_compute. reflexivity. Qed.


(** A text that holds a [%] makes the [%] operator fail, and the step with
    it: the stems are only reported for texts it accepts. *)
Example percent_in_text :
  pymod quote_builtins (make_base_fn 3 (py "utt") (Some (py "50% off"))) (py "P")
  = Raise TypeError.
Proof. vm_compute. reflexivity. Qed.

Example percent_in_text_step :
  snd <$> test_step quote_builtins (demo_task false) percent_sample 3
  = Raise TypeError.
Proof. vm_compute. reflexivity. Qed.

End TestStepExamples.

(** ** The alignment report *)

Section AttnStats.

Variable M : Metrics.

Lemma get_attn_stats_report (self : A3TTask) (attn : T3 F32.t) (sample : Sample)
    (logging_outputs : odict lossval) (prefix : string) :
  get_attn_stats M self attn sample logging_outputs prefix =
    report M self attn sample logging_outputs prefix
      <$> t1_zip F32.div (t1_float (txt_lengths sample)) (t1_float (mel_lengths sample)).
Proof.
  unfold get_attn_stats.
  destruct (t1_zip F32.div (t1_float (txt_lengths sample)) (t1_float (mel_lengths sample)))
    as [ks|e]; [|reflexivity].
  cbn [mbind res_bind fmap res_fmap]. unfold report.
  change (t2_eq 0 (txt_tokens sample)) with (src_padding sample).
  change (t2_eq (seg_idx self) (txt_tokens sample)) with (src_segment self sample).
  change (t2_feq0 (abs_sum_last (mels sample))) with (tgt_padding sample).
  destruct (get_diagonal_focus_rate M attn ks (t1_float (mel_lengths sample))
              (src_padding sample) (tgt_padding sample)) as [dfr mask].
  reflexivity.
Qed.

Lemma slopes_spec (sample : Sample) :
  len1 (txt_lengths sample) = len1 (mel_lengths sample) ->
  exists ks, t1_zip F32.div (t1_float (txt_lengths sample)) (t1_float (mel_lengths sample))
             = Ok ks /\
    len1 ks = len1 (mel_lengths sample) /\
    forall i, (i < len1 ks)%nat -> at1 ks i = slope sample i.
Proof.
  intros Hl. unfold t1_zip. cbn [t1_float t1_map len1 at1 rg1].
  rewrite Hl, bdim_same. cbn. eexists. split; [reflexivity|]. split; [reflexivity|].
  intros i Hi. cbn in *. rewrite !bidx_lt by lia. reflexivity.
Qed.

Lemma report_key_cases (prefix k : string) :
  ~ In k (report_keys prefix) ->
  String.eqb (prefix +:+ "fr") k = false /\
  String.eqb (prefix +:+ "pcr") k = false /\
  String.eqb (prefix +:+ "dfr") k = false.
Proof.
  intros H. repeat split; apply String.eqb_neq; intros E; apply H; subst k; cbn; auto.
Qed.

(** C8. [get_attn_stats] hands the three external metrics the attention
    map with the masks derived from the batch (source padding: token id
    equals 0; target padding: the absolute channel sum of the mel frame
    equals 0; source segment: token id equals the segment index) and, for
    the diagonal focus rate, the slopes [text_length / mel_length] of the
    rows together with the mel lengths. It writes the batch means of the
    three results under [<prefix>fr], [<prefix>pcr] and [<prefix>dfr] and
    changes no other entry of the logging record. The three entries are cut
    from the autograd graph: they do not require gradients, so none of them
    passes the filter of the training objective. *)
Theorem attn_stats_entries (self : A3TTask) (attn : T3 F32.t) (sample : Sample)
    (logging_outputs : odict lossval) (prefix : string) :
  get_attn_stats M self attn sample logging_outputs prefix =
    report M self attn sample logging_outputs prefix
      <$> t1_zip F32.div (t1_float (txt_lengths sample)) (t1_float (mel_lengths sample))
  /\ (forall b t,
        at2 (src_padding sample) b t = Z.eqb (at2 (txt_tokens sample) b t) 0 /\
        at2 (src_segment self sample) b t
          = Z.eqb (at2 (txt_tokens sample) b t) (seg_idx self) /\
        at2 (tgt_padding sample) b t = F32.eqb (frame_abs_sum sample b t) F32.zero)
  /\ (len1 (txt_lengths sample) = len1 (mel_lengths sample) ->
      exists ks r,
        t1_zip F32.div (t1_float (txt_lengths sample)) (t1_float (mel_lengths sample))
          = Ok ks /\
        (forall i, (i < len1 (mel_lengths sample))%nat -> at1 ks i = slope sample i) /\
        get_attn_stats M self attn sample logging_outputs prefix = Ok r /\
        dict_get r (prefix +:+ "fr") =
          Some (VTensor (t0_data (mean M
            (get_focus_rate M attn (src_padding sample) (tgt_padding sample))))) /\
        dict_get r (prefix +:+ "pcr") =
          Some (VTensor (t0_data (mean M
            (get_phone_coverage_rate M attn (src_padding sample)
               (src_segment self sample) (tgt_padding sample))))) /\
        dict_get r (prefix +:+ "dfr") =
          Some (VTensor (t0_data (mean M
            (get_diagonal_focus_rate M attn ks (t1_float (mel_lengths sample))
               (src_padding sample) (tgt_padding sample)).1))) /\
        (forall k, ~ In k (report_keys prefix) ->
                   dict_get r k = dict_get logging_outputs k) /\
        (forall k v, In k (report_keys prefix) -> dict_get r k = Some v ->
                     is_grad_tensor v = false) /\
        (forall k v,
           dict_get r k = Some v -> is_grad_tensor v = true ->
           ~ In k (report_keys prefix) /\ dict_get logging_outputs k = Some v)).
Proof.
  split; [apply get_attn_stats_report|]. split; [intros b t; repeat split|].
  intros Hl. destruct (slopes_spec sample Hl) as (ks & Hks & Hlen & Hat).
  exists ks, (report M self attn sample logging_outputs prefix ks).
  split; [exact Hks|]. split; [intros i Hi; apply Hat; lia|].
  split; [rewrite get_attn_stats_report, Hks; reflexivity|].
  assert (Hfp : String.eqb (prefix +:+ "pcr") (prefix +:+ "fr") = false).
  { apply String.eqb_neq. intros E. apply append_inj_l in E. discriminate E. }
  assert (Hfd : String.eqb (prefix +:+ "dfr") (prefix +:+ "fr") = false).
  { apply String.eqb_neq. intros E. apply append_inj_l in E. discriminate E. }
  assert (Hpd : String.eqb (prefix +:+ "dfr") (prefix +:+ "pcr") = false).
  { apply String.eqb_neq. intros E. apply append_inj_l in E. discriminate E. }
  assert (Hget : forall k, dict_get (report M self attn sample logging_outputs prefix ks) k =
     if String.eqb (prefix +:+ "dfr") k then
       Some (VTensor (t0_data (mean M
         (get_diagonal_focus_rate M attn ks (t1_float (mel_lengths sample))
            (src_padding sample) (tgt_padding sample)).1)))
     else if String.eqb (prefix +:+ "pcr") k then
       Some (VTensor (t0_data (mean M
         (get_phone_coverage_rate M attn (src_padding sample)
            (src_segment self sample) (tgt_padding sample)))))
     else if String.eqb (prefix +:+ "fr") k then
       Some (VTensor (t0_data (mean M
         (get_focus_rate M attn (src_padding sample) (tgt_padding sample)))))
     else dict_get logging_outputs k).
  { intros k. unfold report. rewrite !dict_get_set. reflexivity. }
  split; [rewrite Hget, Hfd, Hfp, String.eqb_refl; reflexivity|].
  split; [rewrite Hget, Hpd, String.eqb_refl; reflexivity|].
  split; [rewrite Hget, String.eqb_refl; reflexivity|].
  split; [|split].
  - intros k Hk. destruct (report_key_cases prefix k Hk) as (E1 & E2 & E3).
    rewrite Hget, E3, E2, E1. reflexivity.
  - intros k v Hk. rewrite Hget.
    destruct (String.eqb (prefix +:+ "dfr") k) eqn:E3;
      [intros [= <-]; reflexivity|].
    destruct (String.eqb (prefix +:+ "pcr") k) eqn:E2;
      [intros [= <-]; reflexivity|].
    destruct (String.eqb (prefix +:+ "fr") k) eqn:E1;
      [intros [= <-]; reflexivity|].
    exfalso. cbn in Hk. apply String.eqb_neq in E1, E2, E3.
    destruct Hk as [H|[H|[H|[]]]]; congruence.
  - intros k v. rewrite Hget.
    destruct (String.eqb (prefix +:+ "dfr") k) eqn:E3;
      [intros [= <-]; discriminate|].
    destruct (String.eqb (prefix +:+ "pcr") k) eqn:E2;
      [intros [= <-]; discriminate|].
    destruct (String.eqb (prefix +:+ "fr") k) eqn:E1;
      [intros [= <-]; discriminate|].
    intros Hv _. split; [|exact Hv].
    apply String.eqb_neq in E1, E2, E3. cbn. intros [H|[H|[H|[]]]]; congruence.
Qed.

End AttnStats.

(** The report on the batch of the scenario: focus rate 1, coverage 1/2,
    diagonal focus rate 1, none of them tracking gradients. *)
Example demo_attn_stats :
  get_attn_stats demo_metrics (demo_task true) (demo_estimate true) demo_sample [] "val_"
  = Ok [ ("val_fr", VTensor {| item := F32.one; rg0 := false |});
         ("val_pcr", VTensor {| item := f32_half; rg0 := false |});
         ("val_dfr", VTensor {| item := F32.one; rg0 := false |}) ].
Proof. vm_compute. reflexivity. Qed.

(** * Further properties of the code *)

(** ** [run_model]: what it keeps and how it fails *)

Section RunModelMore.

Lemma res_fmap_ok {X Y} (f : X -> Y) (m : res X) (y : Y) :
  f <$> m = Ok y -> exists x, m = Ok x /\ f x = y.
Proof. destruct m as [x|e]; cbn; [|discriminate]. intros [= <-]. eauto. Qed.

Lemma res_bind_ok {X Y} (m : res X) (f : X -> res Y) (y : Y) :
  m ≫= f = Ok y -> exists x, m = Ok x /\ f x = Ok y.
Proof. destruct m as [x|e]; cbn; [|discriminate]. intros H. eauto. Qed.



Lemma getitem_ok {V} (d : gmap string V) (k : string) (v : V) :
  getitem d k = Ok v -> d !! k = Some v.
Proof. unfold getitem. destruct (d !! k); [|discriminate]. intros [= <-]. reflexivity. Qed.


Lemma bdim_raise (n m : nat) (e : pyerr) : bdim n m = Raise e -> e = RuntimeError.
Proof.
  unfold bdim.
  repeat match goal with
         | |- context [if ?c then _ else _] => destruct c
         end; intros H; first [discriminate H | injection H as <-; reflexivity].
Qed.

Lemma bdim_mismatch (n m : nat) :
  n <> m -> n <> 1%nat -> m <> 1%nat -> bdim n m = Raise RuntimeError.
Proof.
  intros H H1 H2. unfold bdim.
  apply Nat.eqb_neq in H, H1, H2. rewrite H, H1, H2. reflexivity.
Qed.


(** X1. [run_model] passes every entry of the model output through, the
    attention map included; only ['mel_out'] is set (or replaced) by the
    composited spectrogram, which is always present in what it returns. *)
Theorem run_model_keeps_entries (self : A3TTask) (sample : Sample) (infer : bool)
    (r : odict lossval * ModelOut + ModelOut) :
  run_model self sample infer = Ok r ->
  is_Some (run_output r !! "mel_out") /\
  forall k, k <> "mel_out" ->
    run_output r !! k = model_output self sample infer !! k.
Proof.
  unfold run_model. destruct infer; cbn [negb]; intros H.
  - apply res_fmap_ok in H as (out & H & <-). unfold run_model_infer in H.
    fold (model_output self sample true) in H.
    apply res_bind_ok in H as (pred & _ & H).
    apply res_bind_ok in H as (mel & _ & H). cbn in H. injection H as <-.
    cbn [run_output]. split.
    + rewrite lookup_insert_eq. eauto.
    + intros k Hk. apply lookup_insert_ne. congruence.
  - apply res_fmap_ok in H as ([losses out] & H & <-). unfold run_model_train in H.
    fold (model_output self sample false) in H.
    apply res_bind_ok in H as (dec & _ & H).
    apply res_bind_ok in H as (dec_m & _ & H).
    apply res_bind_ok in H as (tgt_m & _ & H).
    apply res_bind_ok in H as (post & _ & H).
    apply res_bind_ok in H as (post_m & _ & H).
    apply res_bind_ok in H as (tgt_m' & _ & H).
    apply res_bind_ok in H as (post' & _ & H).
    apply res_bind_ok in H as (mel & _ & H). cbn in H. injection H as <- <-.
    cbn [run_output]. split.
    + rewrite lookup_insert_eq. eauto.
    + intros k Hk. apply lookup_insert_ne. congruence.
Qed.

Lemma run_model_keeps_entries_witness :
  exists out,
    run_model (demo_task false) demo_sample true = Ok (inr out) /\
    is_Some (out !! "mel_out") /\
    forall k, k <> "mel_out" -> out !! k = model_output (demo_task false) demo_sample true !! k.
Proof.
  eexists. split; [reflexivity|].
  apply (run_model_keeps_entries (demo_task false) demo_sample true (inr _)).
  reflexivity.
Defined.



(** X3. A mask whose number of frames differs from the estimate's is rejected
    with [RuntimeError] (it is neither cut nor padded), unless one of the
    two numbers is 1. *)
Theorem run_model_mask_mismatch (self : A3TTask) (sample : Sample) (infer : bool)
    (pred : T3 F32.t) :
  model_output self sample infer !! first_key infer = Some pred ->
  cols2 (time_mel_masks sample) <> dim1 pred ->
  cols2 (time_mel_masks sample) <> 1%nat ->
  dim1 pred <> 1%nat ->
  run_model self sample infer = Raise RuntimeError.
Proof.
  intros Hp Hne Hm1 Hp1.
  assert (Hmul : t3_mul pred (unsqueeze_last (time_mel_masks sample)) = Raise RuntimeError).
  { unfold t3_mul, t3_zip. cbn [unsqueeze_last dim0 dim1 dim2].
    rewrite (bdim_mismatch (dim1 pred) (cols2 (time_mel_masks sample)))
      by congruence.
    destruct (bdim (dim0 pred) (rows2 (time_mel_masks sample))) as [d0|e] eqn:E0.
    - reflexivity.
    - cbn [mbind res_bind]. f_equal. exact (bdim_raise _ _ _ E0). }
  unfold run_model. destruct infer; cbn [negb first_key] in *.
  - unfold run_model_infer. fold (model_output self sample true).
    unfold getitem. rewrite Hp. cbn. unfold composite. rewrite Hmul. reflexivity.
  - unfold run_model_train. fold (model_output self sample false).
    unfold getitem. rewrite Hp. cbn. rewrite Hmul. reflexivity.
Qed.

Lemma run_model_mask_mismatch_witness :
  run_model (demo_task false) (with_mask two_frame_mask demo_sample) true
  = Raise RuntimeError.
Proof.
  apply (run_model_mask_mismatch (demo_task false) (with_mask two_frame_mask demo_sample)
           true (demo_estimate false)).
  - reflexivity.
  - cbn. lia.
  - cbn. lia.
  - cbn. lia.
Defined.

(** X4. A mask of a single frame is accepted for a spectrogram of any number of
    frames: its one value per item is applied to every frame. *)
Theorem run_model_one_frame_mask (self : A3TTask) (sample : Sample) (pred : T3 F32.t) :
  model_output self sample true !! "mel_out" = Some pred ->
  same_shape pred (mels sample) ->
  rows2 (time_mel_masks sample) = dim0 (mels sample) ->
  cols2 (time_mel_masks sample) = 1%nat ->
  exists out mel,
    run_model self sample true = Ok (inr out) /\
    out !! "mel_out" = Some mel /\
    same_shape mel (mels sample) /\
    forall b t c, in_range (mels sample) b t c ->
      at3 mel b t c =
        composite1 (at3 pred b t c) (at3 (mels sample) b t c)
                   (at2 (time_mel_masks sample) b 0).
Proof.
  intros Hp (E0 & E1 & E2) Hr Hc.
  unfold run_model. cbn [negb]. unfold run_model_infer.
  fold (model_output self sample true). unfold getitem. rewrite Hp.
  cbn [mbind res_bind].
  unfold composite, t3_mul, t3_add, t3_zip, t3_rsub, t3_map.
  cbn [unsqueeze_last dim0 dim1 dim2 at3 rg3].
  rewrite Hr, Hc, E0, E1, E2, !bdim_same, !bdim_one_r.
  cbn [mbind res_bind mret res_ret dim0 dim1 dim2 at3 rg3].
  rewrite !bdim_same.
  cbn [mbind res_bind mret res_ret fmap res_fmap dim0 dim1 dim2 at3 rg3].
  eexists _, _. split; [reflexivity|]. split; [apply lookup_insert_eq|].
  split; [repeat split|].
  intros b t c (Hb & Ht & Hcc). cbn [at3].
  rewrite ?(bidx_lt _ b Hb), ?(bidx_lt _ t Ht), ?(bidx_lt _ c Hcc), ?bidx_one.
  reflexivity.
Qed.

Lemma run_model_one_frame_mask_witness :
  exists out mel,
    run_model (demo_task false) (with_mask one_frame_mask demo_sample) true = Ok (inr out) /\
    out !! "mel_out" = Some mel /\
    same_shape mel (mels demo_sample) /\
    forall b t c, in_range (mels demo_sample) b t c ->
      at3 mel b t c =
        composite1 (at3 (demo_estimate false) b t c) (at3 (mels demo_sample) b t c)
                   (at2 one_frame_mask b 0).
Proof.
  apply (run_model_one_frame_mask (demo_task false) (with_mask one_frame_mask demo_sample)
           (demo_estimate false)).
  - reflexivity.
  - repeat split.
  - reflexivity.
  - reflexivity.
Defined.

End RunModelMore.

(** ** [_training_step]: what it stores and what it sums *)

Section TrainingStepMore.






(** ** The total loss as a plain sum *)

Lemma py_add_fold_tensor (l : list T0) (a : T0) :
  exists t, fold_left py_add l (TotalTensor a) = TotalTensor t /\
    item t = fold_left F32.add (List.map item l) (item a) /\
    rg0 t = rg0 a || existsb rg0 l.
Proof.
  revert a. induction l as [|x l IH]; intros a; cbn [fold_left List.map existsb].
  - exists a. rewrite orb_false_r. auto.
  - cbn [py_add]. destruct (IH {| item := F32.add (item a) (item x);
                                  rg0 := rg0 a || rg0 x |}) as (t & -> & Hi & Hg).
    exists t. cbn [item rg0] in *. rewrite Hi, Hg, orb_assoc. auto.
Qed.

Lemma fold_add_same_value (l : list F32.t) (a b : F32.t) :
  same_value a b -> same_value (fold_left F32.add l a) (fold_left F32.add l b).
Proof.
  revert a b. induction l as [|x l IH]; intros a b H; [exact H|].
  cbn [fold_left]. apply IH, same_value_add_r, H.
Qed.

Lemma weighted_terms_unit (lo : odict lossval) :
  Forall (fun v => F32.valid v = true) (grad_values lo) ->
  List.map item (weighted_terms ∅ lo) = grad_values lo /\
  Forall (fun t => rg0 t = true) (weighted_terms ∅ lo).
Proof.
  unfold weighted_terms, grad_values.
  induction lo as [|[k v] lo IH]; cbn [omap list_omap snd fst]; intros H.
  - split; constructor.
  - destruct v as [x|n]; [|apply IH, H].
    destruct (rg0 x) eqn:Eg; [|apply IH, H].
    inversion H as [|? ? Hx Hl]; subst. destruct (IH Hl) as [IH1 IH2].
    cbn [List.map]. split.
    + f_equal; [|exact IH1]. unfold t0_rmul. cbn [item].
      rewrite lookup_empty. cbn [default]. rewrite f32_of_Z_1.
      apply f32_mul_one_r, Hx.
    + constructor; [exact Eg|exact IH2].
Qed.

Lemma weighted_terms_grad (w : gmap string Z) (lo : odict lossval) :
  Forall (fun t => rg0 t = true) (weighted_terms w lo) /\
  length (weighted_terms w lo) = length (grad_values lo).
Proof.
  unfold weighted_terms, grad_values.
  induction lo as [|[k v] lo [IH1 IH2]]; cbn [omap list_omap snd fst].
  - split; [constructor|reflexivity].
  - destruct v as [x|n]; [|split; assumption].
    destruct (rg0 x) eqn:Eg; [|split; assumption].
    split; [constructor; [exact Eg|exact IH1]|]. cbn [length]. rewrite IH2. reflexivity.
Qed.

(** X6. The total loss of a training step is the plain sum, in record order, of
    the loss values that track gradients: the weights are all 1, and neither
    the multiplication by 1 nor the integer 0 that [sum] starts from changes
    the value (a zero total may change sign). It always tracks gradients. *)
Theorem training_step_plain_sum (self : A3TTask) (sample : Sample) (bi oi : Z)
    (losses : odict lossval) (out : ModelOut) (x : F32.t) (l : list F32.t) :
  run_model_train self sample = Ok (losses, out) ->
  grad_values losses = x :: l ->
  Forall (fun v => F32.valid v = true) (x :: l) ->
  exists self' t rec,
    _training_step self sample bi oi = Ok (self', (TotalTensor t, rec)) /\
    rg0 t = true /\
    same_value (item t) (fold_left F32.add l x).
Proof.
  intros Hr Hg Hv. unfold _training_step, run_model. cbn [negb]. rewrite Hr.
  cbn [fmap res_fmap mbind res_bind mret res_ret]. unfold aggregate_losses.
  rewrite <- Hg in Hv. destruct (weighted_terms_unit losses Hv) as [Hi Hrg].
  rewrite Hg in Hi. unfold py_sum.
  destruct (weighted_terms ∅ losses) as [|y ys]; [discriminate Hi|].
  cbn [List.map] in Hi. injection Hi as Hy Hys.
  inversion Hrg as [|? ? Hgy Hgys]; subst.
  cbn [fold_left py_add].
  destruct (py_add_fold_tensor ys {| item := F32.add (item y) (F32.of_Z 0); rg0 := rg0 y |})
    as (t & Ht & Hit & Hgt).
  rewrite Ht. eexists _, t, _. split; [reflexivity|].
  cbn [item rg0] in Hit, Hgt. split.
  - rewrite Hgt, Hgy. reflexivity.
  - rewrite Hit. apply fold_add_same_value, f32_add_zero_r. reflexivity.
Qed.

Lemma training_step_plain_sum_witness :
  exists self' t rec,
    _training_step (demo_task true) demo_sample 0 0 = Ok (self', (TotalTensor t, rec)) /\
    rg0 t = true /\
    same_value (item t) (F32.add (F32.of_Z 16) (F32.of_Z 16)).
Proof.
  eapply (training_step_plain_sum (demo_task true) demo_sample 0 0 _ _
            (F32.of_Z 16) [F32.of_Z 16]).
  - reflexivity.
  - vm_compute. reflexivity.
  - repeat constructor.
Defined.

End TrainingStepMore.

(** ** [on_after_optimization] along a run *)

Section HookMore.

Lemma last_cons (l : list Z) (g d : Z) : List.last (g :: l) d = List.last l g.
Proof.
  revert g d. induction l as [|a l IH]; intros g d; [reflexivity|].
  change (List.last (g :: a :: l) d) with (List.last (a :: l) d).
  rewrite (IH a d), (IH a g). reflexivity.
Qed.

Lemma hook_inv (self self' : A3TTask) (e b o : Z) :
  on_after_optimization self e b o = Ok self' ->
  (scheduler self = None /\ self' = self) \/
  (exists s rest,
     scheduler self = Some (s :: rest) /\
     accumulate_grad_batches (hparams self) <> 0 /\
     self' = set_scheduler self
               (Some (sched_step s (global_step self / accumulate_grad_batches (hparams self))
                      :: rest))).
Proof.
  unfold on_after_optimization, floordiv.
  destruct (scheduler self) as [[|s rest]|]; intros H.
  - discriminate H.
  - right. destruct (Z.eqb_spec (accumulate_grad_batches (hparams self)) 0) as [|Hk];
      [discriminate H|].
    cbn in H. injection H as <-. eauto.
  - left. injection H as <-. auto.
Qed.

(** X7. Along any run of the hook that returns, whatever the values of the
    trainer's counter, the task keeps its model, hyper-parameters, stored
    outputs, job queue and saved files; a task without schedulers stays
    without, and a list of schedulers keeps its length and every scheduler
    after the first untouched. *)
Theorem run_hooks_frame (steps : list Z) (self self' : A3TTask) :
  run_hooks steps self = Ok self' ->
  model self' = model self /\
  hparams self' = hparams self /\
  model_out self' = model_out self /\
  model_out_gt self' = model_out_gt self /\
  saving_result_pool self' = saving_result_pool self /\
  saved_attn self' = saved_attn self /\
  global_step self' = List.last steps (global_step self) /\
  match scheduler self with
  | None => scheduler self' = None
  | Some l => exists l', scheduler self' = Some l' /\
                         length l' = length l /\ tail l' = tail l
  end.
Proof.
  revert self. induction steps as [|g steps IH]; intros self H.
  - cbn in H. injection H as <-. repeat (split; [reflexivity|]).
    destruct (scheduler self) as [l|]; eauto.
  - cbn [run_hooks] in H. apply res_bind_ok in H as (self1 & H1 & H).
    destruct (IH _ H) as (I1 & I2 & I3 & I4 & I5 & I6 & I7 & I8).
    rewrite last_cons.
    apply hook_inv in H1 as [[Hs ->]|(s & rest & Hs & Hk & ->)];
      cbn [set_global_step set_scheduler model hparams model_out model_out_gt
           saving_result_pool saved_attn global_step scheduler] in *.
    + repeat (split; [assumption|]). rewrite Hs in *. exact I8.
    + repeat (split; [assumption|]). rewrite Hs.
      destruct I8 as (l' & E1 & E2 & E3). exists l'. auto.
Qed.

Lemma run_hooks_frame_witness :
  exists self',
    run_hooks [3; 1; 12] (demo_task true) = Ok self' /\
    hparams self' = hparams (demo_task true) /\
    global_step self' = 12 /\
    exists l', scheduler self' = Some l' /\ length l' = 1%nat.
Proof.
  eexists. split; [reflexivity|].
  destruct (run_hooks_frame [3; 1; 12] (demo_task true) _ eq_refl)
    as (_ & H2 & _ & _ & _ & _ & H7 & l' & Hl & Hlen & _).
  split; [exact H2|]. split; [exact H7|]. exists l'. split; [exact Hl|exact Hlen].
Defined.

(** X8. Whether the hook fails is settled by the task, never by the counter:
    without schedulers it does nothing, even when the accumulation factor
    is 0; with an empty list of schedulers every call raises [IndexError],
    also when the factor is 0, the list being read before the division; with
    a scheduler and the factor 0 every call raises [ZeroDivisionError]; and
    with a scheduler and a factor other than 0 no call of any run fails. *)
Theorem run_hooks_outcome (self : A3TTask) (g : Z) (steps : list Z) :
  match scheduler self with
  | None =>
      run_hooks (g :: steps) self = Ok (set_global_step self (List.last steps g))
  | Some [] => run_hooks (g :: steps) self = Raise IndexError
  | Some (s :: rest) =>
      if Z.eqb (accumulate_grad_batches (hparams self)) 0
      then run_hooks (g :: steps) self = Raise ZeroDivisionError
      else exists self', run_hooks (g :: steps) self = Ok self'
  end.
Proof.
  destruct (scheduler self) as [[|s rest]|] eqn:Hs.
  - cbn [run_hooks]. unfold on_after_optimization.
    cbn [set_global_step scheduler]. rewrite Hs. reflexivity.
  - destruct (Z.eqb_spec (accumulate_grad_batches (hparams self)) 0) as [Hk|Hk].
    + cbn [run_hooks]. unfold on_after_optimization, floordiv.
      cbn [set_global_step scheduler hparams global_step]. rewrite Hs, Hk. reflexivity.
    + destruct (run_hooks_trace (g :: steps) self s rest Hs Hk) as (self' & _ & Hr & _).
      exists self'. exact Hr.
  - revert self g Hs. induction steps as [|x steps IH]; intros self g Hs.
    + cbn [run_hooks]. unfold on_after_optimization.
      cbn [set_global_step scheduler]. rewrite Hs. reflexivity.
    + change (run_hooks (g :: x :: steps) self)
        with (self' ← on_after_optimization (set_global_step self g) 0 0 0;
              run_hooks (x :: steps) self').
      unfold on_after_optimization at 1. cbn [set_global_step scheduler]. rewrite Hs.
      cbn [mbind res_bind].
      rewrite (IH _ x) by exact Hs.
      rewrite (last_cons steps x g). reflexivity.
Qed.

Lemma map_div_sorted (k : Z) (steps : list Z) :
  0 < k -> Sorted Z.le steps -> Sorted Z.le (List.map (fun g => g / k) steps).
Proof.
  intros Hk. induction 1 as [|g steps Hs IH Hh]; cbn [List.map]; constructor.
  - exact IH.
  - destruct Hh as [|x steps Hx]; cbn [List.map]; constructor.
    apply Z.div_le_mono; assumption.
Qed.

(** X9. With a positive accumulation factor the schedule never steps back
    while the trainer's counter does not: along a run whose counter values
    do not decrease, the positions the schedule is stepped to do not
    decrease either, one position per call. *)
Theorem run_hooks_monotone (steps : list Z) (self : A3TTask) (s : Scheduler)
    (rest : list Scheduler) :
  scheduler self = Some (s :: rest) ->
  0 < accumulate_grad_batches (hparams self) ->
  Sorted Z.le steps ->
  exists self' positions,
    run_hooks steps self = Ok self' /\
    schedule_trace self' = schedule_trace self ++ positions /\
    length positions = length steps /\
    Sorted Z.le positions.
Proof.
  intros Hs Hk Hsorted.
  destruct (run_hooks_trace steps self s rest Hs) as (self' & s' & Hr & Hs' & _ & Hc);
    [lia|].
  exists self', (List.map (fun g => g / accumulate_grad_batches (hparams self)) steps).
  split; [exact Hr|]. split.
  - unfold schedule_trace, schedule. rewrite Hs, Hs', Hc.
    rewrite rev_app_distr, rev_involutive. reflexivity.
  - split; [apply length_map|apply map_div_sorted; assumption].
Qed.

Lemma run_hooks_monotone_witness :
  exists self' positions,
    run_hooks [1; 2; 5; 9] (demo_task true) = Ok self' /\
    schedule_trace self' = schedule_trace (demo_task true) ++ positions /\
    length positions = 4%nat /\
    Sorted Z.le positions.
Proof.
  apply (run_hooks_monotone [1; 2; 5; 9] (demo_task true) {| step_calls := [] |} []).
  - reflexivity.
  - reflexivity.
  - repeat constructor; discriminate.
Defined.

End HookMore.

(** ** [test_step]: when it returns and what it does *)

Section TestStepMore.

Variable B : PyBuiltins.

Lemma t3_first_inv {X} (x : T3 X) (y : T2 X) :
  t3_first x = Ok y ->
  dim0 x <> 0%nat /\
  y = {| rows2 := dim1 x; cols2 := dim2 x; at2 := at3 x 0%nat; rg2 := rg3 x |}.
Proof.
  unfold t3_first. destruct (Nat.eqb_spec (dim0 x) 0); [discriminate|].
  intros [= <-]. auto.
Qed.

Lemma t2_first_inv {X} (x : T2 X) (y : T1 X) :
  t2_first x = Ok y ->
  rows2 x <> 0%nat /\ y = {| len1 := cols2 x; at1 := at2 x 0%nat; rg1 := rg2 x |}.
Proof.
  unfold t2_first. destruct (Nat.eqb_spec (rows2 x) 0); [discriminate|].
  intros [= <-]. auto.
Qed.

Lemma numpy1_inv {X} (x y : T1 X) : numpy1 x = Ok y -> rg1 x = false /\ y = x.
Proof. unfold numpy1. destruct (rg1 x); [discriminate|]. intros [= <-]. auto. Qed.

Lemma numpy2_inv {X} (x y : T2 X) : numpy2 x = Ok y -> rg2 x = false /\ y = x.
Proof. unfold numpy2. destruct (rg2 x); [discriminate|]. intros [= <-]. auto. Qed.

Lemma run_model_infer_inv (self : A3TTask) (sample : Sample) (out : ModelOut) :
  run_model_infer self sample = Ok out ->
  exists pred mel,
    model_output self sample true !! "mel_out" = Some pred /\
    composite pred (mels sample) (unsqueeze_last (time_mel_masks sample)) = Ok mel /\
    out = <["mel_out" := mel]> (model_output self sample true).
Proof.
  unfold run_model_infer. fold (model_output self sample true). intros H.
  apply bind_ok in H as (pred & Hp & H). apply bind_ok in H as (mel & Hc & H).
  cbn in H. injection H as <-. exists pred, mel.
  split; [|split; [exact Hc|reflexivity]].
  unfold getitem in Hp. destruct (_ !! "mel_out"); [|discriminate Hp].
  injection Hp as ->. reflexivity.
Qed.

Ltac step_inv H x E :=
  apply bind_ok in H as (x & E & H); cbn beta zeta in H.

(** What a successful [test_step] read, and what it did to the task. *)
Lemma test_step_trace (self self' : A3TTask) (sample : Sample) (batch_idx : Z)
    (d : gmap string descval) :
  test_step B self sample batch_idx = Ok (self', d) ->
  exists pred mel itm jobs,
    model_output self sample true !! "mel_out" = Some pred /\
    composite pred (mels sample) (unsqueeze_last (time_mel_masks sample)) = Ok mel /\
    list_first (item_name sample) = Ok itm /\
    rows2 (txt_tokens sample) = 1%nat /\
    rg2 (txt_tokens sample) = false /\
    dim0 (mels sample) <> 0%nat /\ rg3 (mels sample) = false /\
    dim0 mel <> 0%nat /\ rg3 mel = false /\
    rows2 (mel2ph sample) <> 0%nat /\ rg2 (mel2ph sample) = false /\
    (model self' = model self /\ mel_loss self' = mel_loss self /\
     hparams self' = hparams self /\ global_step self' = global_step self /\
     scheduler self' = scheduler self /\ model_out self' = model_out self /\
     model_out_gt self' = model_out_gt self /\ gen_dir self' = gen_dir self) /\
    saving_result_pool self' = saving_result_pool self ++ jobs /\
    (if default false (save_attn (hparams self))
     then exists a, model_output self sample true !! "attn" = Some a /\
            dim0 a <> 0%nat /\ rg3 a = false /\
            saved_attn self' = saved_attn self ++
              [(attn_path self itm,
                {| rows2 := dim1 a; cols2 := dim2 a; at2 := at3 a 0%nat; rg2 := rg3 a |})]
     else saved_attn self' = saved_attn self).
Proof.
  unfold test_step. intros H.
  destruct (Nat.eqb_spec (rows2 (txt_tokens sample)) 1) as [Hb|]; [|discriminate H].
  cbn [negb] in H.
  step_inv H r Er. step_inv H outputs Eo. step_inv H txt Et. step_inv H itm Ei.
  step_inv H tokens0 Et0. step_inv H tokens Etk.
  step_inv H mel_gt0 Eg0. step_inv H mel_gt Eg.
  step_inv H mo Emo. step_inv H mel_pred0 Ep0. step_inv H mel_pred Ep.
  step_inv H m2p0 Em0. step_inv H m2p Em.
  step_inv H fn_p Efp. step_inv H self1 E1. step_inv H self2 E2.
  step_inv H fn_p' Efp'. step_inv H fn_g Efg.
  injection H as <- _.
  unfold run_model in Er. cbn [negb] in Er.
  destruct (run_model_infer self sample) as [out|] eqn:Erun; [|discriminate Er].
  cbn in Er. injection Er as <-. injection Eo as <-.
  destruct (run_model_infer_inv _ _ _ Erun) as (pred & mel & Hp & Hc & ->).
  apply getitem_ok in Emo. rewrite lookup_insert_eq in Emo. injection Emo as <-.
  apply t2_first_inv in Et0 as [_ ->]. apply numpy1_inv in Etk as [Hgt ->].
  apply t3_first_inv in Eg0 as [Hd ->]. apply numpy2_inv in Eg as [Hgg ->].
  apply t3_first_inv in Ep0 as [Hdm ->]. apply numpy2_inv in Ep as [Hgm ->].
  apply t2_first_inv in Em0 as [Hr2 ->]. apply numpy1_inv in Em as [Hg2 ->].
  cbn [rg1 rg2] in *.
  assert (H1 : exists js, self1 = fold_left add_job js self).
  { cbn [add_job hparams] in E1. destruct (save_gt (hparams self)).
    - step_inv E1 fn_g' Efg'. injection E1 as <-. eexists [_; _]. reflexivity.
    - injection E1 as <-. eexists [_]. reflexivity. }
  destruct H1 as [js ->].
  assert (Hfold : forall js s,
    model (fold_left add_job js s) = model s /\
    mel_loss (fold_left add_job js s) = mel_loss s /\
    hparams (fold_left add_job js s) = hparams s /\
    global_step (fold_left add_job js s) = global_step s /\
    scheduler (fold_left add_job js s) = scheduler s /\
    model_out (fold_left add_job js s) = model_out s /\
    model_out_gt (fold_left add_job js s) = model_out_gt s /\
    gen_dir (fold_left add_job js s) = gen_dir s /\
    saved_attn (fold_left add_job js s) = saved_attn s /\
    saving_result_pool (fold_left add_job js s) = saving_result_pool s ++ js).
  { clear. induction js as [|j js IH]; intros s; cbn [fold_left].
    - rewrite app_nil_r. repeat split.
    - destruct (IH (add_job s j)) as (?&?&?&?&?&?&?&?&?&Hp).
      repeat (split; [assumption|]). rewrite Hp. cbn. rewrite <- app_assoc. reflexivity. }
  destruct (Hfold js self) as (F1&F2&F3&F4&F5&F6&F7&F8&F9&F10).
  exists pred, mel, itm, js.
  repeat (split; [assumption|]).
  rewrite F3 in E2.
  destruct (default false (save_attn (hparams self))).
  - step_inv E2 a Ea. step_inv E2 a0 Ea0. step_inv E2 a1 Ea1. injection E2 as <-.
    cbn [np_save model mel_loss hparams global_step scheduler model_out model_out_gt
         gen_dir saving_result_pool saved_attn].
    split; [repeat split; assumption|]. split; [assumption|].
    apply getitem_ok in Ea. rewrite lookup_insert_ne in Ea by discriminate.
    apply t3_first_inv in Ea0 as [Hda ->]. apply numpy2_inv in Ea1 as [Hga ->].
    exists a. split; [exact Ea|]. split; [exact Hda|]. split; [exact Hga|].
    rewrite F9. reflexivity.
  - injection E2 as <-. split; [repeat split; assumption|]. split; assumption.
Qed.

Lemma no_percent_hello : no_char "%" (clean_text (Some (py "hello world"))).
Proof.
  unfold no_char. apply List.Forall_forall. intros x Hx.
  vm_compute in Hx. intros ->.
  repeat (destruct Hx as [Hx|Hx]; [discriminate Hx|]). exact Hx.
Qed.

(** X10. [test_step] returns for a batch of one item whose tensors do not track
    gradients, whose mask and estimate have the shape of a non-empty
    ground-truth spectrogram, whose text holds no [%] and, when attention
    maps are saved, whose model returns one. It then reports the two file
    names built from the cleaned item name and text, and has submitted the
    prediction job and, when ground truth is saved, the ground-truth job. *)
Theorem test_step_returns (self : A3TTask) (sample : Sample) (batch_idx : Z)
    (pred : T3 F32.t) (txt : option pystr) (itm : pystr) :
  rows2 (txt_tokens sample) = 1%nat ->
  rg2 (txt_tokens sample) = false ->
  mask_fits (time_mel_masks sample) (mels sample) ->
  rg2 (time_mel_masks sample) = false ->
  model_output self sample true !! "mel_out" = Some pred ->
  same_shape pred (mels sample) ->
  rg3 pred = false ->
  dim0 (mels sample) <> 0%nat ->
  rg3 (mels sample) = false ->
  rows2 (mel2ph sample) <> 0%nat ->
  rg2 (mel2ph sample) = false ->
  list_first (text sample) = Ok txt ->
  list_first (item_name sample) = Ok itm ->
  no_char "%" (clean_text txt) ->
  (default false (save_attn (hparams self)) = true ->
   exists a, model_output self sample true !! "attn" = Some a /\
             dim0 a <> 0%nat /\ rg3 a = false) ->
  exists self' d jP jG,
    test_step B self sample batch_idx = Ok (self', d) /\
    d !! "wav_fn_pred" = Some (DStr (file_name batch_idx itm (py "P") (clean_text txt))) /\
    d !! "wav_fn_gt" = Some (DStr (file_name batch_idx itm (py "G") (clean_text txt))) /\
    new_jobs self self' = jP :: (if save_gt (hparams self) then [jG] else []) /\
    job_base_fn jP = file_name batch_idx itm (py "P") (clean_text txt) /\
    job_base_fn jG = file_name batch_idx itm (py "G") (clean_text txt).
Proof.
  intros Hb Hgt Hm Hgm Hp Hs Hgp Hd Hgg Hr2 Hg2 Ht Hi Hpc Ha.
  destruct (test_step_ok B self sample batch_idx pred txt itm) as (self' & d & E);
    try assumption.
  destruct (test_step_names B _ _ _ _ _ E)
    as (txt' & itm' & rest & jP & jG & Ht' & Hi' & Hr & Hwp & Hwg & Hj & HP & HG).
  rewrite Ht in Ht'. injection Ht' as <-. rewrite Hi in Hi'. injection Hi' as <-.
  rewrite (pymod_go_plain B _ _ Hpc) in Hr. injection Hr as <-.
  exists self', d, jP, jG. repeat (split; [assumption|]). assumption.
Qed.


(** X12. What a successful [test_step] does to the task: it appends jobs to the
    queue and, when attention maps are saved, one file, written under the
    raw item name (not the cleaned one of the audio files, and without the
    batch index), holding the first attention map of the model output;
    nothing else of the task is changed. *)
Theorem test_step_effects (self self' : A3TTask) (sample : Sample)
    (batch_idx : Z) (d : gmap string descval) :
  test_step B self sample batch_idx = Ok (self', d) ->
  exists itm jobs,
    list_first (item_name sample) = Ok itm /\
    model self' = model self /\ hparams self' = hparams self /\
    global_step self' = global_step self /\ scheduler self' = scheduler self /\
    model_out self' = model_out self /\ model_out_gt self' = model_out_gt self /\
    gen_dir self' = gen_dir self /\
    saving_result_pool self' = saving_result_pool self ++ jobs /\
    (length jobs = if save_gt (hparams self) then 2 else 1)%nat /\
    (if default false (save_attn (hparams self))
     then exists a m, model_output self sample true !! "attn" = Some a /\
            t3_first a = Ok m /\
            saved_attn self' = saved_attn self ++ [(attn_path self itm, m)]
     else saved_attn self' = saved_attn self).
Proof.
  intros H.
  destruct (test_step_trace _ _ _ _ _ H)
    as (pred & mel & itm & jobs & _ & _ & Hi & _ & _ & _ & _ & _ & _ & _ & _
        & (F1 & _ & F3 & F4 & F5 & F6 & F7 & F8) & Hjobs & Hattn).
  destruct (test_step_inv B _ _ _ _ _ H)
    as (txt & itm' & ph & wav_p & mel_p & wav_g & mel_g & phs & m2p & fn_p & fn_g
        & _ & _ & _ & _ & _ & Hpool).
  exists itm, jobs. repeat (split; [assumption|]). split.
  - rewrite Hjobs in Hpool. apply app_inv_head in Hpool. rewrite Hpool.
    destruct (save_gt (hparams self)); reflexivity.
  - destruct (default false (save_attn (hparams self))); [|exact Hattn].
    destruct Hattn as (a & Ha & Hd & _ & Hs). exists a. eexists.
    split; [exact Ha|]. split; [apply t3_first_ok, Hd|exact Hs].
Qed.

Lemma replace1_length (old c : N) (s : pystr) :
  length (replace1 old [c] s) = length s.
Proof.
  unfold replace1. induction s as [|x s IH]; [reflexivity|].
  cbn [flat_map]. rewrite length_app, IH. destruct (N.eqb x old); reflexivity.
Qed.

Lemma clean_text_length (txt : option pystr) : (length (clean_text txt) <= 80)%nat.
Proof.
  destruct txt as [t|]; cbn [clean_text length]; [|lia].
  change (py "_") with [chr "_"]. rewrite replace1_length, length_take. lia.
Qed.

(** Once the argument is used, formatting never lengthens the text. *)
Lemma pymod_go_used_length (arg fmt : pystr) (m : fmode) (r : pystr) :
  pymod_go B arg m true fmt = Ok r -> (length r <= length fmt)%nat.
Proof.
  revert m r. induction fmt as [|c fmt IH]; intros m r H.
  - cbn in H. destruct m; try discriminate H. injection H as <-. reflexivity.
  - cbn [pymod_go] in H. destruct (fstep B arg m true c) as [m'|s u|e] eqn:E.
    + apply IH in H. cbn [length]. lia.
    + apply fstep_used_emit in E as [-> ->].
      destruct (pymod_go B arg MLit true fmt) as [r'|] eqn:E'; [|discriminate H].
      cbn in H. injection H as <-. apply IH in E'. cbn [length app]. lia.
    + discriminate H.
Qed.

Lemma file_name_length (batch_idx : Z) (itm marker rest : pystr) :
  length (file_name batch_idx itm marker rest) =
    (length (format_06d batch_idx) + 6 + length itm + length marker + length rest)%nat.
Proof.
  unfold file_name, path_prefix, clean_item.
  change (py "_") with [chr "_"].
  rewrite !length_app, !replace1_length. cbn [py List.map list_ascii_of_string length].
  lia.
Qed.

(** X13. The two file names a successful [test_step] reports have the same
    length and differ: the prediction never takes the name of the ground
    truth. The item name enters a file name in full, whatever its length,
    one character for each of its characters; the text contributes at most
    80 characters. *)
Theorem test_step_name_length (self self' : A3TTask) (sample : Sample)
    (batch_idx : Z) (d : gmap string descval) :
  test_step B self sample batch_idx = Ok (self', d) ->
  exists itm fn_p fn_g text_part,
    list_first (item_name sample) = Ok itm /\
    d !! "wav_fn_pred" = Some (DStr fn_p) /\
    d !! "wav_fn_gt" = Some (DStr fn_g) /\
    fn_p <> fn_g /\
    length fn_g = length fn_p /\
    length fn_p = (length (format_06d batch_idx) + 7 + length itm + text_part)%nat /\
    (text_part <= 80)%nat /\
    (6 <= length (format_06d batch_idx))%nat.
Proof.
  intros H.
  destruct (test_step_names B _ _ _ _ _ H)
    as (txt & itm & rest & jP & jG & _ & Hi & Hr & Hp & Hg & _).
  exists itm, (file_name batch_idx itm (py "P") rest),
    (file_name batch_idx itm (py "G") rest), (length rest).
  split; [exact Hi|]. split; [exact Hp|]. split; [exact Hg|]. split.
  { unfold file_name. intros E. repeat apply app_inv_head in E. discriminate E. }
  rewrite !file_name_length. cbn [py List.map list_ascii_of_string length].
  split; [reflexivity|]. split; [lia|]. split; [|apply format_06d_width].
  apply pymod_go_used_length in Hr. pose proof (clean_text_length txt). lia.
Qed.

End TestStepMore.

Section TestStepMoreExamples.

Lemma test_step_returns_witness :
  exists self' d jP jG,
    test_step quote_builtins attn_task demo_sample 3 = Ok (self', d) /\
    d !! "wav_fn_pred" =
      Some (DStr (file_name 3 (py "spk1_utt1") (py "P") (clean_text (Some (py "hello world"))))) /\
    d !! "wav_fn_gt" =
      Some (DStr (file_name 3 (py "spk1_utt1") (py "G") (clean_text (Some (py "hello world"))))) /\
    new_jobs attn_task self' = [jP; jG] /\
    job_base_fn jP = file_name 3 (py "spk1_utt1") (py "P") (clean_text (Some (py "hello world"))) /\
    job_base_fn jG = file_name 3 (py "spk1_utt1") (py "G") (clean_text (Some (py "hello world"))).
Proof.
  apply (test_step_returns quote_builtins attn_task demo_sample 3 (demo_estimate false)
           (Some (py "hello world")) (py "spk1_utt1"));
    try reflexivity; try discriminate.
  - split; reflexivity.
  - repeat split.
  - apply no_percent_hello.
  - intros _. exists demo_attn. split; [reflexivity|]. split; [discriminate|reflexivity].
Defined.


Lemma attn_step_returns :
  exists self' d, test_step quote_builtins attn_task demo_sample 3 = Ok (self', d).
Proof.
  apply (test_step_ok quote_builtins attn_task demo_sample 3 (demo_estimate false)
           (Some (py "hello world")) (py "spk1_utt1"));
    try reflexivity; try discriminate.
  - split; reflexivity.
  - repeat split.
  - apply no_percent_hello.
  - intros _. exists demo_attn. split; [reflexivity|]. split; [discriminate|reflexivity].
Qed.


Lemma test_step_effects_witness :
  exists self' d m,
    test_step quote_builtins attn_task demo_sample 3 = Ok (self', d) /\
    t3_first demo_attn = Ok m /\
    saved_attn self' = [(py "out/attn/spk1_utt1.npy", m)] /\
    length (saving_result_pool self') = 2%nat.
Proof.
  destruct attn_step_returns as (self' & d & E).
  destruct (test_step_effects quote_builtins _ _ _ _ _ E)
    as (itm & jobs & Hi & _ & _ & _ & _ & _ & _ & _ & Hj & Hl & a & m & Ha & Hm & Hs).
  injection Hi as <-. injection Ha as <-.
  exists self', d, m. split; [exact E|]. split; [exact Hm|]. split; [exact Hs|].
  rewrite Hj. exact Hl.
Defined.

Lemma test_step_name_length_witness :
  exists self' d fn_p fn_g,
    test_step quote_builtins attn_task demo_sample 3 = Ok (self', d) /\
    d !! "wav_fn_pred" = Some (DStr fn_p) /\
    d !! "wav_fn_gt" = Some (DStr fn_g) /\
    fn_p <> fn_g /\ length fn_g = length fn_p /\
    (22 <= length fn_p <= 102)%nat.
Proof.
  destruct attn_step_returns as (self' & d & E).
  destruct (test_step_name_length quote_builtins _ _ _ _ _ E)
    as (itm & fn_p & fn_g & n & Hi & Hp & Hg & Hne & Hl & Hlen & Hn & _).
  injection Hi as <-.
  exists self', d, fn_p, fn_g. repeat (split; [assumption|]).
  rewrite Hlen. change (length (format_06d 3)) with 6%nat.
  change (length (py "spk1_utt1")) with 9%nat. lia.
Defined.

End TestStepMoreExamples.

(** ** The target padding mask of [get_attn_stats] *)

Section PaddingMask.

Lemma add_keeps_inf_or_nan (a x : F32.t) :
  inf_or_nan a -> inf_or_nan (F32.add a (F32.abs x)).
Proof.
  intros [-> | ->]; destruct x as [s|s| |s m e]; cbn;
    first [left; reflexivity | right; reflexivity].
Qed.

Lemma add_abs_nonfinite (a x : F32.t) :
  F32.is_finite x = false -> inf_or_nan (F32.add a (F32.abs x)).
Proof.
  destruct x as [s|s| |s m e]; try discriminate; intros _; cbn.
  - destruct a as [sa|sa| |sa ma ea]; try destruct sa; cbn;
      first [left; reflexivity | right; reflexivity].
  - destruct a; right; reflexivity.
Qed.

Lemma fold_keeps_inf_or_nan (l : list F32.t) (a : F32.t) :
  inf_or_nan a -> inf_or_nan (fold_left F32.add (List.map F32.abs l) a).
Proof.
  revert a. induction l as [|x l IH]; intros a H; [exact H|].
  cbn [List.map fold_left]. apply IH, add_keeps_inf_or_nan, H.
Qed.

Lemma fold_abs_nonfinite (l : list F32.t) (a : F32.t) :
  Exists (fun v => F32.is_finite v = false) l ->
  inf_or_nan (fold_left F32.add (List.map F32.abs l) a).
Proof.
  intros H. revert a. induction H as [x l Hx|x l _ IH]; intros a;
    cbn [List.map fold_left].
  - apply fold_keeps_inf_or_nan, add_abs_nonfinite, Hx.
  - apply IH.
Qed.

Lemma fold_abs_zeros (l : list F32.t) :
  Forall (fun v => F32.is_zero v = true) l ->
  fold_left F32.add (List.map F32.abs l) F32.zero = F32.zero.
Proof.
  induction 1 as [|x l Hx _ IH]; [reflexivity|].
  cbn [List.map fold_left]. destruct x; try discriminate Hx. exact IH.
Qed.

(** X14. A frame all of whose channels are zero, of either sign, is target
    padding for the alignment metrics, and so is every frame of a
    spectrogram without channels. *)
Theorem padding_zero_frame (sample : Sample) (b t : nat) :
  (forall c, (c < dim2 (mels sample))%nat ->
     F32.is_zero (at3 (mels sample) b t c) = true) ->
  at2 (t2_feq0 (abs_sum_last (mels sample))) b t = true.
Proof.
  intros H. cbn [t2_feq0 t2_map abs_sum_last at2].
  rewrite <- (List.map_map (fun c => at3 (mels sample) b t c) F32.abs).
  rewrite fold_abs_zeros; [reflexivity|].
  apply List.Forall_forall. intros v Hv. apply in_map_iff in Hv as (c & <- & Hc).
  apply in_seq in Hc. apply H. lia.
Qed.

(** X15. A frame with a channel that is infinite or NaN is never target padding,
    whatever its other channels hold. *)
Theorem padding_nonfinite_frame (sample : Sample) (b t c : nat) :
  (c < dim2 (mels sample))%nat ->
  F32.is_finite (at3 (mels sample) b t c) = false ->
  at2 (t2_feq0 (abs_sum_last (mels sample))) b t = false.
Proof.
  intros Hc Hv. cbn [t2_feq0 t2_map abs_sum_last at2].
  rewrite <- (List.map_map (fun c => at3 (mels sample) b t c) F32.abs).
  destruct (fold_abs_nonfinite
              (List.map (fun c => at3 (mels sample) b t c) (seq 0 (dim2 (mels sample))))
              F32.zero) as [-> | ->]; [|reflexivity|reflexivity].
  apply List.Exists_exists. exists (at3 (mels sample) b t c). split; [|exact Hv].
  apply in_map_iff. exists c. split; [reflexivity|]. apply in_seq. lia.
Qed.

Lemma padding_zero_frame_witness :
  at2 (t2_feq0 (abs_sum_last (frame2 F32.zero F32.neg_zero))) 0 0 = true.
Proof.
  apply (padding_zero_frame (with_mels (frame2 F32.zero F32.neg_zero) demo_sample) 0 0).
  intros [|[|c]] Hc; [reflexivity|reflexivity|cbn in Hc; lia].
Defined.

Lemma padding_nonfinite_frame_witness :
  at2 (t2_feq0 (abs_sum_last (frame2 F32.nan F32.zero))) 0 0 = false.
Proof.
  apply (padding_nonfinite_frame (with_mels (frame2 F32.nan F32.zero) demo_sample) 0 0 0).
  - cbn. lia.
  - reflexivity.
Defined.

End PaddingMask.

(** ** [save_valid_result] *)

Section ValidResult.

Variable vh : ValidHParams.

Lemma digits_inj (a b : N) : digits a = digits b -> a = b.
Proof.
  unfold digits. intros H. apply uint_codes_inj in H.
  apply DecimalN.Unsigned.to_uint_inj, H.
Qed.

Lemma digits_no_minus (n : N) (l : pystr) : digits n <> chr "-" :: l.
Proof.
  intros H. pose proof (uint_codes_digits (N.to_uint n)) as Hd.
  unfold digits in H. rewrite H in Hd. inversion Hd as [|? ? Hc _]. cbn in Hc. lia.
Qed.

(** Distinct integers are printed differently. *)
Lemma str_int_inj (a b : Z) : str_int a = str_int b -> a = b.
Proof.
  unfold str_int.
  destruct (Z.ltb_spec a 0) as [Ha|Ha], (Z.ltb_spec b 0) as [Hb|Hb]; intros H.
  - injection H as H. apply digits_inj in H. lia.
  - symmetry in H. apply digits_no_minus in H. destruct H.
  - apply digits_no_minus in H. destruct H.
  - apply digits_inj in H. lia.
Qed.

Lemma str_int_chars (n : Z) :
  Forall (fun c => c = chr "-" \/ (48 <= c <= 57)%N) (str_int n).
Proof.
  unfold str_int, digits. destruct (Z.ltb n 0).
  - constructor; [left; reflexivity|].
    eapply Forall_impl; [apply uint_codes_digits|]. intros c Hc. right. exact Hc.
  - eapply Forall_impl; [apply uint_codes_digits|]. intros c Hc. right. exact Hc.
Qed.

Ltac step_inv H x E :=
  apply bind_ok in H as (x & E & H); cbn beta zeta in H.

(** The events of a call that returns, part by part. *)
Lemma save_valid_result_inv (self : A3TTask) (log log' : list LogEvent)
    (sample : Sample) (batch_idx : Z) (mo : ModelOut) :
  save_valid_result vh self log sample batch_idx mo = Ok log' ->
  exists mel pa ga fa,
    mo !! "mel_out" = Some mel /\
    log' = log ++ PlotMel batch_idx (mels sample) mel :: pa ++ ga ++ fa /\
    (if Z.ltb 0 (global_step self)
     then exists m, t3_first mel = Ok m /\
            pa = [AddAudio (py "wav_val_" ++ str_int batch_idx) (spec2wav self m)
                    (global_step self) (audio_sample_rate vh)]
     else pa = []) /\
    (if Z.leb (global_step self) (valid_infer_interval vh)
     then exists m, t3_first (mels sample) = Ok m /\
            ga = [AddAudio (py "wav_gt_" ++ str_int batch_idx) (spec2wav self m)
                    (global_step self) (audio_sample_rate vh)]
     else ga = []) /\
    (if Z.ltb 0 (global_step self) && bool_decide (dur_level vh = py "word")
     then match mo !! "attn" with
          | Some a => exists m, t3_first a = Ok m /\
              fa = [AddFigure (py "attn_" ++ str_int batch_idx) m (global_step self)]
          | None => fa = []
          end
     else fa = []).
Proof.
  unfold save_valid_result. intros H.
  step_inv H mel Em. step_inv H log1 E1. step_inv H log2 E2.
  apply getitem_ok in Em.
  assert (H1 : exists pa, log1 = (log ++ [PlotMel batch_idx (mels sample) mel]) ++ pa /\
    (if Z.ltb 0 (global_step self)
     then exists m, t3_first mel = Ok m /\
            pa = [AddAudio (py "wav_val_" ++ str_int batch_idx) (spec2wav self m)
                    (global_step self) (audio_sample_rate vh)]
     else pa = [])).
  { destruct (Z.ltb 0 (global_step self)).
    - step_inv E1 m Ef. injection E1 as <-. eexists. split; [reflexivity|]. eauto.
    - injection E1 as <-. exists []. rewrite app_nil_r. auto. }
  destruct H1 as (pa & -> & Hpa).
  assert (H2 : exists ga,
    log2 = ((log ++ [PlotMel batch_idx (mels sample) mel]) ++ pa) ++ ga /\
    (if Z.leb (global_step self) (valid_infer_interval vh)
     then exists m, t3_first (mels sample) = Ok m /\
            ga = [AddAudio (py "wav_gt_" ++ str_int batch_idx) (spec2wav self m)
                    (global_step self) (audio_sample_rate vh)]
     else ga = [])).
  { destruct (Z.leb (global_step self) (valid_infer_interval vh)).
    - step_inv E2 m Ef. injection E2 as <-. eexists. split; [reflexivity|]. eauto.
    - injection E2 as <-. exists []. rewrite app_nil_r. auto. }
  destruct H2 as (ga & -> & Hga).
  assert (H3 : exists fa,
    log' = (((log ++ [PlotMel batch_idx (mels sample) mel]) ++ pa) ++ ga) ++ fa /\
    (if Z.ltb 0 (global_step self) && bool_decide (dur_level vh = py "word")
     then match mo !! "attn" with
          | Some a => exists m, t3_first a = Ok m /\
              fa = [AddFigure (py "attn_" ++ str_int batch_idx) m (global_step self)]
          | None => fa = []
          end
     else fa = [])).
  { destruct (Z.ltb 0 (global_step self) && bool_decide (dur_level vh = py "word")).
    - destruct (mo !! "attn") as [a|].
      + step_inv H m Ef. injection H as <-. eexists. split; [reflexivity|]. eauto.
      + injection H as <-. exists []. rewrite app_nil_r. auto.
    - injection H as <-. exists []. rewrite app_nil_r. auto. }
  destruct H3 as (fa & -> & Hfa).
  exists mel, pa, ga, fa. split; [exact Em|]. split; [|auto].
  rewrite <- !app_assoc. reflexivity.
Qed.



(** A tag names its batch: tags built for different batch indices differ,
    whatever their kinds. *)
Lemma tagged_for_inj (i1 i2 : Z) (e1 e2 : LogEvent) (tag : pystr) :
  tagged_for i1 e1 -> tagged_for i2 e2 ->
  event_tag e1 = Some tag -> event_tag e2 = Some tag -> i1 = i2.
Proof.
  unfold tagged_for. intros H1 H2 E1 E2. rewrite E1 in H1. rewrite E2 in H2.
  destruct H1 as (k1 & Hk1 & ->), H2 as (k2 & Hk2 & H).
  apply str_int_inj. generalize dependent (str_int i1). generalize dependent (str_int i2).
  intros s2 s1 _ _ H.
  cbn [In] in Hk1, Hk2.
  destruct Hk1 as [<-|[<-|[<-|[]]]], Hk2 as [<-|[<-|[<-|[]]]];
    first [ exact (app_inv_head _ _ _ H) | vm_compute in H; discriminate H ].
Qed.

(** X17. When [save_valid_result] returns it has plotted the spectrograms and
    then logged, at the current global step: the predicted audio exactly
    when the step is past 0, the ground-truth audio exactly when the step is
    not past [valid_infer_interval], and the attention figure exactly when
    the step is past 0, durations are at word level and the model returned
    an attention map. Nothing already in the log is touched. *)
Theorem save_valid_result_log (self : A3TTask) (log log' : list LogEvent)
    (sample : Sample) (batch_idx : Z) (mo : ModelOut) :
  save_valid_result vh self log sample batch_idx mo = Ok log' ->
  exists mel new,
    mo !! "mel_out" = Some mel /\
    log' = log ++ PlotMel batch_idx (mels sample) mel :: new /\
    (length new <= 3)%nat /\
    Forall (tagged_for batch_idx) new /\
    ((exists wav, In (AddAudio (py "wav_val_" ++ str_int batch_idx) wav
                        (global_step self) (audio_sample_rate vh)) new)
     <-> 0 < global_step self) /\
    ((exists wav, In (AddAudio (py "wav_gt_" ++ str_int batch_idx) wav
                        (global_step self) (audio_sample_rate vh)) new)
     <-> global_step self <= valid_infer_interval vh) /\
    ((exists fig, In (AddFigure (py "attn_" ++ str_int batch_idx) fig
                        (global_step self)) new)
     <-> 0 < global_step self /\ dur_level vh = py "word" /\ is_Some (mo !! "attn")).
Proof.
  intros H.
  destruct (save_valid_result_inv _ _ _ _ _ _ H) as (mel & pa & ga & fa & Em & -> & Hpa & Hga & Hfa).
  exists mel, (pa ++ ga ++ fa). split; [exact Em|]. split; [reflexivity|].
  assert (Hval : forall s, py "wav_val_" ++ s <> py "wav_gt_" ++ s).
  { intros s E. vm_compute in E. discriminate E. }
  assert (Lpa : (length pa <= 1)%nat /\ Forall (tagged_for batch_idx) pa /\
    forall e, In e pa -> 0 < global_step self /\
      exists wav, e = AddAudio (py "wav_val_" ++ str_int batch_idx) wav
                        (global_step self) (audio_sample_rate vh)).
  { destruct (Z.ltb_spec 0 (global_step self)) as [Hg|Hg].
    - destruct Hpa as (m & _ & ->). split; [cbn; lia|]. split.
      + repeat constructor. exists (py "wav_val_"). cbn [In]. auto.
      + intros e [<-|[]]. eauto.
    - subst pa. split; [cbn; lia|]. split; [constructor|]. intros e []. }
  assert (Lga : (length ga <= 1)%nat /\ Forall (tagged_for batch_idx) ga /\
    forall e, In e ga -> global_step self <= valid_infer_interval vh /\
      exists wav, e = AddAudio (py "wav_gt_" ++ str_int batch_idx) wav
                        (global_step self) (audio_sample_rate vh)).
  { destruct (Z.leb_spec (global_step self) (valid_infer_interval vh)) as [Hg|Hg].
    - destruct Hga as (m & _ & ->). split; [cbn; lia|]. split.
      + repeat constructor. exists (py "wav_gt_"). cbn [In]. auto.
      + intros e [<-|[]]. eauto.
    - subst ga. split; [cbn; lia|]. split; [constructor|]. intros e []. }
  assert (Lfa : (length fa <= 1)%nat /\ Forall (tagged_for batch_idx) fa /\
    forall e, In e fa ->
      0 < global_step self /\ dur_level vh = py "word" /\ is_Some (mo !! "attn") /\
      exists fig, e = AddFigure (py "attn_" ++ str_int batch_idx) fig (global_step self)).
  { destruct (Z.ltb_spec 0 (global_step self)) as [Hg|Hg]; cbn [andb] in Hfa;
      [destruct (bool_decide_reflect (dur_level vh = py "word")) as [Hw|Hw];
       [destruct (mo !! "attn") as [a|]|]|].
    - destruct Hfa as (m & _ & ->). split; [cbn; lia|]. split.
      + repeat constructor. exists (py "attn_"). cbn [In]. auto.
      + intros e [<-|[]]. eauto 6.
    - subst fa. split; [cbn; lia|]. split; [constructor|]. intros e [].
    - subst fa. split; [cbn; lia|]. split; [constructor|]. intros e [].
    - subst fa. split; [cbn; lia|]. split; [constructor|]. intros e []. }
  destruct Lpa as (Lp1 & Lp2 & Lp3), Lga as (Lg1 & Lg2 & Lg3), Lfa as (Lf1 & Lf2 & Lf3).
  split; [rewrite !length_app; lia|].
  split; [repeat (apply Forall_app; split); assumption|].
  split; [|split].
  - split.
    + intros [wav HIn]. apply in_app_iff in HIn as [HIn|HIn];
        [exact (proj1 (Lp3 _ HIn))|].
      apply in_app_iff in HIn as [HIn|HIn].
      * destruct (Lg3 _ HIn) as (_ & w & E). apply (f_equal event_tag) in E.
        cbn [event_tag] in E. apply (inj Some) in E. destruct (Hval _ E).
      * destruct (Lf3 _ HIn) as (_ & _ & _ & f & E). discriminate E.
    + intros Hg. apply Z.ltb_lt in Hg. rewrite Hg in Hpa.
      destruct Hpa as (m & _ & ->). eexists. apply in_app_iff. left. left. reflexivity.
  - split.
    + intros [wav HIn]. apply in_app_iff in HIn as [HIn|HIn].
      { destruct (Lp3 _ HIn) as (_ & w & E). apply (f_equal event_tag) in E.
        cbn [event_tag] in E. apply (inj Some) in E.
        symmetry in E. destruct (Hval _ E). }
      apply in_app_iff in HIn as [HIn|HIn]; [exact (proj1 (Lg3 _ HIn))|].
      destruct (Lf3 _ HIn) as (_ & _ & _ & f & E). discriminate E.
    + intros Hg. apply Z.leb_le in Hg. rewrite Hg in Hga.
      destruct Hga as (m & _ & ->). eexists. apply in_app_iff. right.
      apply in_app_iff. left. left. reflexivity.
  - split.
    + intros [fig HIn]. apply in_app_iff in HIn as [HIn|HIn].
      { destruct (Lp3 _ HIn) as (_ & w & E). discriminate E. }
      apply in_app_iff in HIn as [HIn|HIn].
      { destruct (Lg3 _ HIn) as (_ & w & E). discriminate E. }
      destruct (Lf3 _ HIn) as (H1 & H2 & H3 & _). auto.
    + intros (Hg & Hw & [a Ha]). apply Z.ltb_lt in Hg. rewrite Hg in Hfa.
      cbn [andb] in Hfa. rewrite (bool_decide_eq_true_2 _ Hw), Ha in Hfa.
      destruct Hfa as (m & _ & ->). eexists. apply in_app_iff. right.
      apply in_app_iff. right. left. reflexivity.
Qed.

(** X18. The events logged for two validation batches with different indices
    never share a tag: no audio or figure of one batch replaces one of the
    other. *)
Theorem validation_tags_distinct (self1 self2 : A3TTask) (log1 log1' log2 log2' : list LogEvent)
    (sample1 sample2 : Sample) (idx1 idx2 : Z) (mo1 mo2 : ModelOut) :
  save_valid_result vh self1 log1 sample1 idx1 mo1 = Ok log1' ->
  save_valid_result vh self2 log2 sample2 idx2 mo2 = Ok log2' ->
  idx1 <> idx2 ->
  exists new1 new2,
    log1' = log1 ++ new1 /\ log2' = log2 ++ new2 /\
    forall e1 e2 tag, In e1 new1 -> In e2 new2 ->
      event_tag e1 = Some tag -> event_tag e2 <> Some tag.
Proof.
  intros H1 H2 Hne.
  assert (Hnew : forall self log log' sample idx mo,
    save_valid_result vh self log sample idx mo = Ok log' ->
    exists new, log' = log ++ new /\ Forall (tagged_for idx) new).
  { clear. intros self log log' sample idx mo H.
    destruct (save_valid_result_inv _ _ _ _ _ _ H)
      as (mel & pa & ga & fa & _ & -> & Hpa & Hga & Hfa).
    eexists. split; [reflexivity|].
    constructor; [exact I|].
    repeat (apply Forall_app; split).
    - destruct (Z.ltb 0 (global_step self)); [destruct Hpa as (m & _ & ->)|subst pa];
        repeat constructor. exists (py "wav_val_"). cbn [In]. auto.
    - destruct (Z.leb (global_step self) (valid_infer_interval vh));
        [destruct Hga as (m & _ & ->)|subst ga]; repeat constructor.
      exists (py "wav_gt_"). cbn [In]. auto.
    - destruct (Z.ltb 0 (global_step self) && bool_decide (dur_level vh = py "word"));
        [destruct (mo !! "attn"); [destruct Hfa as (m & _ & ->)|subst fa]|subst fa];
        repeat constructor.
      exists (py "attn_"). cbn [In]. auto. }
  destruct (Hnew _ _ _ _ _ _ H1) as (new1 & -> & F1).
  destruct (Hnew _ _ _ _ _ _ H2) as (new2 & -> & F2).
  exists new1, new2. split; [reflexivity|]. split; [reflexivity|].
  intros e1 e2 tag I1 I2 E1 E2. apply Hne.
  rewrite List.Forall_forall in F1, F2.
  exact (tagged_for_inj idx1 idx2 e1 e2 tag (F1 _ I1) (F2 _ I2) E1 E2).
Qed.

End ValidResult.

Section ValidResultExamples.


(** Global step 7, past the interval of 5, no attention map: the plot and
    the predicted audio. *)
Lemma save_valid_result_log_witness :
  exists log' new,
    save_valid_result demo_valid_hparams silent_task [] demo_sample 2
      {[ "mel_out" := demo_estimate false ]} = Ok log' /\
    log' = [] ++ PlotMel 2 (mels demo_sample) (demo_estimate false) :: new /\
    (exists wav, In (AddAudio (py "wav_val_" ++ str_int 2) wav 7 22050) new) /\
    ~ (exists wav, In (AddAudio (py "wav_gt_" ++ str_int 2) wav 7 22050) new).
Proof.
  assert (E : exists log',
    save_valid_result demo_valid_hparams silent_task [] demo_sample 2
      {[ "mel_out" := demo_estimate false ]} = Ok log') by (eexists; reflexivity).
  destruct E as [log' E].
  destruct (save_valid_result_log demo_valid_hparams _ _ _ _ _ _ E)
    as (mel & new & Hm & Hl & _ & _ & Hv & Hg & _).
  injection Hm as <-.
  exists log', new. split; [exact E|]. split; [exact Hl|]. split.
  - apply Hv. reflexivity.
  - intros Hx. apply Hg in Hx. cbn in Hx. lia.
Defined.

Lemma validation_tags_distinct_witness :
  exists log1 log2 new1 new2,
    save_valid_result demo_valid_hparams silent_task [] demo_sample 2
      {[ "mel_out" := demo_estimate false ]} = Ok log1 /\
    save_valid_result demo_valid_hparams silent_task [] demo_sample 3
      {[ "mel_out" := demo_estimate false ]} = Ok log2 /\
    log1 = [] ++ new1 /\ log2 = [] ++ new2 /\
    forall e1 e2 tag, In e1 new1 -> In e2 new2 ->
      event_tag e1 = Some tag -> event_tag e2 <> Some tag.
Proof.
  assert (E1 : exists log',
    save_valid_result demo_valid_hparams silent_task [] demo_sample 2
      {[ "mel_out" := demo_estimate false ]} = Ok log') by (eexists; reflexivity).
  assert (E2 : exists log',
    save_valid_result demo_valid_hparams silent_task [] demo_sample 3
      {[ "mel_out" := demo_estimate false ]} = Ok log') by (eexists; reflexivity).
  destruct E1 as [log1 E1], E2 as [log2 E2].
  destruct (validation_tags_distinct demo_valid_hparams _ _ _ _ _ _ _ _ 2 3 _ _ E1 E2)
    as (new1 & new2 & H1 & H2 & H); [discriminate|].
  exists log1, log2, new1, new2. auto.
Defined.

End ValidResultExamples.
